(** * Flint static-site generator: build orchestrator, slug and tag engine

    A shallow embedding of the TypeScript sources

      - [src/core/builder.ts]          (SiteBuilder)
      - [src/core/page-metadata.ts]    (parsePageMetadata, generateSlug)
      - [src/core/template.ts]         (TemplateEngine.renderPage)
      - [src/components/layout.ts]     (Layout.render)
      - [src/templates/tag-engine.ts]  (resolveTag, processTemplate)
      - [src/templates/helpers.ts]     (renderHead, renderFootScripts)
      - [src/index.ts]                 (labelSlug, the client-side slug,
                                        and the label router)
      - [src/core/seo.ts]              (generateRobotsTxt, generateSitemap)
      - [src/templates/template-registry.ts]
                                       (TemplateRegistry,
                                        loadTemplatesFromDir)

    JavaScript strings are modelled by [string]: a sequence of code units
    below 256 (the Latin-1 range).  A number is NaN, an infinity or a
    finite value, kept as a rational; what the engine does with the text
    of a number ([Number(s)], [String(n)]) and [Array.prototype.sort] are
    parameters.  Collaborators whose code is not part of the modelled
    sources (the gray-matter front-matter parser, the markdown compiler,
    Node's [fs] and [path.join], [Intl] collation, components rendered by
    other modules) are fields of the record [Externals]; file reads and
    writes are taken to succeed, and a collaborator returns unless its
    field has a value for a throw. *)

From Stdlib Require Import String Ascii List ZArith Lia Bool.
From Stdlib Require Import Permutation Sorted DecimalString DecimalZ QArith.
Import ListNotations.

Open Scope string_scope.
Open Scope Z_scope.

(* ===================================================================== *)
(** ** JavaScript string primitives *)
(* ===================================================================== *)

Module Js.

(** The double-quote and the line-feed characters, as one-character
    strings. *)
Definition dq : string := String (ascii_of_nat 34) EmptyString.
Definition nl : string := String (ascii_of_nat 10) EmptyString.

Definition code (c : ascii) : nat := nat_of_ascii c.

(** [String.prototype.startsWith]. *)
Definition startsWith (s p : string) : bool := String.prefix p s.

(** [String.prototype.endsWith]: some suffix of [s] is [suf]. *)
Fixpoint endsWith (s suf : string) : bool :=
  (s =? suf)%string ||
  match s with
  | EmptyString => false
  | String _ s' => endsWith s' suf
  end.

(** [String.prototype.includes]: [needle] starts at some position. *)
Fixpoint includes (s needle : string) : bool :=
  String.prefix needle s ||
  match s with
  | EmptyString => false
  | String _ s' => includes s' needle
  end.

Fixpoint take (n : nat) (s : string) : string :=
  match n, s with
  | S n', String c s' => String c (take n' s')
  | _, _ => EmptyString
  end.

Fixpoint drop (n : nat) (s : string) : string :=
  match n, s with
  | S n', String _ s' => drop n' s'
  | _, _ => s
  end.

(** [s.slice(0, -k)] for [k >= 0].  The end index [-k] counts from the
    end of the string when it is negative; [-0] is [0], so for [k = 0]
    the slice is empty. *)
Definition slice0neg (k : nat) (s : string) : string :=
  match k with
  | O => EmptyString
  | S _ => take (String.length s - k) s
  end.

(** [s.slice(k)] for [0 <= k]. *)
Definition sliceFrom (k : nat) (s : string) : string := drop k s.

Fixpoint mapChars (f : ascii -> ascii) (s : string) : string :=
  match s with
  | EmptyString => EmptyString
  | String c s' => String (f c) (mapChars f s')
  end.

Fixpoint dropWhile (p : ascii -> bool) (s : string) : string :=
  match s with
  | EmptyString => EmptyString
  | String c s' => if p c then dropWhile p s' else s
  end.

Fixpoint takeWhile (p : ascii -> bool) (s : string) : string :=
  match s with
  | EmptyString => EmptyString
  | String c s' => if p c then String c (takeWhile p s') else EmptyString
  end.

Fixpoint allChars (p : ascii -> bool) (s : string) : bool :=
  match s with
  | EmptyString => true
  | String c s' => p c && allChars p s'
  end.

Fixpoint rev (s : string) : string :=
  match s with
  | EmptyString => EmptyString
  | String c s' => rev s' ++ String c EmptyString
  end.

(** White space as [\s] and [trim] see it, in the Latin-1 range:
    TAB, LF, VT, FF, CR, SPACE and NO-BREAK SPACE. *)
Definition isSpace (c : ascii) : bool :=
  let n := code c in
  ((9 <=? n) && (n <=? 13) || (n =? 32) || (n =? 160))%nat.

Definition trimStart (s : string) : string := dropWhile isSpace s.
Definition trimEnd (s : string) : string := rev (dropWhile isSpace (rev s)).

(** [String.prototype.trim]. *)
Definition trim (s : string) : string := trimEnd (trimStart s).

(** [String.prototype.toLowerCase] on Latin-1: A-Z and the accented
    capitals U+00C0..U+00DE (without the multiplication sign U+00D7)
    move up by 32. *)
Definition lowerChar (c : ascii) : ascii :=
  let n := code c in
  if ((65 <=? n) && (n <=? 90))%nat then ascii_of_nat (n + 32)
  else if ((192 <=? n) && (n <=? 222) && negb (n =? 215))%nat
       then ascii_of_nat (n + 32)
  else c.

Definition toLowerCase (s : string) : string := mapChars lowerChar s.

(** [Array.prototype.join]. *)
Definition join (sep : string) (l : list string) : string :=
  String.concat sep l.

(** *** Global regular-expression replacement

    [s.replace(/re/g, f)] scans [s] from left to right.  At each position
    the expression is tried; a match of [len] code units is replaced by
    the replacement and the scan resumes behind it, otherwise the code
    unit is copied.  A matcher gets the flag "at the start of the input"
    (for [^]) and the rest of the input, and answers with the replacement
    and the length of the match.  The expressions of this program never
    match the empty string. *)
Definition matcher := bool -> string -> option (string * nat).

Fixpoint scanFrom (m : matcher) (atStart : bool) (skip : nat) (s : string)
  : string :=
  match s with
  | EmptyString => EmptyString
  | String c s' =>
      match skip with
      | S k => scanFrom m false k s'
      | O =>
          match m atStart s with
          | Some (repl, len) => repl ++ scanFrom m false (Nat.pred len) s'
          | None => String c (scanFrom m false 0 s')
          end
      end
  end.

Definition replaceAll (m : matcher) (s : string) : string :=
  scanFrom m true 0 s.

(** [s.replace(/\\/g, '/')]. *)
Definition backslash : ascii := ascii_of_nat 92.

Definition reBackslash : matcher := fun _ s =>
  match s with
  | String c _ => if (c =? backslash)%char then Some ("/", 1%nat) else None
  | EmptyString => None
  end.

Definition slashify (s : string) : string := replaceAll reBackslash s.

(** [s.replace(/\.md$/, '')]: one match at most, anchored at the end. *)
Definition stripMd (s : string) : string :=
  if endsWith s ".md" then take (String.length s - 3) s else s.

End Js.

(* ===================================================================== *)
(** ** Node's [path.extname] (POSIX flavour) *)
(* ===================================================================== *)

Module Path.

(** The loop of [path.posix.extname] walks the path from its last code
    unit to the first and keeps five variables.  [-1] of the JavaScript
    source is [None] here. *)
Record ExtState := mkExt {
  startDot : option nat;
  startPart : nat;
  endIdx : option nat;
  matchedSlash : bool;
  preDotState : Z;
  stopped : bool
}.

Definition extInit : ExtState := mkExt None 0 None true 0 false.

Definition isNone {A} (o : option A) : bool :=
  match o with None => true | Some _ => false end.

(** One iteration of the loop, at index [i] holding code unit [c]. *)
Definition extStep (i : nat) (c : ascii) (st : ExtState) : ExtState :=
  if stopped st then st
  else if (c =? "/")%char then
    if negb (matchedSlash st)
    then mkExt (startDot st) (i + 1) (endIdx st) (matchedSlash st)
               (preDotState st) true
    else st
  else
    let st1 :=
      if isNone (endIdx st)
      then mkExt (startDot st) (startPart st) (Some (i + 1)%nat) false
                 (preDotState st) false
      else st in
    if (c =? ".")%char then
      if isNone (startDot st1)
      then mkExt (Some i) (startPart st1) (endIdx st1) (matchedSlash st1)
                 (preDotState st1) false
      else if negb (preDotState st1 =? 1)
      then mkExt (startDot st1) (startPart st1) (endIdx st1)
                 (matchedSlash st1) 1 false
      else st1
    else if negb (isNone (startDot st1))
    then mkExt (startDot st1) (startPart st1) (endIdx st1)
               (matchedSlash st1) (-1) false
    else st1.

(** The loop over the reversed path: the head of [rs] sits at index
    [length (tl rs)]. *)
Fixpoint extLoop (rs : list ascii) (st : ExtState) : ExtState :=
  match rs with
  | [] => st
  | c :: rs' => extLoop rs' (extStep (List.length rs') c st)
  end.

Definition extname (path : string) : string :=
  let st := extLoop (List.rev (list_ascii_of_string path)) extInit in
  match startDot st, endIdx st with
  | Some sd, Some e =>
      if (preDotState st =? 0)
         || ((preDotState st =? 1) && (sd =? e - 1)%nat
             && (sd =? startPart st + 1)%nat)
      then EmptyString
      else Js.take (e - sd) (Js.drop sd path)
  | _, _ => EmptyString
  end.

End Path.

(* ===================================================================== *)
(** ** Slugs: [generateSlug] (build time) and [labelSlug] (browser) *)
(* ===================================================================== *)

Module Slug.

Definition isAlnum (c : ascii) : bool :=
  let n := Js.code c in
  ((97 <=? n) && (n <=? 122) || (48 <=? n) && (n <=? 57))%nat.

Definition isHyphen (c : ascii) : bool := (c =? "-")%char.

(** [/[^a-z0-9]+/g]: a greedy, non-empty run of code units outside
    [a-z0-9]. *)
Definition reNonAlnumRun : Js.matcher := fun _ s =>
  let run := Js.takeWhile (fun c => negb (isAlnum c)) s in
  match run with
  | EmptyString => None
  | String _ _ => Some ("-", String.length run)
  end.

(** [/^-+|-+$/g]: hyphens at the very start, or a run of hyphens that
    reaches the end of the input. *)
Definition reEdgeHyphens : Js.matcher := fun atStart s =>
  let run := Js.takeWhile isHyphen s in
  match run with
  | EmptyString => None
  | String _ _ =>
      if atStart then Some (EmptyString, String.length run)
      else match Js.dropWhile isHyphen s with
           | EmptyString => Some (EmptyString, String.length run)
           | String _ _ => None
           end
  end.

(** page-metadata.ts, [generateSlug]. *)
Definition generateSlug (text : string) : string :=
  Js.replaceAll reEdgeHyphens
    (Js.replaceAll reNonAlnumRun
       (Js.trim (Js.toLowerCase text))).

(** index.ts, [labelSlug]: the browser's copy. *)
Definition labelSlug (text : string) : string :=
  Js.replaceAll reEdgeHyphens
    (Js.replaceAll reNonAlnumRun
       (Js.trim (Js.toLowerCase text))).

(** The contract in the words of the specification: lowercase, trim,
    collapse every run of characters outside [a-z0-9] to one hyphen,
    trim the hyphens at both ends. *)
Fixpoint collapseRuns (inRun : bool) (s : string) : string :=
  match s with
  | EmptyString => EmptyString
  | String c s' =>
      if isAlnum c then String c (collapseRuns false s')
      else if inRun then collapseRuns true s'
      else String "-" (collapseRuns true s')
  end.

Definition trimHyphens (s : string) : string :=
  Js.rev (Js.dropWhile isHyphen (Js.rev (Js.dropWhile isHyphen s))).

Definition slugSpec (text : string) : string :=
  trimHyphens (collapseRuns false (Js.trim (Js.toLowerCase text))).

End Slug.

(* ===================================================================== *)
(** ** JavaScript values found in a parsed YAML header *)
(* ===================================================================== *)

Module JsValue.

#[local] Set Warnings "-register-all".

(** A JavaScript number: NaN, an infinity, or a finite value, kept as
    the rational it stands for.  Negative zero is not told from zero: the
    program neither divides by a number nor looks at the sign of a
    zero. *)
Inductive JsNumber : Type :=
| NaN
| NegInfinity
| Finite (q : Q)
| PosInfinity.

Definition numOfZ (z : Z) : JsNumber := Finite (inject_Z z).

(** [Number.isNaN]. *)
Definition numIsNaN (n : JsNumber) : bool :=
  match n with
  | NaN => true
  | _ => false
  end.

(** [a - b].  The difference of two finite numbers is rounded by the
    engine; it is zero, below zero or above zero exactly when the
    difference of the rationals is.  The program tests it against zero
    and hands it to [sort], which reads its sign. *)
Definition numSub (a b : JsNumber) : JsNumber :=
  match a, b with
  | NaN, _ => NaN
  | _, NaN => NaN
  | PosInfinity, PosInfinity => NaN
  | NegInfinity, NegInfinity => NaN
  | PosInfinity, _ => PosInfinity
  | NegInfinity, _ => NegInfinity
  | Finite _, PosInfinity => NegInfinity
  | Finite _, NegInfinity => PosInfinity
  | Finite x, Finite y => Finite (x - y)%Q
  end.

(** [v === 0]. *)
Definition numIsZero (v : JsNumber) : bool :=
  match v with
  | Finite q => Qeq_bool q 0
  | _ => false
  end.

(** How [Array.prototype.sort] reads the value its comparator returns:
    NaN counts as [+0]; below zero the first argument sorts first, above
    zero the second. *)
Definition sortSign (v : JsNumber) : Z :=
  match v with
  | NaN => 0
  | NegInfinity => -1
  | PosInfinity => 1
  | Finite q =>
      match Qcompare q 0 with
      | Lt => -1
      | Eq => 0
      | Gt => 1
      end
  end.

(** What the YAML header can hold and the code inspects at run time:
    [undefined] (key absent), [null], booleans, numbers, strings and
    arrays. *)
Inductive JsVal : Type :=
| JUndefined
| JNull
| JBool (b : bool)
| JNum (n : JsNumber)
| JStr (s : string)
| JArr (l : list JsVal).

(** Truthiness, as [!v], [v || w] and [v ? a : b] test it. *)
Definition truthy (v : JsVal) : bool :=
  match v with
  | JUndefined | JNull => false
  | JBool b => b
  | JNum NaN => false
  | JNum (Finite q) => negb (Qeq_bool q 0)
  | JNum _ => true
  | JStr s => negb (s =? "")%string
  | JArr _ => true
  end.

(** [x || y]. *)
Definition orVal (x y : JsVal) : JsVal := if truthy x then x else y.

(** An optional string property: the string, or [undefined]. *)
Definition optStr (o : option string) : JsVal :=
  match o with
  | Some s => JStr s
  | None => JUndefined
  end.

(** A counter in a template literal: its decimal digits. *)
Definition zToString (z : Z) : string := NilZero.string_of_int (Z.to_int z).

Section Conversions.

(** [String(n)] on a finite number and [Number(s)] on a string, as the
    engine computes them. *)
Variable finiteToString : Q -> string.
Variable stringToNumber : string -> JsNumber.

Definition numToStr (n : JsNumber) : string :=
  match n with
  | NaN => "NaN"
  | NegInfinity => "-Infinity"
  | PosInfinity => "Infinity"
  | Finite q => finiteToString q
  end.

(** [String(v)], also what a template literal puts in for [v].  An array
    is its elements joined by commas, where [null] and [undefined]
    elements give the empty string. *)
Fixpoint toStr (v : JsVal) : string :=
  match v with
  | JUndefined => "undefined"
  | JNull => "null"
  | JBool true => "true"
  | JBool false => "false"
  | JNum n => numToStr n
  | JStr s => s
  | JArr l =>
      Js.join ","
        (List.map (fun e => match e with
                            | JUndefined | JNull => EmptyString
                            | _ => toStr e
                            end) l)
  end.

(** [Array.prototype.join] on an array of values. *)
Definition joinVals (sep : string) (l : list JsVal) : string :=
  Js.join sep
    (List.map (fun e => match e with
                        | JUndefined | JNull => EmptyString
                        | _ => toStr e
                        end) l).

(** [Number(v)]. *)
Definition toNumber (v : JsVal) : JsNumber :=
  match v with
  | JUndefined => NaN
  | JNull => numOfZ 0
  | JBool true => numOfZ 1
  | JBool false => numOfZ 0
  | JNum n => n
  | JStr s => stringToNumber s
  | JArr _ => stringToNumber (toStr v)
  end.

End Conversions.

End JsValue.

Import JsValue.

(* ===================================================================== *)
(** ** page-metadata.ts *)
(* ===================================================================== *)

(** [FrontmatterData] is [Record<string, unknown>].  The keys the program
    reads are fields here; a cast [as string] is erased at run time, so
    every key holds a [JsVal]. *)
Record FrontmatterData := mkFrontmatter {
  fm_title : JsVal;
  fm_Title : JsVal;
  fm_ShortURI : JsVal;
  fm_Type : JsVal;
  fm_Parent : JsVal;
  fm_Labels : JsVal;
  fm_Keywords : JsVal;
  fm_keywords : JsVal;
  fm_Order : JsVal;
  fm_Category : JsVal;
  fm_Author : JsVal;
  fm_Date : JsVal;
  fm_Description : JsVal;
  fm_description : JsVal;
  fm_Template : JsVal
}.

(** The empty object [{}]. *)
Definition emptyFrontmatter : FrontmatterData :=
  mkFrontmatter JUndefined JUndefined JUndefined JUndefined JUndefined
                JUndefined JUndefined JUndefined JUndefined JUndefined
                JUndefined JUndefined JUndefined JUndefined JUndefined.

Inductive PageType := TPage | TPost | TSection.

(** [new Date(v)]: the date object built from the header value. *)
Record JsDate := mkDate { dateArg : JsVal }.

(** [PageMetadata].  The fields filled with [(data[..] as string) || ..]
    hold whatever truthy value the header has. *)
Record PageMetadata := mkMeta {
  shortUri : string;
  title : JsVal;
  type : PageType;
  category : JsVal;
  labels : list string;
  parent : string;
  order : JsNumber;
  author : JsVal;
  date : option JsDate;
  description : JsVal;
  keywords : list string;
  template : JsVal
}.

(** What a [throw] carries. *)
Inductive BuildError :=
| ErrFrontmatter                 (* thrown by the front-matter parser *)
| ErrShortUriRequired            (* 'Short-URI is required' *)
| ErrInvalidType (t : string)    (* 'Invalid Type: ...' *)
| ErrTypeError                   (* 'a.label.localeCompare is not a
                                    function' *)
| ErrCompile.                    (* thrown by the markdown compiler *)

Inductive result (A : Type) :=
| Ok (a : A)
| Err (e : BuildError).
Arguments Ok {A} a.
Arguments Err {A} e.

Definition isOk {A} (r : result A) : bool :=
  match r with Ok _ => true | Err _ => false end.

(** [VALID_TYPES.includes(type)], with the type it names: a value that
    is not a string is none of the three. *)
Definition pageTypeOf (t : JsVal) : option PageType :=
  match t with
  | JStr t =>
      if (t =? "page")%string then Some TPage
      else if (t =? "post")%string then Some TPost
      else if (t =? "section")%string then Some TSection
      else None
  | _ => None
  end.

Section PageMetadataParser.

(** [parseFrontmatter] of frontmatter.ts wraps gray-matter: the header
    data and the body, or [None] when the parser throws. *)
Variable parseFrontmatter : string -> option (FrontmatterData * string).

(** [String(n)] and [Number(s)] of the engine. *)
Variable finiteToString : Q -> string.
Variable stringToNumber : string -> JsNumber.

(** [parseStringArray]. *)
Definition parseStringArray (value : JsVal) : list string :=
  if negb (truthy value) then []
  else match value with
       | JArr l => List.map (toStr finiteToString) l
       | _ => [toStr finiteToString value]
       end.

Definition parsePageMetadata (content : string) : result PageMetadata :=
  match parseFrontmatter content with
  | None => Err ErrFrontmatter
  | Some (data, _) =>
      if negb (truthy (fm_ShortURI data)) then Err ErrShortUriRequired
      else
        let shortUri := Js.trim (toStr finiteToString (fm_ShortURI data)) in
        let type := orVal (fm_Type data) (JStr "page") in
        match pageTypeOf type with
        | None => Err (ErrInvalidType (toStr finiteToString type))
        | Some ty =>
            let parent :=
              match fm_Parent data with
              | JNull | JUndefined => JStr "root"
              | JStr EmptyString => JStr "root"
              | p => p
              end in
            let labels := parseStringArray (fm_Labels data) in
            let keywords := parseStringArray (fm_Keywords data) in
            let order :=
              match fm_Order data with
              | JUndefined | JNull => numOfZ 999
              | o => toNumber finiteToString stringToNumber o
              end in
            Ok {| shortUri := shortUri;
                  title := orVal (fm_title data)
                             (orVal (fm_Title data) (JStr shortUri));
                  type := ty;
                  category := orVal (fm_Category data) (JStr "");
                  labels := labels;
                  parent := toStr finiteToString parent;
                  order := if numIsNaN order then numOfZ 999 else order;
                  author := orVal (fm_Author data) (JStr "");
                  date := if truthy (fm_Date data)
                          then Some (mkDate (fm_Date data))
                          else None;
                  description := orVal (fm_Description data) (JStr "");
                  keywords := keywords;
                  template := orVal (fm_Template data) (JStr "default") |}
        end
  end.

End PageMetadataParser.

(* ===================================================================== *)
(** ** Data of the build orchestrator *)
(* ===================================================================== *)

(** components/navigation.ts, [NavItem]. *)
Record NavItem := mkNav {
  nav_label : JsVal;
  nav_href : string;
  nav_active : option bool;
  nav_hxBoost : option bool;
  nav_order : option JsNumber
}.

(** builder.ts, [BuildConfig]. *)
Record BuildConfig := mkConfig {
  contentDir : string;
  outputDir : string;
  cfg_navigation : option (list NavItem);
  defaultTitle : option string
}.

(** builder.ts, [ContentFile]: one scanned markdown file. *)
Record ContentFile := mkFile {
  cf_path : string;
  relativePath : string;
  cf_name : string
}.

(** children-directive.ts, [ChildPageData], as [collectChildrenMap]
    fills it. *)
Record ChildPageData := mkChild {
  ch_title : JsVal;
  ch_url : string;
  ch_description : JsVal;
  ch_date : option JsDate;
  ch_category : JsVal;
  ch_labels : list string;
  ch_author : JsVal;
  ch_type : PageType;
  ch_shortUri : string;
  ch_order : JsNumber
}.

(** [PageIndexEntry], as index.ts mirrors it from page-index.ts. *)
Record PageIndexEntry := mkEntry {
  pi_url : string;
  pi_title : string;
  pi_description : string;
  pi_labels : list string;
  pi_category : string;
  pi_date : option string
}.

(** One row handed to [LabelIndex.render]. *)
Record LabelIndexRow := mkRow {
  row_url : string;
  row_title : string;
  row_description : string;
  row_category : string;
  row_date : option string
}.

(** template.ts, [PageData]; [title] and [description] hold what the
    caller's [||] chains leave. *)
Record PageData := mkPageData {
  pd_title : JsVal;
  pd_content : string;
  pd_path : string;
  pd_description : JsVal;
  pd_keywords : JsVal;
  pd_frontmatter : option FrontmatterData;
  pd_navigation : option (list NavItem);
  pd_cssFiles : list string;
  pd_jsFiles : list string;
  pd_siteLabels : list string;
  pd_basePath : string
}.

(** builder.ts, [ProcessedFile]. *)
Record ProcessedFile := mkProcessed {
  pf_html : string;
  pf_data : FrontmatterData;
  pf_outputPath : string
}.

(** The collaborators of the orchestrator whose code lies outside the
    modelled sources. *)
Record Externals := mkExternals {
  (** [readFileSync(path, 'utf-8')] on a scanned file: the file exists,
      the read returns its text. *)
  readFileSync : string -> string;
  (** frontmatter.ts [parseFrontmatter]; [None] when it throws.  Every
      caller in the builder catches the throw and goes on without the
      header; a parser that answers a later call on such a text with an
      empty header has the same effect there, an empty header having no
      [Short-URI]. *)
  parseFrontmatter : string -> option (FrontmatterData * string);
  (** markdown.ts [MarkdownCompiler.compileWithFrontmatter]: the
      compiled body and the header data, or [None] when it throws. *)
  compileWithFrontmatter : string -> option (string * FrontmatterData);
  (** [String(n)] on a finite number and [Number(s)] on a string. *)
  finiteToString : Q -> string;
  stringToNumber : string -> JsNumber;
  (** [Array.prototype.sort] on the navigation items: the sorted array,
      or the error a call of the comparator threw.  Which pairs the
      comparator is called on is up to the engine. *)
  arraySort : (NavItem -> NavItem -> result JsNumber) ->
              list NavItem -> result (list NavItem);
  (** children-directive.ts [processChildrenDirectives]; [None] when it
      throws. *)
  processChildrenDirectives : string -> list ChildPageData -> option string;
  (** Node's [path.join] on its argument list. *)
  pathJoin : list string -> string;
  (** [String.prototype.localeCompare]. *)
  localeCompare : string -> string -> Z;
  (** [process.env.BASE_PATH || '']. *)
  envBasePath : string;
  (** [Navigation.render({ items })]; its class-name helper lives in
      component.ts. *)
  renderNavigation : list NavItem -> string;
  (** label-footer.ts [LabelFooter.render({ labels })]. *)
  renderLabelFooter : list string -> string;
  (** label-index.ts [LabelIndex.render({ label, pages })]. *)
  renderLabelIndex : string -> list LabelIndexRow -> string;
  (** page-index.ts [generatePageIndex]. *)
  generatePageIndex : list (PageMetadata * string) -> list PageIndexEntry;
  (** page-index.ts [generateLabelSlug]. *)
  generateLabelSlug : string -> string;
  (** [JSON.stringify] on the page index. *)
  stringifyIndex : list PageIndexEntry -> string;
  (** [date.toLocaleDateString('en-US', { year, month: 'long', day,
      timeZone: 'UTC' })]. *)
  toLocaleDateString : JsDate -> string;
  (** [date.toISOString()]. *)
  toISOString : JsDate -> string
}.

(** One [writeFileSync(path, text, 'utf-8')]. *)
Definition FileWrite : Type := (string * string)%type.

Inductive Outcome :=
| Done
| Aborted (e : BuildError).

(** What a run of [build] leaves behind: the writes in the order they
    happened, and whether the promise resolved or rejected. *)
Record BuildResult := mkResult {
  writes : list FileWrite;
  outcome : Outcome
}.

(* ===================================================================== *)
(** ** components/layout.ts and core/template.ts *)
(* ===================================================================== *)

Section Rendering.

Variable E : Externals.

(** A string attribute value between double quotes. *)
Definition quoted (s : string) : string := Js.dq ++ s ++ Js.dq.

(** [String(v)] with the engine's number printing. *)
Definition str (v : JsVal) : string := toStr (finiteToString E) v.

(** layout.ts, [Layout.render]. *)
Definition renderLayout (title description keywords : JsVal)
    (children : string) (cssFiles jsFiles : list string)
    (siteLabels : list string) (basePath : string) : string :=
  let lang := "en" in
  let cssLinks :=
    Js.join Js.nl
      (List.map (fun file => "    <link rel=" ++ quoted "stylesheet"
                             ++ " href=" ++ quoted file ++ ">") cssFiles) in
  let jsScripts :=
    Js.join Js.nl
      (List.map (fun file => "    <script src=" ++ quoted file
                             ++ "></script>") jsFiles) in
  Js.join Js.nl
    [ "<!DOCTYPE html>";
      "<html lang=" ++ quoted lang ++ ">";
      "<head>";
      "    <meta charset=" ++ quoted "UTF-8" ++ ">";
      "    <meta name=" ++ quoted "viewport" ++ " content="
        ++ quoted "width=device-width, initial-scale=1.0" ++ ">";
      "    " ++ (if truthy description
                 then "<meta name=" ++ quoted "description" ++ " content="
                      ++ quoted (str description) ++ ">"
                 else EmptyString);
      "    " ++ (if truthy keywords
                 then "<meta name=" ++ quoted "keywords" ++ " content="
                      ++ quoted (str keywords) ++ ">"
                 else EmptyString);
      "    <meta name=" ++ quoted "base-path" ++ " content="
        ++ quoted basePath ++ ">";
      "    <title>" ++ str title ++ "</title>";
      "    <link rel=" ++ quoted "stylesheet" ++ " href="
        ++ quoted (basePath ++ "/assets/main.css") ++ ">";
      cssLinks;
      jsScripts;
      "</head>";
      "<body class=" ++ quoted "min-h-screen bg-gray-50" ++ ">";
      "    <div id=" ++ quoted "app" ++ " class="
        ++ quoted "flex flex-col min-h-screen" ++ ">";
      "        " ++ children;
      "        " ++ match siteLabels with
                    | [] => EmptyString
                    | _ :: _ => renderLabelFooter E siteLabels
                    end;
      "    </div>";
      "    <script src=" ++ quoted (basePath ++ "/assets/main.js")
        ++ "></script>";
      "</body>";
      "</html>" ].

Definition mainOpen : string :=
  "<main class="
  ++ quoted "flex-grow max-w-7xl mx-auto px-4 sm:px-6 lg:px-8 py-8" ++ ">".

(** [Array.isArray(k) ? k.join(', ') : k]. *)
Definition keywordsText (k : JsVal) : JsVal :=
  match k with
  | JArr l => JStr (joinVals (finiteToString E) ", " l)
  | v => v
  end.

(** template.ts, [TemplateEngine.renderPage]. *)
Definition renderPage (data : PageData) : string :=
  let frontmatter :=
    match pd_frontmatter data with
    | Some fm => fm
    | None => emptyFrontmatter
    end in
  let pageTitle := orVal (fm_title frontmatter) (pd_title data) in
  let pageDescription :=
    orVal (fm_description frontmatter) (pd_description data) in
  let pageKeywords :=
    orVal (pd_keywords data) (keywordsText (fm_Keywords frontmatter)) in
  let content := pd_content data in
  let pageContent :=
    match pd_navigation data with
    | Some (item :: items) =>
        renderNavigation E (item :: items) ++ Js.nl ++ mainOpen ++ content
        ++ "</main>"
    | _ => mainOpen ++ content ++ "</main>"
    end in
  renderLayout pageTitle pageDescription pageKeywords pageContent
    (pd_cssFiles data) (pd_jsFiles data) (pd_siteLabels data)
    (pd_basePath data).

End Rendering.

(* ===================================================================== *)
(** ** core/builder.ts: [SiteBuilder] *)
(* ===================================================================== *)

Section SiteBuilder.

Variable E : Externals.
Variable config : BuildConfig.

(** [getOutputPath]: clean URLs, [about.md -> about/index.html]. *)
Definition getOutputPath (relativePath : string) : string :=
  let ext := Path.extname relativePath in
  let base :=
    Js.slashify (Js.slice0neg (String.length ext) relativePath) in
  if (base =? "index")%string || Js.endsWith base "/index"
  then base ++ ".html"
  else base ++ "/index.html".

(** [getUrlPath]. *)
Definition getUrlPath (relativePath : string) : string :=
  let basePath := envBasePath E in
  let urlPath := Js.slashify (Js.stripMd relativePath) in
  if (urlPath =? "index")%string then basePath ++ "/"
  else
    let urlPath1 :=
      if Js.endsWith urlPath "/index"
      then Js.slice0neg (String.length "/index") urlPath
      else urlPath in
    let urlPath2 :=
      if negb (Js.startsWith urlPath1 "/") then "/" ++ urlPath1
      else urlPath1 in
    basePath ++ urlPath2.

(** [s.replace(/\.md$/, '.html')]. *)
Definition mdToHtml (s : string) : string :=
  if Js.endsWith s ".md"
  then Js.take (String.length s - 3) s ++ ".html"
  else s.

(** [isActivePath]. *)
Definition isActivePath (href filePath : string) : bool :=
  let basePath := envBasePath E in
  let cleanHref :=
    if negb (basePath =? "")%string && Js.startsWith href basePath
    then match Js.sliceFrom (String.length basePath) href with
         | EmptyString => "/"
         | rest => rest
         end
    else href in
  let urlPath := "/" ++ Js.slashify (mdToHtml filePath) in
  if (cleanHref =? "/")%string
  then (urlPath =? "/index.html")%string || (filePath =? "index.md")%string
  else Js.startsWith urlPath (cleanHref ++ "/")
       || (urlPath =? cleanHref ++ ".html")%string.

(** [item.order ?? 999]. *)
Definition navOrder (i : NavItem) : JsNumber :=
  match nav_order i with Some o => o | None => numOfZ 999 end.

(** The comparator handed to [navItems.sort].  [a.label.localeCompare]
    is a function only on a string; its argument is turned into a
    string. *)
Definition navCompare (a b : NavItem) : result JsNumber :=
  let orderDiff := numSub (navOrder a) (navOrder b) in
  if negb (numIsZero orderDiff) then Ok orderDiff
  else match nav_label a with
       | JStr label =>
           Ok (numOfZ (localeCompare E label (str E (nav_label b))))
       | _ => Err ErrTypeError
       end.

Definition metadataOf (file : ContentFile) : result PageMetadata :=
  parsePageMetadata (parseFrontmatter E) (finiteToString E)
    (stringToNumber E) (readFileSync E (cf_path file)).

(** The body of the loop of [generateNavigation]: the item a file
    contributes, if any.  A [throw] inside the [try] is a [continue]. *)
Definition navItemOf (file : ContentFile) : option NavItem :=
  match metadataOf file with
  | Err _ => None
  | Ok metadata =>
      (* [metadata.parent === null] never holds: the field is a string *)
      if (parent metadata =? "root")%string
      then Some {| nav_label :=
                     orVal (title metadata)
                       (JStr (Js.stripMd (cf_name file)));
                   nav_href := getUrlPath (relativePath file);
                   nav_active := None;
                   nav_hxBoost := None;
                   nav_order := Some (order metadata) |}
      else None
  end.

Fixpoint collectNav (files : list ContentFile) : list NavItem :=
  match files with
  | [] => []
  | file :: rest =>
      match navItemOf file with
      | Some item => item :: collectNav rest
      | None => collectNav rest
      end
  end.

(** [generateNavigation]: the sort is outside the [try]. *)
Definition generateNavigation (files : list ContentFile)
  : result (list NavItem) :=
  arraySort E navCompare (collectNav files).

(** A [Map<string, V[]>] in insertion order, and the
    "create the array if the key is new, then push" idiom. *)
Fixpoint mapPush {V} (key : string) (v : V) (m : list (string * list V))
  : list (string * list V) :=
  match m with
  | [] => [(key, [v])]
  | (k, vs) :: m' =>
      if (k =? key)%string then (k, (vs ++ [v])%list) :: m'
      else (k, vs) :: mapPush key v m'
  end.

Fixpoint mapGet {V} (key : string) (m : list (string * list V))
  : option (list V) :=
  match m with
  | [] => None
  | (k, vs) :: m' => if (k =? key)%string then Some vs else mapGet key m'
  end.

Definition childOf (file : ContentFile) (metadata : PageMetadata)
  : ChildPageData :=
  {| ch_title := title metadata;
     ch_url := getUrlPath (relativePath file);
     ch_description := description metadata;
     ch_date := date metadata;
     ch_category := category metadata;
     ch_labels := labels metadata;
     ch_author := author metadata;
     ch_type := type metadata;
     ch_shortUri := shortUri metadata;
     ch_order := order metadata |}.

(** [collectChildrenMap]. *)
Definition collectChildrenMap (files : list ContentFile)
  : list (string * list ChildPageData) :=
  fold_left
    (fun childrenMap file =>
       match metadataOf file with
       | Err _ => childrenMap
       | Ok metadata =>
           let parent :=
             match parent metadata with
             | EmptyString => "root"
             | p => p
             end in
           mapPush parent (childOf file metadata) childrenMap
       end)
    files [].

(** [Set.prototype.add], in insertion order. *)
Definition setAdd (x : string) (s : list string) : list string :=
  if existsb (String.eqb x) s then s else (s ++ [x])%list.

(** [collectSiteLabels]. *)
Definition collectSiteLabels (files : list ContentFile) : list string :=
  fold_left
    (fun labelSet file =>
       match metadataOf file with
       | Err _ => labelSet
       | Ok metadata => fold_left (fun s l => setAdd l s) (labels metadata)
                          labelSet
       end)
    files [].

(** [collectAllPageMetadata]: the metadata with the page URL. *)
Fixpoint collectAllPageMetadata (files : list ContentFile)
  : list (PageMetadata * string) :=
  match files with
  | [] => []
  | file :: rest =>
      match metadataOf file with
      | Err _ => collectAllPageMetadata rest
      | Ok metadata =>
          (metadata, getUrlPath (relativePath file))
          :: collectAllPageMetadata rest
      end
  end.

(** The [:::children] step of the render loop: the text handed on to
    [processFile]. *)
Definition resolveChildren (childrenMap : list (string * list ChildPageData))
    (content : string) : string :=
  if Js.includes content ":::children" then
    match parseFrontmatter E content with
    | None => content
    | Some (data, _) =>
        if truthy (fm_ShortURI data) then
          let children :=
            match fm_ShortURI data with
            | JStr shortUri =>
                match mapGet shortUri childrenMap with
                | Some cs => cs
                | None => []
                end
            | _ => []   (* the keys of the map are strings *)
            end in
          match processChildrenDirectives E content children with
          | Some expanded => expanded
          | None => content   (* caught: the text stays as it was *)
          end
        else content
    end
  else content.

(** [processFile]; [processMarkdown] of template.ts hands the text to
    the compiler and passes its result on. *)
Definition processFile (content relativePath : string)
  : result ProcessedFile :=
  match compileWithFrontmatter E content with
  | None => Err ErrCompile
  | Some (html, data) =>
      Ok {| pf_html := html;
            pf_data := data;
            pf_outputPath := getOutputPath relativePath |}
  end.

Definition withActive (filePath : string) (item : NavItem) : NavItem :=
  {| nav_label := nav_label item;
     nav_href := nav_href item;
     nav_active := Some (isActivePath (nav_href item) filePath);
     nav_hxBoost := nav_hxBoost item;
     nav_order := nav_order item |}.

(** The page data the loop builds for one processed file. *)
Definition pageDataOf (navigation : list NavItem) (siteLabels : list string)
    (file : ContentFile) (processed : ProcessedFile) : PageData :=
  let data := pf_data processed in
  let title :=
    orVal (fm_title data)
      (orVal (optStr (defaultTitle config)) (JStr "Untitled")) in
  let description :=
    orVal (fm_Description data) (orVal (fm_description data) JUndefined) in
  let keywords :=
    match fm_Keywords data with
    | JArr l => JStr (joinVals (finiteToString E) ", " l)
    | k => orVal k (keywordsText E (fm_keywords data))
    end in
  {| pd_title := title;
     pd_content := pf_html processed;
     pd_path := relativePath file;
     pd_description := description;
     pd_keywords := keywords;
     pd_frontmatter := Some data;
     pd_navigation :=
       Some (List.map (withActive (relativePath file)) navigation);
     pd_cssFiles := [];
     pd_jsFiles := [];
     pd_siteLabels := siteLabels;
     pd_basePath := envBasePath E |}.

(** One turn of the render loop: the write it performs, or the error
    that leaves the loop and rejects the promise of [build]. *)
Definition renderFile (navigation : list NavItem)
    (childrenMap : list (string * list ChildPageData))
    (siteLabels : list string) (file : ContentFile) : result FileWrite :=
  let content := resolveChildren childrenMap (readFileSync E (cf_path file)) in
  match processFile content (relativePath file) with
  | Err e => Err e
  | Ok processed =>
      Ok (pathJoin E [outputDir config; pf_outputPath processed],
          renderPage E (pageDataOf navigation siteLabels file processed))
  end.

(** The render loop: the writes done so far, and the error if one ended
    the loop. *)
Fixpoint renderAll (navigation : list NavItem)
    (childrenMap : list (string * list ChildPageData))
    (siteLabels : list string) (files : list ContentFile)
  : list FileWrite * option BuildError :=
  match files with
  | [] => ([], None)
  | file :: rest =>
      match renderFile navigation childrenMap siteLabels file with
      | Err e => ([], Some e)
      | Ok w =>
          let (ws, err) := renderAll navigation childrenMap siteLabels rest in
          (w :: ws, err)
      end
  end.

(** The grouping loop of [generateLabelIndexPages]. *)
Definition groupByLabel (pageIndex : list PageIndexEntry)
  : list (string * list PageIndexEntry) :=
  fold_left
    (fun labelPages entry =>
       fold_left (fun m label => mapPush label entry m) (pi_labels entry)
         labelPages)
    pageIndex [].

Definition rowOf (p : PageIndexEntry) : LabelIndexRow :=
  {| row_url := pi_url p;
     row_title := pi_title p;
     row_description := pi_description p;
     row_category := pi_category p;
     row_date := pi_date p |}.

(** The listing page written for one label and its pages. *)
Definition labelPageWrite (navigation : list NavItem)
    (siteLabels : list string) (label : string)
    (pages : list PageIndexEntry) : FileWrite :=
  let slug := generateLabelSlug E label in
  let content := renderLabelIndex E label (List.map rowOf pages) in
  let pageHtml :=
    renderPage E
      {| pd_title := JStr ("Label: " ++ label);
         pd_content := content;
         pd_path := "label/" ++ slug;
         pd_description :=
           JStr ("All pages tagged with " ++ quoted label);
         pd_keywords := JUndefined;
         pd_frontmatter := None;
         pd_navigation := Some navigation;
         pd_cssFiles := [];
         pd_jsFiles := [];
         pd_siteLabels := siteLabels;
         pd_basePath := envBasePath E |} in
  (pathJoin E [outputDir config; "label"; slug; "index.html"], pageHtml).

(** [generateLabelIndexPages]: the writes, in the order of the map. *)
Definition generateLabelIndexPages (pageIndex : list PageIndexEntry)
    (navigation : list NavItem) (siteLabels : list string)
  : list FileWrite :=
  List.map (fun lp => labelPageWrite navigation siteLabels (fst lp) (snd lp))
    (List.filter (fun lp => negb (List.length (snd lp) <? 2)%nat)
       (groupByLabel pageIndex)).

Definition pageIndexPath : string :=
  pathJoin E [pathJoin E [outputDir config; "fragments"]; "page-index.json"].

(** [build], on the files [scanContent] found.  The [mkdirSync] calls
    make directories and leave the written files as they are.  An error
    thrown in [generateNavigation] or in the render loop rejects the
    promise; what was written before stays. *)
Definition build (contentFiles : list ContentFile) : BuildResult :=
  match generateNavigation contentFiles with
  | Err e => {| writes := []; outcome := Aborted e |}
  | Ok navigation =>
      let childrenMap := collectChildrenMap contentFiles in
      let siteLabels := collectSiteLabels contentFiles in
      match renderAll navigation childrenMap siteLabels contentFiles with
      | (pages, Some e) => {| writes := pages; outcome := Aborted e |}
      | (pages, None) =>
          let allPageMeta := collectAllPageMetadata contentFiles in
          let pageIndex := generatePageIndex E allPageMeta in
          {| writes :=
               (pages
                ++ [(pageIndexPath, stringifyIndex E pageIndex)]
                ++ generateLabelIndexPages pageIndex navigation
                     siteLabels)%list;
             outcome := Done |}
      end
  end.

End SiteBuilder.

(* ===================================================================== *)
(** ** templates/helpers.ts and templates/tag-engine.ts *)
(* ===================================================================== *)

(** template-registry.ts, [TemplateContext]. *)
Record TemplateContext := mkContext {
  ctx_title : string;
  ctx_content : string;
  ctx_description : string;
  ctx_keywords : string;
  ctx_basePath : string;
  ctx_navigation : list NavItem;
  ctx_siteLabels : list string;
  ctx_frontmatter : FrontmatterData;
  ctx_cssFiles : list string;
  ctx_jsFiles : list string;
  ctx_author : string;
  ctx_date : option JsDate;
  ctx_category : string;
  ctx_labels : list string;
  ctx_type : PageType
}.

Section TagEngine.

Variable E : Externals.

(** helpers.ts, [renderHead]. *)
Definition renderHead (title basePath description keywords : string)
    (cssFiles jsFiles : list string) : string :=
  let lang := "en" in
  let descTag :=
    match description with
    | EmptyString => EmptyString
    | _ => Js.nl ++ "    <meta name=" ++ quoted "description" ++ " content="
           ++ quoted description ++ ">"
    end in
  let kwTag :=
    match keywords with
    | EmptyString => EmptyString
    | _ => Js.nl ++ "    <meta name=" ++ quoted "keywords" ++ " content="
           ++ quoted keywords ++ ">"
    end in
  let extraCss :=
    Js.join ""
      (List.map (fun f => Js.nl ++ "    <link rel=" ++ quoted "stylesheet"
                          ++ " href=" ++ quoted f ++ ">") cssFiles) in
  let extraJs :=
    Js.join ""
      (List.map (fun f => Js.nl ++ "    <script src=" ++ quoted f
                          ++ "></script>") jsFiles) in
  Js.join Js.nl
    [ "<!DOCTYPE html>";
      "<html lang=" ++ quoted lang ++ ">";
      "<head>";
      "    <meta charset=" ++ quoted "UTF-8" ++ ">";
      "    <meta name=" ++ quoted "viewport" ++ " content="
        ++ quoted "width=device-width, initial-scale=1.0" ++ ">"
        ++ descTag ++ kwTag;
      "    <meta name=" ++ quoted "base-path" ++ " content="
        ++ quoted basePath ++ ">";
      "    <title>" ++ title ++ "</title>";
      "    <link rel=" ++ quoted "stylesheet" ++ " href="
        ++ quoted (basePath ++ "/assets/main.css") ++ ">"
        ++ extraCss ++ extraJs;
      "</head>" ].

(** helpers.ts, [renderFootScripts]. *)
Definition renderFootScripts (basePath : string) : string :=
  "    <script src=" ++ quoted (basePath ++ "/assets/main.js")
  ++ "></script>".

(** [/<[^>]*>/g]: an HTML tag. *)
Definition reHtmlTag : Js.matcher := fun _ s =>
  match s with
  | String "<" rest =>
      let notGt := fun c => negb (c =? ">")%char in
      match Js.dropWhile notGt rest with
      | String _ _ =>
          Some (" ", (String.length (Js.takeWhile notGt rest) + 2)%nat)
      | EmptyString => None
      end
  | _ => None
  end.

(** [text.split(/\s+/).filter(w => w.length > 0).length]: the number of
    maximal runs of code units that are not white space. *)
Fixpoint countWords (inWord : bool) (s : string) : nat :=
  match s with
  | EmptyString => 0%nat
  | String c s' =>
      if Js.isSpace c then countWords false s'
      else if inWord then countWords true s'
      else S (countWords true s')
  end.

(** [estimateReadingTime]: [Math.round(words / 200)] rounds halves up. *)
Definition estimateReadingTime (html : string) : nat :=
  let text := Js.replaceAll reHtmlTag html in
  let words := countWords false text in
  Nat.max 1 ((words + 100) / 200).

Definition natToString (n : nat) : string := zToString (Z.of_nat n).

(** [formatDate]. *)
Definition formatDate (d : JsDate) : string := toLocaleDateString E d.

Definition categoryPill (category : string) : string :=
  match category with
  | EmptyString => EmptyString
  | _ => "<span class="
         ++ quoted ("inline-block bg-blue-100 text-blue-800 text-xs "
                    ++ "font-medium px-2.5 py-0.5 rounded")
         ++ ">" ++ category ++ "</span>"
  end.

Definition labelBadge (l : string) : string :=
  "<span class="
  ++ quoted "text-xs bg-gray-100 text-gray-600 px-2 py-1 rounded-full"
  ++ ">" ++ l ++ "</span>".

(** The separator [' · '] of the byline: U+00B7 between two spaces. *)
Definition middleDot : string :=
  " " ++ String (ascii_of_nat 183) EmptyString ++ " ".

Definition blogHeader (ctx : TemplateContext) : string :=
  let readTime := estimateReadingTime (ctx_content ctx) in
  let authorPart :=
    match ctx_author ctx with
    | EmptyString => []
    | a => ["<span class=" ++ quoted "byline" ++ ">" ++ a ++ "</span>"]
    end in
  let datePart :=
    match ctx_date ctx with
    | Some d =>
        let iso := Js.take 10 (toISOString E d) in
        ["<time datetime=" ++ quoted iso ++ ">" ++ formatDate d ++ "</time>"]
    | None => []
    end in
  let readPart :=
    ["<span class=" ++ quoted "reading-time" ++ ">"
     ++ natToString readTime ++ " min read</span>"] in
  let bylineParts := List.app authorPart (List.app datePart readPart) in
  let bylineHtml :=
    match bylineParts with
    | [] => EmptyString
    | _ :: _ =>
        "<div class="
        ++ quoted "flex flex-wrap items-center gap-3 text-sm text-gray-500 mt-2"
        ++ ">" ++ Js.join middleDot bylineParts ++ "</div>"
    end in
  let categoryHtml := categoryPill (ctx_category ctx) in
  let labelsHtml :=
    match ctx_labels ctx with
    | [] => EmptyString
    | _ :: _ =>
        "<div class=" ++ quoted "flex flex-wrap gap-2 mt-3" ++ ">"
        ++ Js.join "" (List.map labelBadge (ctx_labels ctx)) ++ "</div>"
    end in
  Js.join Js.nl
    [ "<header class=" ++ quoted "mb-8 border-b border-gray-200 pb-6" ++ ">";
      "        " ++ categoryHtml;
      "        <h1 class=" ++ quoted "text-3xl font-bold text-gray-900 mt-2"
        ++ ">" ++ ctx_title ctx ++ "</h1>";
      "        " ++ bylineHtml;
      "        " ++ labelsHtml;
      "      </header>" ].

(** [resolveTag]: the [switch] over the tag name. *)
Definition resolveTag (tagName : string) (ctx : TemplateContext) : string :=
  if (tagName =? "head")%string then
    renderHead (ctx_title ctx) (ctx_basePath ctx) (ctx_description ctx)
      (ctx_keywords ctx) (ctx_cssFiles ctx) (ctx_jsFiles ctx)
  else if (tagName =? "navigation")%string then
    match ctx_navigation ctx with
    | [] => EmptyString
    | _ :: _ => renderNavigation E (ctx_navigation ctx)
    end
  else if (tagName =? "content")%string then ctx_content ctx
  else if (tagName =? "label-footer")%string then
    match ctx_siteLabels ctx with
    | [] => EmptyString
    | _ :: _ => renderLabelFooter E (ctx_siteLabels ctx)
    end
  else if (tagName =? "foot-scripts")%string then
    renderFootScripts (ctx_basePath ctx)
  else if (tagName =? "blog-header")%string then blogHeader ctx
  else if (tagName =? "title")%string then ctx_title ctx
  else if (tagName =? "description")%string then ctx_description ctx
  else if (tagName =? "keywords")%string then ctx_keywords ctx
  else if (tagName =? "author")%string then ctx_author ctx
  else if (tagName =? "category")%string then ctx_category ctx
  else if (tagName =? "basePath")%string then ctx_basePath ctx
  else if (tagName =? "formatted-date")%string then
    match ctx_date ctx with
    | Some d => formatDate d
    | None => EmptyString
    end
  else if (tagName =? "reading-time")%string then
    natToString (estimateReadingTime (ctx_content ctx)) ++ " min read"
  else if (tagName =? "category-pill")%string then
    categoryPill (ctx_category ctx)
  else if (tagName =? "label-badges")%string then
    match ctx_labels ctx with
    | [] => EmptyString
    | _ :: _ => Js.join "" (List.map labelBadge (ctx_labels ctx))
    end
  else "{{" ++ tagName ++ "}}".

(** The [case] labels of the [switch]. *)
Definition builtinTags : list string :=
  [ "head"; "navigation"; "content"; "label-footer"; "foot-scripts";
    "blog-header"; "title"; "description"; "keywords"; "author";
    "category"; "basePath"; "formatted-date"; "reading-time";
    "category-pill"; "label-badges" ].

Definition isBuiltin (tagName : string) : bool :=
  existsb (String.eqb tagName) builtinTags.

(** [isTagTruthy]. *)
Definition isTagTruthy (tagName : string) (ctx : TemplateContext) : bool :=
  (0 <? String.length (resolveTag tagName ctx))%nat.

(** Strip a literal prefix. *)
Fixpoint stripPrefix (p s : string) : option string :=
  match p, s with
  | EmptyString, _ => Some s
  | String a p', String b s' =>
      if (a =? b)%char then stripPrefix p' s' else None
  | String _ _, EmptyString => None
  end.

(** [([\s\S]*?)\{\{\/if\}\}]: the shortest text up to a closing tag. *)
Fixpoint findClose (s : string) : option (string * string) :=
  match stripPrefix "{{/if}}" s with
  | Some rest => Some (EmptyString, rest)
  | None =>
      match s with
      | EmptyString => None
      | String c s' =>
          match findClose s' with
          | Some (block, rest) => Some (String c block, rest)
          | None => None
          end
      end
  end.

(** [(\S+?)\}\}([\s\S]*?)\{\{\/if\}\}] behind the white space: the lazy
    name grows by one code unit whenever what follows does not match. *)
Fixpoint condTail (name : string) (s : string)
  : option (string * string * string) :=
  match s with
  | EmptyString => None
  | String c s' =>
      if Js.isSpace c then None
      else
        let name' := name ++ String c EmptyString in
        match match stripPrefix "}}" s' with
              | Some t => findClose t
              | None => None
              end with
        | Some (block, rest) => Some (name', block, rest)
        | None => condTail name' s'
        end
  end.

(** [/\{\{#if\s+(\S+?)\}\}([\s\S]*?)\{\{\/if\}\}/]: the tag name, the
    block and the text behind the match. *)
Definition matchConditional (s : string)
  : option (string * string * string) :=
  match stripPrefix "{{#if" s with
  | None => None
  | Some r =>
      match Js.takeWhile Js.isSpace r with
      | EmptyString => None
      | String _ _ => condTail EmptyString (Js.dropWhile Js.isSpace r)
      end
  end.

Definition reConditional (ctx : TemplateContext) : Js.matcher := fun _ s =>
  match matchConditional s with
  | Some (tagName, block, rest) =>
      Some (if isTagTruthy tagName ctx then block else EmptyString,
            (String.length s - String.length rest)%nat)
  | None => None
  end.

(** [(\S+?)\}\}] behind the opening braces. *)
Fixpoint tagTail (name : string) (s : string) : option (string * string) :=
  match s with
  | EmptyString => None
  | String c s' =>
      if Js.isSpace c then None
      else
        let name' := name ++ String c EmptyString in
        match stripPrefix "}}" s' with
        | Some rest => Some (name', rest)
        | None => tagTail name' s'
        end
  end.

(** [/\{\{(\S+?)\}\}/]: the tag name and the text behind the match. *)
Definition matchPlaceholder (s : string) : option (string * string) :=
  match stripPrefix "{{" s with
  | None => None
  | Some r => tagTail EmptyString r
  end.

Definition rePlaceholder (ctx : TemplateContext) : Js.matcher := fun _ s =>
  match matchPlaceholder s with
  | Some (tagName, rest) =>
      Some (resolveTag tagName ctx,
            (String.length s - String.length rest)%nat)
  | None => None
  end.

(** Step 1 of [processTemplate]. *)
Definition resolveConditionals (template : string) (ctx : TemplateContext)
  : string :=
  Js.replaceAll (reConditional ctx) template.

(** Step 2 of [processTemplate]. *)
Definition resolvePlaceholders (template : string) (ctx : TemplateContext)
  : string :=
  Js.replaceAll (rePlaceholder ctx) template.

(** [processTemplate]. *)
Definition processTemplate (template : string) (ctx : TemplateContext)
  : string :=
  resolvePlaceholders (resolveConditionals template ctx) ctx.

End TagEngine.

(* ===================================================================== *)
(** ** Notions the statements are written with *)
(* ===================================================================== *)

(** A matcher that does not look at the start-of-input flag. *)
Definition flagFree (m : Js.matcher) : Prop := forall a s, m a s = m false s.

(** Hyphens dropped at the end, by recursion on the string. *)
Fixpoint dropEndHyphens (s : string) : string :=
  match s with
  | EmptyString => EmptyString
  | String c s' =>
      match dropEndHyphens s' with
      | EmptyString => if Slug.isHyphen c then EmptyString
                       else String c EmptyString
      | r => String c r
      end
  end.


(** A character a tag name is written with: no white space, no closing
    brace. *)
Definition isNameChar (c : ascii) : bool :=
  negb (Js.isSpace c) && negb (c =? "}")%char.

(** A character of plain text: no opening brace. *)
Definition isTextChar (c : ascii) : bool := negb (c =? "{")%char.

(** A character that is no white space, [\S]. *)
Definition isNonSpace (c : ascii) : bool := negb (Js.isSpace c).

(** The tag name of a conditional block as the lazy [(\S+?)] takes it:
    one or more characters that are no white space, ending before the
    first [}}] that has a character of the name in front of it. *)
Definition conditionName (name : string) : Prop :=
  name <> ""
  /\ Js.allChars isNonSpace name = true
  /\ Js.includes (Js.drop 1 (name ++ "}")) "}}" = false.

(** A conditional block at the head of a text, in the words of the
    specification: [{{#if], white space, the tag name, [}}], the inner
    block, which ends at the first [{{/if}}] (blocks do not nest), and
    the text behind the closing tag. *)
Definition blockAt (s space name inner rest : string) : Prop :=
  s = "{{#if" ++ space ++ name ++ "}}" ++ inner ++ "{{/if}}" ++ rest
  /\ space <> ""
  /\ Js.allChars Js.isSpace space = true
  /\ conditionName name
  /\ Js.includes inner "{{/if}}" = false.

(** A conditional block begins at the head of the text. *)
Definition blockStarts (s : string) : Prop :=
  exists space name inner rest, blockAt s space name inner rest.

(** Step 1 in the words of the specification: scan for conditional
    blocks, the first match wins; each block is replaced by its inner
    block if the tag resolves to a non-empty string and by the empty
    string otherwise; the scan goes on behind the closing tag, and the
    text outside the blocks stays. *)
Inductive ConditionalsResolved (E : Externals) (ctx : TemplateContext)
  : string -> string -> Prop :=
| NoBlockLeft (text : string) :
    (forall before s, text = before ++ s -> ~ blockStarts s) ->
    ConditionalsResolved E ctx text text
| FirstBlock (before s space name inner rest result : string) :
    blockAt s space name inner rest ->
    (forall b1 b2, before = b1 ++ b2 -> b2 <> "" -> ~ blockStarts (b2 ++ s)) ->
    ConditionalsResolved E ctx rest result ->
    ConditionalsResolved E ctx (before ++ s)
      (before
       ++ (if (resolveTag E name ctx =? "")%string then "" else inner)
       ++ result).

(** The placeholder names met from a position on, with the scanner's
    count of code units still covered by the last match. *)
Fixpoint namesFrom (skip : nat) (s : string) : list string :=
  match s with
  | EmptyString => []
  | String c s' =>
      match skip with
      | S k => namesFrom k s'
      | O =>
          match matchPlaceholder s with
          | Some (name, rest) =>
              name
              :: namesFrom
                   (Nat.pred (String.length s - String.length rest)) s'
          | None => namesFrom 0 s'
          end
      end
  end.

(** The tag names of the placeholders of a template, in the order the
    global replacement of step 2 meets them. *)
Definition placeholderNames (template : string) : list string :=
  namesFrom 0 template.

(** A page whose metadata parses with the parent [root]. *)
Definition isRootPage (E : Externals) (file : ContentFile) : bool :=
  match metadataOf E file with
  | Ok metadata => (parent metadata =? "root")%string
  | Err _ => false
  end.

(** [parsePageMetadata] returns on the text of the file. *)
Definition metadataParses (E : Externals) (file : ContentFile) : bool :=
  isOk (metadataOf E file).

(** The text of a file as the render loop hands it to [processFile]. *)
Definition pageSource (E : Externals) (files : list ContentFile)
    (file : ContentFile) : string :=
  resolveChildren E (collectChildrenMap E files)
    (readFileSync E (cf_path file)).

(** The markdown compiler returns on the text of a file as the render
    loop hands it over. *)
Definition compiles (E : Externals) (files : list ContentFile)
    (file : ContentFile) : bool :=
  match compileWithFrontmatter E (pageSource E files file) with
  | Some _ => true
  | None => false
  end.

(** What a stable sort does where every call of the comparator on the
    array returns a value read as [+0]: the array stays as it is. *)
Definition keepsTies
    (sort : (NavItem -> NavItem -> result JsNumber) ->
            list NavItem -> result (list NavItem)) : Prop :=
  forall cmp items,
    (forall a b, In a items -> In b items ->
                 exists v, cmp a b = Ok v /\ sortSign v = 0) ->
    sort cmp items = Ok items.

(** The path the page of a file is written to. *)
Definition pagePath (E : Externals) (config : BuildConfig)
    (file : ContentFile) : string :=
  pathJoin E [outputDir config; getOutputPath (relativePath file)].

(** A page under a navigation item: the page of the item itself or a
    page whose URL path lies below the one of the item. *)
Definition ownOrBelow (href url : string) : bool :=
  (url =? href)%string || Js.startsWith url (href ++ "/").

(** The pages that carry a label. *)
Definition carriers (label : string) (pageIndex : list PageIndexEntry)
  : list PageIndexEntry :=
  List.filter (fun e => existsb (String.eqb label) (pi_labels e)) pageIndex.

(** How often a label is listed by an entry. *)
Definition labelCount (label : string) (e : PageIndexEntry) : nat :=
  List.length (List.filter (String.eqb label) (pi_labels e)).

(** The entries pushed under a label: one per listing of the label. *)
Definition pushedUnder (label : string) (pageIndex : list PageIndexEntry)
  : list PageIndexEntry :=
  List.flat_map (fun e => List.repeat e (labelCount label e)) pageIndex.

(** [map.get(key) || []]. *)
Definition getList {V} (key : string) (m : list (string * list V)) : list V :=
  match mapGet key m with
  | Some vs => vs
  | None => []
  end.

(** Distinct keys, no empty array: what [mapPush] keeps. *)
Definition wellKeyed {V} (m : list (string * list V)) : Prop :=
  NoDup (List.map fst m) /\ Forall (fun kv => snd kv <> []) m.

(* ===================================================================== *)
(** ** A small site, for closed examples *)
(* ===================================================================== *)

Module Demo.

Definition doc (header : list string) (body : string) : string :=
  Js.join Js.nl (("---" :: header) ++ ["---"; body])%list.

Definition homeDoc : string :=
  doc ["Short-URI: home"; "Parent: root"; "Order: 1"] "# Home".
Definition blogDoc : string :=
  doc ["Short-URI: blog"; "Parent: root"; "Order: 2"] "# Blog".
Definition postDoc : string :=
  doc ["title: Post"; "Short-URI: post"; "Parent: blog";
       "Labels: [htmx, css]"] "# Post".
Definition noteDoc : string :=
  doc ["title: Note"; "Short-URI: note"; "Parent: blog";
       "Labels: [htmx]"] "# Note".
(** No [Short-URI]: the header parses, the metadata does not. *)
Definition draftDoc : string := doc ["title: Draft"] "# Draft".
(** An unclosed flow sequence, on which [parseFrontmatter] throws. *)
Definition brokenDoc : string := doc ["title: [unclosed"] "# Broken".
(** A text on which the markdown compiler throws. *)
Definition crashDoc : string :=
  doc ["Short-URI: crash"; "Parent: blog"] "# Crash".
(** Two root pages whose [Order] is infinite: the text [Infinity],
    which [Number] turns into the number, and the YAML float [.inf]. *)
Definition zebraDoc : string :=
  doc ["title: Zebra"; "Short-URI: zebra"; "Parent: root";
       "Order: Infinity"] "# Zebra".
Definition appleDoc : string :=
  doc ["title: Apple"; "Short-URI: apple"; "Parent: root"; "Order: .inf"]
      "# Apple".
(** Two root pages without [Order] whose title is a YAML number. *)
Definition year1Doc : string :=
  doc ["title: 2024"; "Short-URI: y2024"; "Parent: root"] "# 2024".
Definition year2Doc : string :=
  doc ["title: 2025"; "Short-URI: y2025"; "Parent: root"] "# 2025".

Definition header (shortUri : string) (parent order labels title : JsVal)
  : FrontmatterData :=
  mkFrontmatter title JUndefined (JStr shortUri) JUndefined parent labels
                JUndefined JUndefined order JUndefined JUndefined JUndefined
                JUndefined JUndefined JUndefined.

Definition draftHeader : FrontmatterData :=
  mkFrontmatter (JStr "Draft") JUndefined JUndefined JUndefined JUndefined
                JUndefined JUndefined JUndefined JUndefined JUndefined
                JUndefined JUndefined JUndefined JUndefined JUndefined.

(** The front-matter parser on the documents of the site. *)
Definition parse (content : string) : option (FrontmatterData * string) :=
  if (content =? homeDoc)%string then
    Some (header "home" (JStr "root") (JNum (numOfZ 1)) JUndefined
            JUndefined, "# Home")
  else if (content =? blogDoc)%string then
    Some (header "blog" (JStr "root") (JNum (numOfZ 2)) JUndefined
            JUndefined, "# Blog")
  else if (content =? postDoc)%string then
    Some (header "post" (JStr "blog") JUndefined
            (JArr [JStr "htmx"; JStr "css"]) (JStr "Post"), "# Post")
  else if (content =? noteDoc)%string then
    Some (header "note" (JStr "blog") JUndefined (JArr [JStr "htmx"])
            (JStr "Note"), "# Note")
  else if (content =? draftDoc)%string then
    Some (draftHeader, "# Draft")
  else if (content =? brokenDoc)%string then None
  else if (content =? crashDoc)%string then
    Some (header "crash" (JStr "blog") JUndefined JUndefined JUndefined,
          "# Crash")
  else if (content =? zebraDoc)%string then
    Some (header "zebra" (JStr "root") (JStr "Infinity") JUndefined
            (JStr "Zebra"), "# Zebra")
  else if (content =? appleDoc)%string then
    Some (header "apple" (JStr "root") (JNum PosInfinity) JUndefined
            (JStr "Apple"), "# Apple")
  else if (content =? year1Doc)%string then
    Some (header "y2024" (JStr "root") JUndefined JUndefined
            (JNum (numOfZ 2024)), "# 2024")
  else if (content =? year2Doc)%string then
    Some (header "y2025" (JStr "root") JUndefined JUndefined
            (JNum (numOfZ 2025)), "# 2025")
  else Some (emptyFrontmatter, content).

(** The markdown compiler on the documents of the site: it throws on
    [crashDoc], wraps the body of a document whose header parses and
    the whole text of any other. *)
Definition compile (content : string) : option (string * FrontmatterData) :=
  if (content =? crashDoc)%string then None
  else match parse content with
       | Some (data, body) => Some ("<p>" ++ body ++ "</p>", data)
       | None => Some ("<p>" ++ content ++ "</p>", emptyFrontmatter)
       end.

Definition home : ContentFile :=
  mkFile "content/index.md" "index.md" "index.md".
Definition blog : ContentFile :=
  mkFile "content/blog/index.md" "blog/index.md" "index.md".
Definition post : ContentFile :=
  mkFile "content/blog/post.md" "blog/post.md" "post.md".
Definition note : ContentFile :=
  mkFile "content/blog/note.md" "blog/note.md" "note.md".
Definition draft : ContentFile :=
  mkFile "content/draft.md" "draft.md" "draft.md".
Definition broken : ContentFile :=
  mkFile "content/broken.md" "broken.md" "broken.md".
Definition crash : ContentFile :=
  mkFile "content/blog/crash.md" "blog/crash.md" "crash.md".
Definition zebra : ContentFile :=
  mkFile "content/zebra.md" "zebra.md" "zebra.md".
Definition apple : ContentFile :=
  mkFile "content/apple.md" "apple.md" "apple.md".
Definition year1 : ContentFile :=
  mkFile "content/y2024.md" "y2024.md" "y2024.md".
Definition year2 : ContentFile :=
  mkFile "content/y2025.md" "y2025.md" "y2025.md".

Definition read (path : string) : string :=
  if (path =? cf_path home)%string then homeDoc
  else if (path =? cf_path blog)%string then blogDoc
  else if (path =? cf_path post)%string then postDoc
  else if (path =? cf_path note)%string then noteDoc
  else if (path =? cf_path draft)%string then draftDoc
  else if (path =? cf_path broken)%string then brokenDoc
  else if (path =? cf_path crash)%string then crashDoc
  else if (path =? cf_path zebra)%string then zebraDoc
  else if (path =? cf_path apple)%string then appleDoc
  else if (path =? cf_path year1)%string then year1Doc
  else if (path =? cf_path year2)%string then year2Doc
  else EmptyString.

(** Code-unit order, as a comparator. *)
Definition compareUnits (a b : string) : Z :=
  match String.compare a b with
  | Lt => -1
  | Eq => 0
  | Gt => 1
  end.

(** [String(n)] on the whole numbers of the site. *)
Definition wholeToString (q : Q) : string :=
  zToString (Qnum q / Zpos (Qden q)).

(** [Number(s)] on the texts of the site: white space is trimmed, the
    empty string is [0], [Infinity] with an optional sign is an
    infinity, a decimal integer with an optional sign is its value; any
    other text is taken for NaN here. *)
Definition parseNumber (s : string) : JsNumber :=
  let t := Js.trim s in
  let integer (u : string) : JsNumber :=
    match NilZero.int_of_string u with
    | Some i => numOfZ (Z.of_int i)
    | None => NaN
    end in
  if (t =? "")%string then numOfZ 0
  else if (t =? "Infinity")%string || (t =? "+Infinity")%string
  then PosInfinity
  else if (t =? "-Infinity")%string then NegInfinity
  else match t with
       | String "+" (String d u) =>
           if (d =? "-")%char || (d =? "+")%char then NaN
           else integer (String d u)
       | String "+" EmptyString => NaN
       | _ => integer t
       end.

(** A stable sort by insertion, as an engine may run it: an element goes
    before the first element behind it that it does not sort after, and
    an error of the comparator ends the sort. *)
Fixpoint sortInsert {A} (cmp : A -> A -> result JsNumber) (x : A)
    (l : list A) : result (list A) :=
  match l with
  | [] => Ok [x]
  | y :: l' =>
      match cmp x y with
      | Err e => Err e
      | Ok v =>
          if sortSign v <=? 0 then Ok (x :: y :: l')
          else match sortInsert cmp x l' with
               | Ok r => Ok (y :: r)
               | Err e => Err e
               end
      end
  end.

Fixpoint sortBy {A} (cmp : A -> A -> result JsNumber) (l : list A)
  : result (list A) :=
  match l with
  | [] => Ok []
  | x :: l' =>
      match sortBy cmp l' with
      | Ok sorted => sortInsert cmp x sorted
      | Err e => Err e
      end
  end.

Definition indexEntry (mu : PageMetadata * string) : PageIndexEntry :=
  {| pi_url := snd mu;
     pi_title := toStr wholeToString (title (fst mu));
     pi_description := toStr wholeToString (description (fst mu));
     pi_labels := labels (fst mu);
     pi_category := toStr wholeToString (category (fst mu));
     pi_date :=
       option_map (fun d => toStr wholeToString (dateArg d))
         (date (fst mu)) |}.

Definition env : Externals :=
  {| readFileSync := read;
     parseFrontmatter := parse;
     compileWithFrontmatter := compile;
     finiteToString := wholeToString;
     stringToNumber := parseNumber;
     arraySort := sortBy;
     processChildrenDirectives := fun content _ => Some content;
     pathJoin := Js.join "/";
     localeCompare := compareUnits;
     envBasePath := EmptyString;
     renderNavigation := fun items =>
       "<nav>"
       ++ Js.join " "
            (List.map (fun i => toStr wholeToString (nav_label i)) items)
       ++ "</nav>";
     renderLabelFooter := fun ls =>
       "<footer>" ++ Js.join " " ls ++ "</footer>";
     renderLabelIndex := fun label rows =>
       "<h1>" ++ label ++ "</h1>" ++ Js.join " " (List.map row_title rows);
     generatePageIndex := List.map indexEntry;
     generateLabelSlug := Slug.generateSlug;
     stringifyIndex := fun idx =>
       "[" ++ Js.join "," (List.map pi_url idx) ++ "]";
     toLocaleDateString := fun d => toStr wholeToString (dateArg d);
     toISOString := fun d => toStr wholeToString (dateArg d) |}.

Definition config : BuildConfig :=
  {| contentDir := "content";
     outputDir := "dist";
     cfg_navigation := None;
     defaultTitle := Some "My Static Site" |}.

Definition site : list ContentFile := [home; blog; post; note; draft].
Definition draftSite : list ContentFile := [home; draft; blog].
Definition crashSite : list ContentFile := [home; crash; blog].
(** A page index with one page that lists its label twice. *)
Definition solo : PageIndexEntry :=
  {| pi_url := "/solo"; pi_title := "Solo Page"; pi_description := "";
     pi_labels := ["lonely"; "lonely"]; pi_category := "";
     pi_date := None |}.

Definition context : TemplateContext :=
  {| ctx_title := "Test Page";
     ctx_content := "<p>Hello world</p>";
     ctx_description := "A test page";
     ctx_keywords := "test, page";
     ctx_basePath := EmptyString;
     ctx_navigation := [];
     ctx_siteLabels := ["htmx"; "css"];
     ctx_frontmatter := emptyFrontmatter;
     ctx_cssFiles := [];
     ctx_jsFiles := [];
     ctx_author := EmptyString;
     ctx_date := None;
     ctx_category := EmptyString;
     ctx_labels := [];
     ctx_type := TPage |}.

End Demo.

(* ===================================================================== *)
(** ** core/builder.ts: [scanContent] *)
(* ===================================================================== *)

#[local] Set Warnings "-register-all".

(** One entry of [readdirSync(dir, { withFileTypes: true })], with the
    entries below it when it is a directory.  [DOther] is an entry that
    is neither a regular file nor a directory. *)
Inductive Dirent :=
| DFile (name : string)
| DDir (name : string) (entries : list Dirent)
| DOther (name : string).

Section ScanContent.

Variable E : Externals.

(** Node's [path.relative(from, to)]. *)
Variable pathRelative : string -> string -> string.

(** The body of the loop of [scanContent] for one entry of [dir]. *)
Fixpoint scanEntry (dir baseDir : string) (entry : Dirent)
  : list ContentFile :=
  match entry with
  | DDir name entries =>
      let fullPath := pathJoin E [dir; name] in
      List.flat_map (scanEntry fullPath baseDir) entries
  | DFile name =>
      let fullPath := pathJoin E [dir; name] in
      let relativePath := pathRelative baseDir fullPath in
      if Js.endsWith name ".md"
      then [mkFile fullPath relativePath name]
      else []
  | DOther _ => []
  end.

(** [scanContent(dir, baseDir)] on what lies at [dir]: [None] when
    [existsSync(dir)] is false, the entries of the directory otherwise. *)
Definition scanContent (tree : option (list Dirent)) (dir baseDir : string)
  : list ContentFile :=
  match tree with
  | None => []
  | Some entries => List.flat_map (scanEntry dir baseDir) entries
  end.

End ScanContent.

(* ===================================================================== *)
(** ** page-metadata.ts: [validatePageMetadata], [generateShortUri] *)
(* ===================================================================== *)

(** What [validatePageMetadata] throws. *)
Inductive ValidationError :=
| ErrEmptyShortUri                     (* 'Short-URI cannot be empty' *)
| ErrInvalidCharacters                 (* 'Short-URI contains invalid ...' *)
| ErrParentMissing (parent : string).  (* 'Parent "..." does not exist' *)

(** The class [[a-z0-9-_]] under the [i] flag. *)
Definition isUriChar (c : ascii) : bool :=
  let n := Js.code c in
  ((97 <=? n) && (n <=? 122) || (65 <=? n) && (n <=? 90)
   || (48 <=? n) && (n <=? 57) || (n =? 45) || (n =? 95))%nat.

(** [/^[a-z0-9-_]+$/i.test(s)]. *)
Definition reShortUri (s : string) : bool :=
  match s with
  | EmptyString => false
  | String _ _ => Js.allChars isUriChar s
  end.

(** [Set.prototype.has]. *)
Definition setHas (s : list string) (x : string) : bool :=
  existsb (String.eqb x) s.

(** [validatePageMetadata]: the error it throws, [None] when it
    returns. *)
Definition validatePageMetadata (metadata : PageMetadata)
    (existingUris : option (list string)) : option ValidationError :=
  if (shortUri metadata =? "")%string then Some ErrEmptyShortUri
  else if negb (reShortUri (shortUri metadata))
  then Some ErrInvalidCharacters
  else
    match existingUris with
    | Some uris =>
        if negb (parent metadata =? "root")%string
           && negb (setHas uris (parent metadata))
        then Some (ErrParentMissing (parent metadata))
        else None
    | None => None
    end.

(** The candidate [`${baseSlug}-${counter}`]. *)
Definition candidateUri (baseSlug : string) (counter : nat) : string :=
  baseSlug ++ "-" ++ natToString counter.

(** The [while] loop of [generateShortUri], for at most [fuel]
    increments of the counter: [None] when the fuel runs out. *)
Fixpoint nextCandidate (fuel : nat) (baseSlug : string)
    (existingUris : list string) (counter : nat) : option string :=
  let candidate := candidateUri baseSlug counter in
  if setHas existingUris candidate
  then match fuel with
       | O => None
       | S fuel' => nextCandidate fuel' baseSlug existingUris (S counter)
       end
  else Some candidate.

(** [generateShortUri]. *)
Definition generateShortUri (fuel : nat) (title : string)
    (existingUris : option (list string)) : option string :=
  let baseSlug := Slug.generateSlug title in
  match existingUris with
  | None => Some baseSlug
  | Some uris =>
      if negb (setHas uris baseSlug) then Some baseSlug
      else nextCandidate fuel baseSlug uris 2
  end.

(* ===================================================================== *)
(** ** core/seo.ts *)
(* ===================================================================== *)

Module Seo.

(** [s.replace(/re/, r)] without the [g] flag: the first match from the
    left is replaced, the text behind it is kept. *)
Fixpoint replaceFirst (m : Js.matcher) (atStart : bool) (s : string)
  : string :=
  match s with
  | EmptyString => EmptyString
  | String c s' =>
      match m atStart s with
      | Some (repl, len) => repl ++ Js.drop len s
      | None => String c (replaceFirst m false s')
      end
  end.

Definition isSlash (c : ascii) : bool := (c =? "/")%char.

(** [/\/+$/]: a run of slashes that reaches the end of the input. *)
Definition reTrailingSlashes : Js.matcher := fun _ s =>
  let run := Js.takeWhile isSlash s in
  match run with
  | EmptyString => None
  | String _ _ =>
      match Js.dropWhile isSlash s with
      | EmptyString => Some (EmptyString, String.length run)
      | String _ _ => None
      end
  end.

(** [siteUrl.replace(/\/+$/, '')]. *)
Definition cleanUrl (siteUrl : string) : string :=
  replaceFirst reTrailingSlashes true siteUrl.

(** [generateRobotsTxt]; a caller that leaves [basePath] out passes
    the default [''] here. *)
Definition generateRobotsTxt (siteUrl basePath : string) : string :=
  Js.join Js.nl
    [ "User-agent: *";
      "Allow: /";
      "";
      "Sitemap: " ++ cleanUrl siteUrl ++ basePath ++ "/sitemap.xml";
      "" ].

(** The [<url>] element of one page. *)
Definition urlElement (clean : string) (page : PageIndexEntry) : string :=
  let lastmod :=
    match pi_date page with
    | Some (String c d) =>
        Js.nl ++ "    <lastmod>" ++ String c d ++ "</lastmod>"
    | _ => EmptyString
    end in
  "  <url>" ++ Js.nl ++ "    <loc>" ++ clean ++ pi_url page ++ "</loc>"
  ++ lastmod ++ Js.nl ++ "  </url>".

(** The filter of [generateSitemap]: not a label listing page. *)
Definition isContentPage (basePath : string) (p : PageIndexEntry) : bool :=
  negb (Js.startsWith (pi_url p) (basePath ++ "/label/")).

(** [generateSitemap]. *)
Definition generateSitemap (pages : list PageIndexEntry)
    (siteUrl basePath : string) : string :=
  let clean := cleanUrl siteUrl in
  let urls :=
    Js.join Js.nl
      (List.map (urlElement clean)
         (List.filter (isContentPage basePath) pages)) in
  Js.join Js.nl
    [ "<?xml version=" ++ quoted "1.0" ++ " encoding=" ++ quoted "UTF-8"
      ++ "?>";
      "<urlset xmlns="
      ++ quoted "http://www.sitemaps.org/schemas/sitemap/0.9" ++ ">";
      urls;
      "</urlset>";
      "" ].

End Seo.

(* ===================================================================== *)
(** ** templates/template-registry.ts and the component map of
       core/template.ts *)
(* ===================================================================== *)

(** A [Map<string, V>] in insertion order: [set] on a key the map holds
    replaces the value and leaves the position of the key. *)
Fixpoint mapSet {V} (key : string) (v : V) (m : list (string * V))
  : list (string * V) :=
  match m with
  | [] => [(key, v)]
  | (k, w) :: m' =>
      if (k =? key)%string then (k, v) :: m'
      else (k, w) :: mapSet key v m'
  end.

(** [Map.prototype.get]. *)
Fixpoint mapLookup {V} (key : string) (m : list (string * V)) : option V :=
  match m with
  | [] => None
  | (k, w) :: m' => if (k =? key)%string then Some w else mapLookup key m'
  end.

(** A call that returns a value or throws an [Error] with a message. *)
Inductive thrown (A : Type) :=
| Returned (a : A)
| Thrown (message : string).
Arguments Returned {A} a.
Arguments Thrown {A} message.

Module TemplateRegistry.

(** The private field [templates]. *)
Definition t : Type := list (string * string).

(** [new TemplateRegistry()]. *)
Definition empty : t := [].

Definition register (name templateHtml : string) (r : t) : t :=
  mapSet name templateHtml r.

Definition get (name : string) (r : t) : option string := mapLookup name r.

Definition has (name : string) (r : t) : bool :=
  match mapLookup name r with
  | Some _ => true
  | None => false
  end.

Definition names (r : t) : list string := List.map fst r.

(** [render]: the empty string is falsy, so a template registered with
    no text takes the [throw] as well. *)
Definition render (E : Externals) (name : string)
    (context : TemplateContext) (r : t) : thrown string :=
  match get name r with
  | Some (String c html) => Returned (processTemplate E (String c html) context)
  | _ =>
      Thrown ("Template " ++ quoted name ++ " is not registered. Available: "
              ++ Js.join ", " (names r))
  end.

End TemplateRegistry.

Section LoadTemplates.

Variable E : Externals.

(** [existsSync] and [readdirSync] of Node's [fs], and [path.basename]
    with a suffix. *)
Variable existsSync : string -> bool.
Variable readdirSync : string -> list string.
Variable basename : string -> string -> string.

(** [loadTemplatesFromDir]. *)
Definition loadTemplatesFromDir (dir : string) : TemplateRegistry.t :=
  if negb (existsSync dir) then TemplateRegistry.empty
  else
    fold_left
      (fun registry file =>
         if Js.endsWith file ".html"
         then
           let name := basename file ".html" in
           let content := readFileSync E (pathJoin E [dir; file]) in
           TemplateRegistry.register name content registry
         else registry)
      (readdirSync dir) TemplateRegistry.empty.

End LoadTemplates.

Section Components.

(** The props of a component function. *)
Variable Props : Type.

(** template.ts, the private field [components] of [TemplateEngine]. *)
Definition ComponentMap : Type := list (string * (Props -> string)).

Definition registerComponent (name : string) (component : Props -> string)
    (components : ComponentMap) : ComponentMap :=
  mapSet name component components.

Definition hasComponent (name : string) (components : ComponentMap) : bool :=
  match mapLookup name components with
  | Some _ => true
  | None => false
  end.

Definition renderComponent (name : string) (props : Props)
    (components : ComponentMap) : thrown string :=
  match mapLookup name components with
  | Some component => Returned (component props)
  | None => Thrown ("Component " ++ quoted name ++ " is not registered")
  end.

End Components.

(* ===================================================================== *)
(** ** index.ts: the label router of the browser *)
(* ===================================================================== *)

(** What fetching the page index brings: [fetch] or [response.json()]
    rejects, the response is not [ok], or the parsed JSON. *)
Inductive FetchResult :=
| FetchRejected
| FetchNotOk
| FetchOk (index : list PageIndexEntry).

(** [getPageIndex], with the module variable [pageIndexCache] passed in
    and out; [None] for the index when the promise rejects.  The
    response is looked at only when the cache is empty. *)
Definition getPageIndex (pageIndexCache : option (list PageIndexEntry))
    (response : FetchResult)
  : option (list PageIndexEntry) * option (list PageIndexEntry) :=
  match pageIndexCache with
  | Some index => (Some index, pageIndexCache)
  | None =>
      match response with
      | FetchRejected => (None, None)
      | FetchNotOk => (Some [], None)
      | FetchOk index => (Some index, Some index)
      end
  end.

(** [handleLabelClick]: the new [window.location.href], if the click
    navigates, and the cache behind the call.  [basePath] is what
    [getBasePath()] reads from the document. *)
Definition handleLabelClick (basePath : string)
    (pageIndexCache : option (list PageIndexEntry))
    (response : FetchResult) (label : string)
  : option string * option (list PageIndexEntry) :=
  match getPageIndex pageIndexCache response with
  | (None, cache) => (None, cache)
  | (Some index, cache) =>
      let matches :=
        List.filter
          (fun entry => existsb (String.eqb label) (pi_labels entry)) index in
      (match matches with
       | [] => None
       | [m] => Some (pi_url m)
       | _ :: _ :: _ => Some (basePath ++ "/label/" ++ Slug.labelSlug label)
       end, cache)
  end.

(** A visitor's clicks, one after the other, each with the response a
    [fetch] would get at that moment. *)
Fixpoint clickAll (basePath : string)
    (pageIndexCache : option (list PageIndexEntry))
    (clicks : list (FetchResult * string)) : list (option string) :=
  match clicks with
  | [] => []
  | (response, label) :: rest =>
      let (target, cache) :=
        handleLabelClick basePath pageIndexCache response label in
      target :: clickAll basePath cache rest
  end.

(* ===================================================================== *)
(** ** Notions of the further properties *)
(* ===================================================================== *)

(** A character of a slug: [a-z0-9] or the hyphen. *)
Definition isSlugChar (c : ascii) : bool := Slug.isAlnum c || Slug.isHyphen c.

(** The shape of a slug behind a position: characters of slugs only, no
    hyphen next to a hyphen, and no hyphen first when [afterHyphen]. *)
Fixpoint slugShape (afterHyphen : bool) (s : string) : bool :=
  match s with
  | EmptyString => true
  | String c s' =>
      if Slug.isAlnum c then slugShape false s'
      else if Slug.isHyphen c then negb afterHyphen && slugShape true s'
      else false
  end.

(** A slug: the shape above from its first character on, and no hyphen
    last. *)
Definition isSlug (s : string) : Prop :=
  slugShape true s = true /\ Js.endsWith s "-" = false.

(** A decimal digit. *)
Definition isDigit (c : ascii) : bool :=
  let n := Js.code c in ((48 <=? n) && (n <=? 57))%nat.

(** [c] with a backslash turned into a slash. *)
Definition slashChar (c : ascii) : ascii :=
  if (c =? Js.backslash)%char then "/"%char else c.

(** A relative path as [scanContent] hands it on: a non-empty stem
    before [.md] that begins with neither a slash nor a backslash. *)
Definition relativeStem (base : string) : Prop :=
  base <> ""
  /\ Js.startsWith base "/" = false
  /\ Js.startsWith base (String Js.backslash "") = false.

(** The key a page is filed under in the children map:
    [metadata.parent || 'root']. *)
Definition parentKey (metadata : PageMetadata) : string :=
  match parent metadata with
  | EmptyString => "root"
  | p => p
  end.

(** The children of [key]: the pages whose metadata parses and names
    [key] as the parent, in scan order. *)
Definition childrenOf (E : Externals) (key : string)
    (files : list ContentFile) : list ChildPageData :=
  List.flat_map
    (fun file =>
       match metadataOf E file with
       | Ok metadata =>
           if (key =? parentKey metadata)%string
           then [childOf E file metadata] else []
       | Err _ => []
       end)
    files.

(** The names of the markdown files below a directory entry, depth
    first, in directory order. *)
Fixpoint markdownNames (entry : Dirent) : list string :=
  match entry with
  | DFile name => if Js.endsWith name ".md" then [name] else []
  | DDir _ entries => List.flat_map markdownNames entries
  | DOther _ => []
  end.

(** The page title [build] hands to the layout. *)
Definition pageTitleOf (config : BuildConfig) (data : FrontmatterData)
  : JsVal :=
  orVal (fm_title data)
    (orVal (optStr (defaultTitle config)) (JStr "Untitled")).

(* ===================================================================== *)
(** ** Further closed examples *)
(* ===================================================================== *)

(** Metadata with the given [Short-URI] and parent, for the metadata
    check. *)
Definition metadataWith (uri parentUri : string) : PageMetadata :=
  {| shortUri := uri; title := JStr uri; type := TPage; category := JStr "";
     labels := []; parent := parentUri; order := numOfZ 999;
     author := JStr ""; date := None; description := JStr "";
     keywords := []; template := JStr "default" |}.

(** Two pages and a label listing page, for the sitemap. *)
Definition aboutEntry : PageIndexEntry :=
  {| pi_url := "/about"; pi_title := "About"; pi_description := "About page";
     pi_labels := []; pi_category := ""; pi_date := Some "2024-01-20" |}.
Definition blogEntry : PageIndexEntry :=
  {| pi_url := "/blog"; pi_title := "Blog"; pi_description := "Blog";
     pi_labels := []; pi_category := ""; pi_date := None |}.
Definition labelEntry : PageIndexEntry :=
  {| pi_url := "/label/htmx"; pi_title := "Label: htmx";
     pi_description := ""; pi_labels := []; pi_category := "";
     pi_date := None |}.

(** A page with a [:::children] directive and its two posts. *)
Definition sectionDoc : string :=
  Demo.doc ["Short-URI: blog"; "Parent: root"] ":::children".

Definition sectionFile : ContentFile :=
  mkFile "content/blog/index.md" "blog/index.md" "index.md".

Definition sectionEnv : Externals :=
  {| readFileSync := fun path =>
       if (path =? cf_path sectionFile)%string then sectionDoc
       else Demo.read path;
     parseFrontmatter := fun content =>
       if (content =? sectionDoc)%string
       then Some (Demo.header "blog" (JStr "root") JUndefined JUndefined
                    JUndefined, ":::children")
       else Demo.parse content;
     compileWithFrontmatter := compileWithFrontmatter Demo.env;
     finiteToString := finiteToString Demo.env;
     stringToNumber := stringToNumber Demo.env;
     arraySort := arraySort Demo.env;
     processChildrenDirectives := fun content children =>
       Some (Js.join "," (List.map ch_shortUri children));
     pathJoin := pathJoin Demo.env;
     localeCompare := localeCompare Demo.env;
     envBasePath := envBasePath Demo.env;
     renderNavigation := renderNavigation Demo.env;
     renderLabelFooter := renderLabelFooter Demo.env;
     renderLabelIndex := renderLabelIndex Demo.env;
     generatePageIndex := generatePageIndex Demo.env;
     generateLabelSlug := generateLabelSlug Demo.env;
     stringifyIndex := stringifyIndex Demo.env;
     toLocaleDateString := toLocaleDateString Demo.env;
     toISOString := toISOString Demo.env |}.

(** A content directory: two pages, a picture, a folder with a post and
    a link. *)
Definition contentTree : list Dirent :=
  [ DFile "index.md"; DFile "logo.png";
    DDir "blog" [ DFile "post.md"; DOther "latest"; DFile "notes.txt" ];
    DFile "about.md" ].

(** A context whose content holds a placeholder and a conditional of its
    own. *)
Definition echoContext : TemplateContext :=
  {| ctx_title := "Test Page";
     ctx_content := "<p>{{title}}{{#if title}}!{{/if}}</p>";
     ctx_description := EmptyString;
     ctx_keywords := EmptyString;
     ctx_basePath := EmptyString;
     ctx_navigation := [];
     ctx_siteLabels := [];
     ctx_frontmatter := emptyFrontmatter;
     ctx_cssFiles := [];
     ctx_jsFiles := [];
     ctx_author := EmptyString;
     ctx_date := None;
     ctx_category := EmptyString;
     ctx_labels := [];
     ctx_type := TPage |}.

(** Two posts that share the label [htmx]. *)
Definition postEntry : PageIndexEntry :=
  {| pi_url := "/blog/post"; pi_title := "Post"; pi_description := "";
     pi_labels := ["htmx"; "css"]; pi_category := ""; pi_date := None |}.
Definition noteEntry : PageIndexEntry :=
  {| pi_url := "/blog/note"; pi_title := "Note"; pi_description := "";
     pi_labels := ["htmx"]; pi_category := ""; pi_date := None |}.

(** The files of a templates directory. *)
Definition templateFiles : list string :=
  ["default.html"; "README.md"; "blank.html"].

(** [path.basename(file, '.html')] on the files above. *)
Definition templateName (file suffix : string) : string :=
  if Js.endsWith file suffix
  then Js.take (String.length file - String.length suffix) file
  else file.

(** A header whose [Short-URI] is padded with blanks. *)
Definition paddedHeader : FrontmatterData :=
  mkFrontmatter JUndefined JUndefined (JStr "  about  ") (JStr "post")
                JUndefined JUndefined JUndefined JUndefined JUndefined
                JUndefined JUndefined JUndefined JUndefined JUndefined
                JUndefined.

(* ===================================================================== *)
(** * Properties *)
(* ===================================================================== *)

(** ** Strings *)

Lemma append_nil_r (s : string) : s ++ "" = s.
Proof. induction s; simpl; congruence. Qed.

Lemma append_assoc (a b c : string) : (a ++ b) ++ c = a ++ (b ++ c).
Proof. induction a; simpl; congruence. Qed.

Lemma length_append (a b : string) :
  String.length (a ++ b) = (String.length a + String.length b)%nat.
Proof. induction a; simpl; congruence. Qed.

Lemma take_append (a b : string) : Js.take (String.length a) (a ++ b) = a.
Proof. induction a; simpl; [destruct b | ]; congruence. Qed.

Lemma drop_append (a b : string) : Js.drop (String.length a) (a ++ b) = b.
Proof. induction a; simpl; [destruct b | ]; congruence. Qed.

Lemma take_drop_while (p : ascii -> bool) (s : string) :
  Js.takeWhile p s ++ Js.dropWhile p s = s.
Proof.
  induction s as [|c s IH]; simpl; [reflexivity|].
  destruct (p c); simpl; congruence.
Qed.

Lemma drop_takeWhile (p : ascii -> bool) (s : string) :
  Js.drop (String.length (Js.takeWhile p s)) s = Js.dropWhile p s.
Proof.
  induction s as [|c s IH]; simpl; [reflexivity|].
  destruct (p c); simpl; congruence.
Qed.

Lemma prefix_append (p s : string) : String.prefix p (p ++ s) = true.
Proof.
  induction p as [|c p IH]; simpl; [destruct s; reflexivity|].
  destruct (ascii_dec c c); congruence.
Qed.

Lemma append_inj_l (a b c : string) : a ++ b = a ++ c -> b = c.
Proof. induction a; simpl; intros H; [assumption|]. injection H; auto. Qed.

(** ** The scanner *)

Section Scanner.

Variable m : Js.matcher.

Lemma scanFrom_skip (k : nat) (s : string) :
  Js.scanFrom m false k s = Js.scanFrom m false 0 (Js.drop k s).
Proof.
  revert k; induction s as [|c s IH]; intros [|k]; simpl; try reflexivity.
  apply IH.
Qed.

(** The scan behind a match at the head of the input. *)
Lemma scanFrom_match (a : bool) (s consumed rest repl : string) :
  consumed <> "" ->
  s = consumed ++ rest ->
  m a s = Some (repl, String.length consumed) ->
  Js.scanFrom m a 0 s = repl ++ Js.scanFrom m false 0 rest.
Proof.
  intros Hne -> Hm.
  destruct consumed as [|c consumed]; [congruence|].
  cbn [Js.scanFrom append] in *. rewrite Hm. f_equal.
  cbn [String.length Nat.pred].
  rewrite (scanFrom_skip (String.length consumed)).
  now rewrite drop_append.
Qed.

Lemma scanFrom_miss (a : bool) (c : ascii) (s : string) :
  m a (String c s) = None ->
  Js.scanFrom m a 0 (String c s) = String c (Js.scanFrom m false 0 s).
Proof. intros H; simpl; now rewrite H. Qed.

Lemma scanFrom_flagFree (a : bool) (s : string) :
  flagFree m -> Js.scanFrom m a 0 s = Js.scanFrom m false 0 s.
Proof.
  intros H. destruct s as [|c s]; simpl; [reflexivity|]. now rewrite H.
Qed.

End Scanner.

(** ** Slugs *)

(** The global replacement of [/[^a-z0-9]+/g] by a hyphen collapses
    runs: behind the first code unit of a run the scanner skips the rest
    of the run, which is what [collapseRuns true] does. *)
Lemma replace_nonAlnum_collapse (s : string) (a : bool) :
  Js.scanFrom Slug.reNonAlnumRun a 0 s = Slug.collapseRuns false s
  /\ Js.scanFrom Slug.reNonAlnumRun false
       (String.length (Js.takeWhile (fun c => negb (Slug.isAlnum c)) s)) s
     = Slug.collapseRuns true s.
Proof.
  revert a; induction s as [|c s IH]; intros a; [split; reflexivity|].
  destruct (IH false) as [IH0 IH1].
  cbn [Js.scanFrom Slug.collapseRuns Js.takeWhile].
  unfold Slug.reNonAlnumRun at 1. cbn [Js.takeWhile].
  destruct (Slug.isAlnum c) eqn:Hc; cbn [negb String.length Nat.pred append].
  - rewrite IH0. split; [reflexivity|].
    unfold Slug.reNonAlnumRun at 1. cbn [Js.takeWhile]. rewrite Hc.
    reflexivity.
  - rewrite IH1. split; reflexivity.
Qed.

Lemma dropWhile_snoc (p : ascii -> bool) (s : string) (c : ascii) :
  Js.dropWhile p (s ++ String c "") =
  match Js.dropWhile p s with
  | EmptyString => if p c then EmptyString else String c EmptyString
  | r => r ++ String c ""
  end.
Proof.
  induction s as [|d s IH]; simpl; [reflexivity|].
  destruct (p d); [exact IH | reflexivity].
Qed.

Lemma rev_append (a b : string) : Js.rev (a ++ b) = Js.rev b ++ Js.rev a.
Proof.
  induction a as [|c a IH]; simpl; [now rewrite append_nil_r|].
  now rewrite IH, append_assoc.
Qed.

Lemma rev_dropWhile_rev (s : string) :
  Js.rev (Js.dropWhile Slug.isHyphen (Js.rev s)) = dropEndHyphens s.
Proof.
  induction s as [|c s IH]; simpl; [reflexivity|].
  rewrite dropWhile_snoc, <- IH.
  destruct (Js.dropWhile Slug.isHyphen (Js.rev s)) as [|d r] eqn:Hd.
  - simpl. destruct (Slug.isHyphen c); reflexivity.
  - rewrite rev_append. simpl.
    destruct (Js.rev r ++ String d "") eqn:Hr; [|reflexivity].
    destruct (Js.rev r); discriminate.
Qed.

Lemma dropEndHyphens_nil_iff (s : string) :
  dropEndHyphens s = "" <-> Js.dropWhile Slug.isHyphen s = "".
Proof.
  induction s as [|c s IH]; simpl; [tauto|].
  destruct (dropEndHyphens s) eqn:Hd; destruct (Slug.isHyphen c);
    split; intros H; try discriminate; try tauto.
  apply IH in H. discriminate.
Qed.

(** Behind the start of the input, [/^-+|-+$/g] only strikes a run of
    hyphens that reaches the end. *)
Lemma replace_edge_tail (s : string) :
  Js.scanFrom Slug.reEdgeHyphens false 0 s = dropEndHyphens s.
Proof.
  induction s as [|c s IH]; [reflexivity|].
  cbn [Js.scanFrom dropEndHyphens].
  unfold Slug.reEdgeHyphens at 1. cbn [Js.takeWhile Js.dropWhile].
  destruct (Slug.isHyphen c) eqn:Hc.
  - destruct (Js.dropWhile Slug.isHyphen s) as [|d r] eqn:Hd.
    + apply dropEndHyphens_nil_iff in Hd as Hd'. rewrite Hd'.
      cbn [String.length Nat.pred append].
      rewrite scanFrom_skip, drop_takeWhile, Hd. reflexivity.
    + rewrite IH.
      destruct (dropEndHyphens s) eqn:He; [|reflexivity].
      apply dropEndHyphens_nil_iff in He. congruence.
  - rewrite IH. destruct (dropEndHyphens s); reflexivity.
Qed.

Lemma replace_edge_trim (s : string) :
  Js.replaceAll Slug.reEdgeHyphens s = Slug.trimHyphens s.
Proof.
  unfold Js.replaceAll, Slug.trimHyphens. rewrite rev_dropWhile_rev.
  destruct s as [|c s]; [reflexivity|].
  cbn [Js.scanFrom]. unfold Slug.reEdgeHyphens at 1.
  cbn [Js.takeWhile Js.dropWhile].
  destruct (Slug.isHyphen c) eqn:Hc.
  - cbn [String.length Nat.pred append].
    rewrite scanFrom_skip, drop_takeWhile. apply replace_edge_tail.
  - rewrite replace_edge_tail. cbn [dropEndHyphens]. rewrite Hc.
    destruct (dropEndHyphens s); reflexivity.
Qed.

(** C4.  The build-time slug [generateSlug] and the browser's
    [labelSlug] are the same function, and both compute what the
    contract says: lowercase, trim, every run of characters outside
    [a-z0-9] collapsed to one hyphen, hyphens trimmed at both ends. *)
Theorem slug_functions_agree (text : string) :
  Slug.generateSlug text = Slug.labelSlug text
  /\ Slug.generateSlug text = Slug.slugSpec text
  /\ Slug.labelSlug text = Slug.slugSpec text.
Proof.
  assert (H : Slug.generateSlug text = Slug.slugSpec text).
  { unfold Slug.generateSlug, Slug.slugSpec.
    rewrite replace_edge_trim. f_equal.
    apply (proj1 (replace_nonAlnum_collapse _ true)). }
  split; [reflexivity | split; [exact H |]].
  transitivity (Slug.generateSlug text); [reflexivity | exact H].
Qed.

(** ** [path.extname] on a name that ends in [.md] *)










(** The mappings the contract names. *)
Lemma getOutputPath_examples :
  getOutputPath "about.md" = "about/index.html"
  /\ getOutputPath "blog/index.md" = "blog/index.html"
  /\ getOutputPath "blog/index.md" <> "blog/index/index.html"
  /\ getOutputPath "blog/post.md" = "blog/post/index.html"
  /\ getOutputPath "blog/tutorials/index.md" = "blog/tutorials/index.html"
  /\ getOutputPath "index.md" = "index.html".
Proof.
  repeat split; try reflexivity.
  intros H. vm_compute in H. discriminate H.
Qed.

(** C1.  A markdown file named [.md] inside a directory has no extension
    for [path.extname]; [slice(0, -0)] then empties the whole path, the
    directory is lost and the page lands on the root index: the result is
    neither [blog/.md/index.html] (nothing stripped) nor
    [blog//index.html] ([.md] stripped). *)
Theorem getOutputPath_dotfile_loses_directory :
  Path.extname "blog/.md" = ""
  /\ getOutputPath "blog/.md" = "/index.html"
  /\ getOutputPath "blog/.md" <> "blog/.md/index.html"
  /\ getOutputPath "blog/.md" <> "blog//index.html".
Proof.
  repeat split; try reflexivity; intros H; vm_compute in H; discriminate H.
Qed.

(** ** The matchers of the tag engine *)

Lemma stripPrefix_sound (p s r : string) :
  stripPrefix p s = Some r -> s = p ++ r.
Proof.
  revert s; induction p as [|a p IH]; intros [|b s]; simpl; intros H;
    try discriminate; try (injection H as <-; reflexivity).
  destruct (Ascii.eqb_spec a b); [|discriminate].
  subst. f_equal. now apply IH.
Qed.

Lemma stripPrefix_append (p s : string) : stripPrefix p (p ++ s) = Some s.
Proof.
  induction p as [|a p IH]; simpl; [reflexivity|].
  now rewrite Ascii.eqb_refl.
Qed.

Lemma stripPrefix_prefix (p s : string) :
  stripPrefix p s = None <-> String.prefix p s = false.
Proof.
  revert s; induction p as [|a p IH]; intros [|b s]; simpl;
    try (split; discriminate); try tauto.
  destruct (Ascii.eqb_spec a b); destruct (ascii_dec a b);
    try contradiction; try tauto.
  apply IH.
Qed.

(** A pattern found at the head of [a ++ x] lies inside [a], or [a] is
    a proper prefix of the pattern and the rest of it opens [x]. *)
Lemma stripPrefix_straddle (p a x r : string) :
  stripPrefix p (a ++ x) = Some r ->
  String.prefix p a = true
  \/ exists k, (k < String.length p)%nat /\ String.length a = k
               /\ stripPrefix (Js.drop k p) x = Some r.
Proof.
  revert a; induction p as [|c p IH]; intros a H.
  - left. destruct a; reflexivity.
  - destruct a as [|d a].
    + right. exists 0%nat. cbn. split; [lia|]. split; [reflexivity|exact H].
    + cbn in H. destruct (Ascii.eqb_spec c d); [|discriminate]. subst d.
      apply IH in H. destruct H as [H|(k & Hk & Hl & H)].
      * left. cbn. destruct (ascii_dec c c); congruence.
      * right. exists (S k). cbn. repeat split; try lia. exact H.
Qed.

(** The closing tag has no border: it cannot begin inside a block that
    does not hold it and end inside the closing tag behind that block. *)
Lemma findClose_append (block post : string) :
  Js.includes block "{{/if}}" = false ->
  findClose (block ++ "{{/if}}" ++ post) = Some (block, post).
Proof.
  induction block as [|c block IH]; intros H.
  - reflexivity.
  - cbn [Js.includes] in H. apply orb_false_iff in H as [Hp Hi].
    specialize (IH Hi).
    change ((String c block ++ "{{/if}}" ++ post))
      with (String c (block ++ "{{/if}}" ++ post)).
    cbn [findClose]. rewrite IH.
    destruct (stripPrefix "{{/if}}" (String c (block ++ "{{/if}}" ++ post)))
      as [r|] eqn:Hs; [exfalso|reflexivity].
    change (String c (block ++ "{{/if}}" ++ post))
      with (String c block ++ ("{{/if}}" ++ post)) in Hs.
    apply stripPrefix_straddle in Hs.
    destruct Hs as [Hs|(k & Hk & Hl & Hs)]; [congruence|].
    cbn [String.length] in Hk, Hl.
    do 7 (destruct k as [|k]; [try discriminate Hl; discriminate Hs|]).
    lia.
Qed.

Lemma findClose_sound (s block rest : string) :
  findClose s = Some (block, rest) -> s = block ++ "{{/if}}" ++ rest.
Proof.
  revert block; induction s as [|c s IH]; intros block H.
  - cbn in H. discriminate.
  - cbn [findClose] in H.
    destruct (stripPrefix "{{/if}}" (String c s)) as [r|] eqn:Hs.
    + injection H as <- <-. now apply stripPrefix_sound in Hs.
    + destruct (findClose s) as [[b r]|]; [|discriminate].
      injection H as <- <-. cbn. f_equal. now apply IH.
Qed.

Lemma condTail_name (name acc t block post : string) :
  name <> "" ->
  Js.allChars isNameChar name = true ->
  findClose t = Some (block, post) ->
  condTail acc (name ++ "}}" ++ t) = Some (acc ++ name, block, post).
Proof.
  revert acc; induction name as [|c name IH]; intros acc Hne Hall Hf;
    [congruence|].
  cbn [Js.allChars] in Hall. apply andb_true_iff in Hall as [Hc Hall].
  unfold isNameChar in Hc. apply andb_true_iff in Hc as [Hsp Hbr].
  apply negb_true_iff in Hsp.
  change (String c name ++ "}}" ++ t) with (String c (name ++ "}}" ++ t)).
  cbn [condTail]. rewrite Hsp.
  destruct name as [|d name].
  - cbn [append]. cbn [stripPrefix]. cbn. rewrite Hf. reflexivity.
  - assert (Hd : (d =? "}")%char = false).
    { cbn [Js.allChars] in Hall. apply andb_true_iff in Hall as [Hd _].
      unfold isNameChar in Hd. apply andb_true_iff in Hd as [_ Hd].
      now apply negb_true_iff in Hd. }
    change (String d name ++ "}}" ++ t) with (String d (name ++ "}}" ++ t)).
    cbn [stripPrefix]. rewrite Ascii.eqb_sym, Hd.
    change (String d (name ++ "}}" ++ t)) with (String d name ++ "}}" ++ t).
    rewrite IH by (try discriminate; assumption).
    now rewrite append_assoc.
Qed.

Lemma condTail_sound (s acc name block rest : string) :
  condTail acc s = Some (name, block, rest) ->
  exists n, n <> "" /\ name = acc ++ n
            /\ s = n ++ "}}" ++ block ++ "{{/if}}" ++ rest.
Proof.
  revert acc; induction s as [|c s IH]; intros acc H; [discriminate|].
  cbn [condTail] in H. destruct (Js.isSpace c); [discriminate|].
  destruct (stripPrefix "}}" s) as [t|] eqn:Hs.
  - destruct (findClose t) as [[b r]|] eqn:Hf.
    + injection H as <- <- <-. exists (String c "").
      split; [discriminate|]. split; [reflexivity|].
      apply stripPrefix_sound in Hs. apply findClose_sound in Hf.
      subst. reflexivity.
    + apply IH in H as (n & _ & -> & ->). exists (String c n).
      split; [discriminate|]. split; [now rewrite append_assoc|reflexivity].
  - apply IH in H as (n & _ & -> & ->). exists (String c n).
    split; [discriminate|]. split; [now rewrite append_assoc|reflexivity].
Qed.

Lemma allChars_head (p : ascii -> bool) (c : ascii) (s : string) :
  Js.allChars p (String c s) = true -> p c = true.
Proof. cbn. now intros [H _]%andb_true_iff. Qed.

(** The conditional expression on a well-formed block: the name behind
    [{{#if ], the block, and what lies behind [{{/if}}]. *)
Lemma matchConditional_block (name block post : string) :
  name <> "" ->
  Js.allChars isNameChar name = true ->
  Js.includes block "{{/if}}" = false ->
  matchConditional ("{{#if " ++ name ++ "}}" ++ block ++ "{{/if}}" ++ post)
  = Some (name, block, post).
Proof.
  intros Hne Hall Hb. unfold matchConditional.
  change ("{{#if " ++ name ++ "}}" ++ block ++ "{{/if}}" ++ post)
    with ("{{#if" ++ String " " (name ++ "}}" ++ block ++ "{{/if}}" ++ post)).
  rewrite stripPrefix_append. cbn [Js.takeWhile Js.dropWhile].
  change (Js.isSpace " ") with true. cbn iota.
  destruct name as [|c name]; [congruence|].
  assert (Hc : Js.isSpace c = false).
  { apply allChars_head in Hall. unfold isNameChar in Hall.
    apply andb_true_iff in Hall as [Hc _]. now apply negb_true_iff in Hc. }
  change (String c name ++ "}}" ++ block ++ "{{/if}}" ++ post)
    with (String c (name ++ "}}" ++ block ++ "{{/if}}" ++ post)).
  cbn [Js.dropWhile]. rewrite Hc.
  change (String c (name ++ "}}" ++ block ++ "{{/if}}" ++ post))
    with (String c name ++ "}}" ++ block ++ "{{/if}}" ++ post).
  apply (condTail_name (String c name) ""); auto.
  now apply findClose_append.
Qed.

Lemma matchConditional_sound (s name block rest : string) :
  matchConditional s = Some (name, block, rest) ->
  exists consumed, consumed <> "" /\ s = consumed ++ rest.
Proof.
  unfold matchConditional. intros H.
  destruct (stripPrefix "{{#if" s) as [r|] eqn:Hs; [|discriminate].
  apply stripPrefix_sound in Hs.
  destruct (Js.takeWhile Js.isSpace r) eqn:Hw; [discriminate|].
  apply condTail_sound in H as (n & _ & _ & Hd).
  exists ("{{#if" ++ Js.takeWhile Js.isSpace r ++ n ++ "}}" ++ block
          ++ "{{/if}}").
  split; [discriminate|].
  rewrite Hs at 1. rewrite <- (take_drop_while Js.isSpace r) at 1.
  rewrite Hd. now rewrite !append_assoc.
Qed.

Lemma tagTail_sound (s acc name rest : string) :
  tagTail acc s = Some (name, rest) ->
  exists n, name = acc ++ n /\ s = n ++ "}}" ++ rest.
Proof.
  revert acc; induction s as [|c s IH]; intros acc H; [discriminate|].
  cbn [tagTail] in H. destruct (Js.isSpace c); [discriminate|].
  destruct (stripPrefix "}}" s) as [t|] eqn:Hs.
  - injection H as <- <-. exists (String c ""). split; [reflexivity|].
    apply stripPrefix_sound in Hs. now subst.
  - apply IH in H as (n & -> & ->). exists (String c n).
    split; [now rewrite append_assoc|reflexivity].
Qed.

(** What the placeholder expression matched is the tag name between
    double braces. *)
Lemma matchPlaceholder_sound (s name rest : string) :
  matchPlaceholder s = Some (name, rest) ->
  s = ("{{" ++ name ++ "}}") ++ rest.
Proof.
  unfold matchPlaceholder. intros H.
  destruct (stripPrefix "{{" s) as [r|] eqn:Hs; [|discriminate].
  apply stripPrefix_sound in Hs.
  apply tagTail_sound in H as (n & -> & ->). subst s.
  cbn [append]. now rewrite !append_assoc.
Qed.

Lemma length_sub_append (a b : string) :
  (String.length (a ++ b) - String.length b)%nat = String.length a.
Proof. rewrite length_append. lia. Qed.

(** ** The two steps of [processTemplate] *)

(** Equal strings up to the bracketing of appends. *)
Ltac str_assoc :=
  repeat (progress (cbn [append]; rewrite ?append_assoc)); reflexivity.

Section TagEngineFacts.

Variable E : Externals.
Variable ctx : TemplateContext.

Lemma reConditional_flagFree : flagFree (reConditional E ctx).
Proof. intros a s. reflexivity. Qed.

Lemma isTagTruthy_nonempty (name : string) :
  isTagTruthy E name ctx = negb (resolveTag E name ctx =? "")%string.
Proof.
  unfold isTagTruthy. destruct (resolveTag E name ctx); reflexivity.
Qed.

(** Step 1 on a template that opens with a conditional block: the block
    stays or goes, and the scan goes on behind [{{/if}}]. *)
Lemma resolveConditionals_block (name block post : string) :
  name <> "" ->
  Js.allChars isNameChar name = true ->
  Js.includes block "{{/if}}" = false ->
  resolveConditionals E
    ("{{#if " ++ name ++ "}}" ++ block ++ "{{/if}}" ++ post) ctx
  = (if isTagTruthy E name ctx then block else "")
    ++ resolveConditionals E post ctx.
Proof.
  intros Hne Hall Hb. unfold resolveConditionals, Js.replaceAll.
  rewrite (scanFrom_flagFree _ true post reConditional_flagFree).
  apply scanFrom_match
    with (consumed := "{{#if " ++ name ++ "}}" ++ block ++ "{{/if}}").
  - discriminate.
  - str_assoc.
  - unfold reConditional. rewrite matchConditional_block by assumption.
    do 2 f_equal.
    replace ("{{#if " ++ name ++ "}}" ++ block ++ "{{/if}}" ++ post)
      with (("{{#if " ++ name ++ "}}" ++ block ++ "{{/if}}") ++ post)
      by str_assoc.
    apply length_sub_append.
Qed.

Lemma scan_plain (s : string) (a : bool) :
  Js.includes s "{{" = false -> Js.scanFrom (rePlaceholder E ctx) a 0 s = s.
Proof.
  revert a; induction s as [|c s IH]; intros a H; [reflexivity|].
  cbn [Js.includes] in H. apply orb_false_iff in H as [Hp Hi].
  rewrite scanFrom_miss.
  - f_equal. now apply IH.
  - unfold rePlaceholder, matchPlaceholder.
    apply stripPrefix_prefix in Hp. now rewrite Hp.
Qed.

(** Step 1 copies text without braces and goes on behind it. *)
Lemma resolveConditionals_text (pre rest : string) :
  Js.allChars isTextChar pre = true ->
  resolveConditionals E (pre ++ rest) ctx
  = pre ++ resolveConditionals E rest ctx.
Proof.
  unfold resolveConditionals, Js.replaceAll. intros H.
  rewrite (scanFrom_flagFree _ true (pre ++ rest) reConditional_flagFree),
    (scanFrom_flagFree _ true rest reConditional_flagFree).
  induction pre as [|c pre IH]; [reflexivity|].
  cbn [Js.allChars] in H. apply andb_true_iff in H as [Hc H].
  unfold isTextChar in Hc. apply negb_true_iff in Hc.
  change (String c pre ++ rest) with (String c (pre ++ rest)).
  rewrite scanFrom_miss.
  - cbn [append]. f_equal. now apply IH.
  - unfold reConditional, matchConditional. cbn [stripPrefix].
    now rewrite Ascii.eqb_sym, Hc.
Qed.

(** Text without [{{#if] has no conditional block. *)
Lemma resolveConditionals_plain (s : string) :
  Js.includes s "{{#if" = false -> resolveConditionals E s ctx = s.
Proof.
  unfold resolveConditionals, Js.replaceAll.
  rewrite (scanFrom_flagFree _ true s reConditional_flagFree).
  induction s as [|c s IH]; intros H; [reflexivity|].
  cbn [Js.includes] in H. apply orb_false_iff in H as [Hp Hi].
  rewrite scanFrom_miss.
  - f_equal. now apply IH.
  - unfold reConditional, matchConditional.
    apply stripPrefix_prefix in Hp. now rewrite Hp.
Qed.

(** Text without an opening double brace has no placeholder. *)
Lemma resolvePlaceholders_plain (s : string) :
  Js.includes s "{{" = false -> resolvePlaceholders E s ctx = s.
Proof. apply scan_plain. Qed.

Lemma includes_close_open (s : string) :
  Js.includes s "{{" = false -> Js.includes s "{{/if}}" = false.
Proof.
  induction s as [|c s IH]; intros H; [reflexivity|].
  cbn [Js.includes] in *. apply orb_false_iff in H as [Hp Hi].
  rewrite (IH Hi), orb_false_r.
  destruct (String.prefix "{{/if}}" (String c s)) eqn:Hq; [|reflexivity].
  exfalso. apply stripPrefix_prefix in Hp.
  destruct (stripPrefix "{{/if}}" (String c s)) as [r|] eqn:Hr.
  - apply stripPrefix_sound in Hr. rewrite Hr in Hp.
    change ("{{/if}}" ++ r) with ("{{" ++ "/if}}" ++ r) in Hp.
    rewrite stripPrefix_append in Hp. discriminate.
  - apply stripPrefix_prefix in Hr. congruence.
Qed.

(** Step 2 replaces a placeholder whose tag is not built in by the very
    text it matched: where every placeholder is of that kind, step 2
    changes nothing. *)
Lemma scan_unknown_placeholders (s : string) (k : nat) (a : bool) :
  Forall (fun n => isBuiltin n = false) (namesFrom k s) ->
  (forall n, isBuiltin n = false -> resolveTag E n ctx = "{{" ++ n ++ "}}") ->
  Js.scanFrom (rePlaceholder E ctx) a k s = Js.drop k s.
Proof.
  intros H Hdef. revert k a H.
  induction s as [|c s IH]; intros k a H; [destruct k; reflexivity|].
  destruct k as [|k]; [|now apply IH].
  unfold namesFrom in H; fold namesFrom in H.
  unfold Js.scanFrom; fold Js.scanFrom. unfold rePlaceholder at 1.
  destruct (matchPlaceholder (String c s)) as [[name rest]|] eqn:Hm.
  - remember (String.length (String c s) - String.length rest)%nat
      as len eqn:Hlen.
    inversion H as [|? ? Hname Hrest]; subst.
    rewrite (IH _ false Hrest), (Hdef _ Hname).
    apply matchPlaceholder_sound in Hm as Hs.
    rewrite Hs, length_sub_append.
    assert (Hs' : s = Js.drop 1 ("{{" ++ name ++ "}}") ++ rest)
      by (cbn in Hs |- *; now injection Hs).
    replace (Nat.pred (String.length ("{{" ++ name ++ "}}")))
      with (String.length (Js.drop 1 ("{{" ++ name ++ "}}")))
      by reflexivity.
    rewrite Hs' at 1. rewrite drop_append. reflexivity.
  - cbn [Js.drop]. f_equal. now apply (IH 0%nat false).
Qed.

End TagEngineFacts.

(** C6.  A tag name outside the built-in set resolves to the literal
    [{{name}}], so step 2 replaces every unknown placeholder by the text
    it matched: a template whose placeholders are all unknown passes
    step 2 unchanged, for every context.  The functions are total: no
    input raises. *)
Theorem unknown_tags_pass_through (E : Externals) (ctx : TemplateContext) :
  (forall name,
      isBuiltin name = false ->
      resolveTag E name ctx = "{{" ++ name ++ "}}")
  /\ (forall template,
         Forall (fun n => isBuiltin n = false) (placeholderNames template) ->
         resolvePlaceholders E template ctx = template)
  /\ (forall template,
         Forall (fun n => isBuiltin n = false)
           (placeholderNames (resolveConditionals E template ctx)) ->
         processTemplate E template ctx = resolveConditionals E template ctx)
  /\ (forall template,
         Js.includes template "{{#if" = false ->
         Forall (fun n => isBuiltin n = false) (placeholderNames template) ->
         processTemplate E template ctx = template).
Proof.
  assert (Hdef : forall name,
      isBuiltin name = false ->
      resolveTag E name ctx = "{{" ++ name ++ "}}").
  { intros name H. unfold isBuiltin, builtinTags in H. cbn [existsb] in H.
    repeat (apply orb_false_iff in H as [?H H]).
    unfold resolveTag.
    repeat match goal with
           | Hx : (name =? _)%string = false |- _ => rewrite Hx; clear Hx
           end.
    reflexivity. }
  split; [exact Hdef|].
  assert (Hs2 : forall template,
      Forall (fun n => isBuiltin n = false) (placeholderNames template) ->
      resolvePlaceholders E template ctx = template).
  { intros t Ht. unfold resolvePlaceholders, Js.replaceAll.
    now rewrite (scan_unknown_placeholders E ctx t 0 true Ht Hdef). }
  split; [exact Hs2|]. split.
  - intros t Ht. unfold processTemplate. now apply Hs2.
  - intros t Hc Ht. unfold processTemplate.
    rewrite resolveConditionals_plain by assumption. now apply Hs2.
Qed.

(** The theorem at the demo context: [{{unknown-thing}}] stays. *)
Lemma unknown_tags_pass_through_witness :
  isBuiltin "unknown-thing" = false
  /\ Js.includes "<p>{{unknown-thing}}</p>" "{{#if" = false
  /\ Forall (fun n => isBuiltin n = false)
       (placeholderNames "<p>{{unknown-thing}}</p>")
  /\ resolveTag Demo.env "unknown-thing" Demo.context = "{{unknown-thing}}"
  /\ processTemplate Demo.env "<p>{{unknown-thing}}</p>" Demo.context
     = "<p>{{unknown-thing}}</p>".
Proof.
  assert (Hn : Forall (fun n => isBuiltin n = false)
                 (placeholderNames "<p>{{unknown-thing}}</p>"))
    by (vm_compute; repeat constructor).
  split; [reflexivity|]. split; [reflexivity|]. split; [exact Hn|]. split.
  - exact (proj1 (unknown_tags_pass_through Demo.env Demo.context)
             "unknown-thing" eq_refl).
  - exact (proj2 (proj2 (proj2 (unknown_tags_pass_through
                                  Demo.env Demo.context)))
             "<p>{{unknown-thing}}</p>" eq_refl Hn).
Defined.

(** ** Navigation *)

Section NavigationFacts.

Variable E : Externals.

Lemma navItemOf_root (file : ContentFile) :
  isRootPage E file = true ->
  exists item, navItemOf E file = Some item
               /\ nav_href item = getUrlPath E (relativePath file).
Proof.
  unfold isRootPage, navItemOf.
  destruct (metadataOf E file) as [m|e]; [|discriminate].
  intros ->. eexists. split; reflexivity.
Qed.

Lemma navItemOf_not_root (file : ContentFile) :
  isRootPage E file = false -> navItemOf E file = None.
Proof.
  unfold isRootPage, navItemOf.
  destruct (metadataOf E file) as [m|e]; [|reflexivity].
  now intros ->.
Qed.

(** The items collected are those of the root pages, in scan order. *)
Lemma collectNav_hrefs (files : list ContentFile) :
  List.map nav_href (collectNav E files)
  = List.map (fun f => getUrlPath E (relativePath f))
      (List.filter (isRootPage E) files).
Proof.
  induction files as [|f files IH]; [reflexivity|].
  cbn [collectNav List.filter].
  destruct (isRootPage E f) eqn:Hr.
  - destruct (navItemOf_root f Hr) as (item & -> & Hh).
    cbn [List.map]. now rewrite Hh, IH.
  - now rewrite (navItemOf_not_root f Hr).
Qed.

(** Two items whose orders are the same infinity: their difference is
    NaN, which is not [0], so the comparator returns it and never looks
    at the labels. *)
Lemma navCompare_infinite (a b : NavItem) :
  navOrder a = PosInfinity -> navOrder b = PosInfinity ->
  navCompare E a b = Ok NaN.
Proof. unfold navCompare. now intros -> ->. Qed.

(** Two items of equal finite order, the first with a label that is not
    a string: the comparator throws. *)
Lemma navCompare_not_a_string (a b : NavItem) :
  numIsZero (numSub (navOrder a) (navOrder b)) = true ->
  (forall label, nav_label a <> JStr label) ->
  navCompare E a b = Err ErrTypeError.
Proof.
  unfold navCompare. intros -> Hl. cbn [negb].
  destruct (nav_label a); try reflexivity. now destruct (Hl s).
Qed.

(** Root pages whose orders are all infinite, under a stable sort: the
    navigation is the scan order, whatever the titles. *)
Lemma generateNavigation_all_infinite (files : list ContentFile) :
  keepsTies (arraySort E) ->
  (forall item, In item (collectNav E files) ->
                navOrder item = PosInfinity) ->
  generateNavigation E files = Ok (collectNav E files).
Proof.
  intros Hsort Hinf. unfold generateNavigation. apply Hsort.
  intros a b Ha Hb. exists NaN. split; [|reflexivity].
  apply navCompare_infinite; now apply Hinf.
Qed.

End NavigationFacts.

(** The insertion sort of the demo engine is stable on ties. *)
Lemma demo_sort_keeps_ties : keepsTies Demo.sortBy.
Proof.
  intros cmp items. induction items as [|x l IH]; intros H; [reflexivity|].
  cbn [Demo.sortBy]. rewrite IH by (intros a b Ha Hb; apply H; now right).
  destruct l as [|y l']; [reflexivity|]. cbn [Demo.sortInsert].
  destruct (H x y (or_introl eq_refl) (or_intror (or_introl eq_refl)))
    as (v & -> & ->).
  reflexivity.
Qed.

(** C7.  Ties of [Order] are not always broken by the title.  Two root
    pages whose [Order] is infinite tie, but their difference is NaN and
    not [0]: the comparator returns NaN without comparing the labels,
    [sort] reads NaN as [+0] and, being stable, leaves the items in
    scan order, under every engine whose sort is stable; on the demo
    site Zebra stays before Apple.  (Two root pages of equal order whose titles are YAML numbers
    make the comparator throw, and [build] is rejected before it
    writes.)  On the documents of the claim, [blog] with order 2 and
    [home] with order 1, the sequence is home, blog. *)
Theorem navigation_ties_at_infinity_unbroken :
  (forall E a b,
      navOrder a = PosInfinity -> navOrder b = PosInfinity ->
      navCompare E a b = Ok NaN)
  /\ sortSign NaN = 0
  /\ (forall E files,
         keepsTies (arraySort E) ->
         (forall item, In item (collectNav E files) ->
                       navOrder item = PosInfinity) ->
         generateNavigation E files = Ok (collectNav E files))
  /\ keepsTies (arraySort Demo.env)
  /\ List.map (isRootPage Demo.env) [Demo.zebra; Demo.apple] = [true; true]
  /\ localeCompare Demo.env "Apple" "Zebra" < 0
  /\ (exists items,
         generateNavigation Demo.env [Demo.zebra; Demo.apple] = Ok items
         /\ List.map nav_label items = [JStr "Zebra"; JStr "Apple"]
         /\ List.map nav_order items
            = [Some PosInfinity; Some PosInfinity])
  /\ (exists items,
         generateNavigation Demo.env [Demo.apple; Demo.zebra] = Ok items
         /\ List.map nav_label items = [JStr "Apple"; JStr "Zebra"])
  /\ (exists items,
         generateNavigation Demo.env [Demo.blog; Demo.home] = Ok items
         /\ List.map nav_label items = [JStr "home"; JStr "blog"])
  /\ generateNavigation Demo.env [Demo.year1; Demo.year2] = Err ErrTypeError
  /\ build Demo.env Demo.config [Demo.year1; Demo.year2]
     = {| writes := []; outcome := Aborted ErrTypeError |}.
Proof.
  split; [intros E a b; apply navCompare_infinite|].
  split; [reflexivity|].
  split; [intros E files; apply generateNavigation_all_infinite|].
  split; [exact demo_sort_keeps_ties|].
  split; [vm_compute; reflexivity|].
  split; [vm_compute; reflexivity|].
  split; [eexists; split; [vm_compute; reflexivity|split; reflexivity]|].
  split; [eexists; split; [vm_compute; reflexivity|reflexivity]|].
  split; [eexists; split; [vm_compute; reflexivity|reflexivity]|].
  split; vm_compute; reflexivity.
Qed.

(** ** The collection passes skip what does not parse *)

Section BuilderFacts.

Variable E : Externals.
Variable config : BuildConfig.

(** A fold skips the elements its step leaves the state at. *)
Lemma fold_left_skip {A B} (step : A -> B -> A) (keep : B -> bool)
    (l : list B) (acc : A) :
  (forall a b, keep b = false -> step a b = a) ->
  fold_left step l acc = fold_left step (List.filter keep l) acc.
Proof.
  intros Hskip. revert acc; induction l as [|b l IH]; intros acc;
    [reflexivity|].
  cbn [fold_left List.filter]. destruct (keep b) eqn:Hk.
  - cbn [fold_left]. apply IH.
  - rewrite (Hskip acc b Hk). apply IH.
Qed.

Lemma metadataParses_false (file : ContentFile) :
  metadataParses E file = false -> exists e, metadataOf E file = Err e.
Proof.
  unfold metadataParses. destruct (metadataOf E file); [discriminate|].
  eauto.
Qed.

Lemma collectNav_filter (files : list ContentFile) :
  collectNav E files = collectNav E (List.filter (metadataParses E) files).
Proof.
  induction files as [|f files IH]; [reflexivity|].
  cbn [collectNav List.filter]. destruct (metadataParses E f) eqn:Hp.
  - cbn [collectNav]. now rewrite IH.
  - apply metadataParses_false in Hp as [e He].
    unfold navItemOf. now rewrite He.
Qed.

Lemma collectSiteLabels_filter (files : list ContentFile) :
  collectSiteLabels E files
  = collectSiteLabels E (List.filter (metadataParses E) files).
Proof.
  unfold collectSiteLabels. apply fold_left_skip.
  intros acc f Hp. apply metadataParses_false in Hp as [e He].
  now rewrite He.
Qed.

Lemma collectChildrenMap_filter (files : list ContentFile) :
  collectChildrenMap E files
  = collectChildrenMap E (List.filter (metadataParses E) files).
Proof.
  unfold collectChildrenMap. apply fold_left_skip.
  intros acc f Hp. apply metadataParses_false in Hp as [e He].
  now rewrite He.
Qed.

Lemma collectAllPageMetadata_filter (files : list ContentFile) :
  collectAllPageMetadata E files
  = collectAllPageMetadata E (List.filter (metadataParses E) files).
Proof.
  induction files as [|f files IH]; [reflexivity|].
  cbn [collectAllPageMetadata List.filter].
  destruct (metadataParses E f) eqn:Hp.
  - cbn [collectAllPageMetadata]. now rewrite IH.
  - apply metadataParses_false in Hp as [e He]. now rewrite He.
Qed.

Lemma filter_without (pre post : list ContentFile) (file : ContentFile) :
  metadataParses E file = false ->
  List.filter (metadataParses E) (pre ++ file :: post)
  = List.filter (metadataParses E) (pre ++ post).
Proof.
  intros H. rewrite !List.filter_app. cbn [List.filter]. now rewrite H.
Qed.

(** ** The render loop *)

Lemma renderFile_compiled (nav : list NavItem)
    (cm : list (string * list ChildPageData)) (sl : list string)
    (file : ContentFile) (html : string) (data : FrontmatterData) :
  compileWithFrontmatter E
    (resolveChildren E cm (readFileSync E (cf_path file)))
  = Some (html, data) ->
  renderFile E config nav cm sl file
  = Ok (pagePath E config file,
        renderPage E
          (pageDataOf E config nav sl file
             {| pf_html := html;
                pf_data := data;
                pf_outputPath := getOutputPath (relativePath file) |})).
Proof.
  intros H. unfold renderFile, processFile. now rewrite H.
Qed.

Lemma renderFile_thrown (nav : list NavItem)
    (cm : list (string * list ChildPageData)) (sl : list string)
    (file : ContentFile) :
  compileWithFrontmatter E
    (resolveChildren E cm (readFileSync E (cf_path file))) = None ->
  renderFile E config nav cm sl file = Err ErrCompile.
Proof.
  intros H. unfold renderFile, processFile. now rewrite H.
Qed.

Lemma renderFile_path (nav : list NavItem)
    (cm : list (string * list ChildPageData)) (sl : list string)
    (file : ContentFile) (w : FileWrite) :
  renderFile E config nav cm sl file = Ok w ->
  fst w = pagePath E config file.
Proof.
  unfold renderFile, processFile.
  destruct (compileWithFrontmatter E _) as [[html data]|]; [|discriminate].
  now intros [= <-].
Qed.

(** The loop ends with the error of the compiler, if any: it runs to its
    end exactly when the compiler returns on every text. *)
Lemma renderAll_error (nav : list NavItem)
    (cm : list (string * list ChildPageData)) (sl : list string)
    (files : list ContentFile) :
  snd (renderAll E config nav cm sl files)
  = if forallb
         (fun f =>
            match compileWithFrontmatter E
                    (resolveChildren E cm (readFileSync E (cf_path f))) with
            | Some _ => true
            | None => false
            end) files
    then None else Some ErrCompile.
Proof.
  induction files as [|f files IH]; [reflexivity|].
  cbn [renderAll forallb].
  destruct (compileWithFrontmatter E
              (resolveChildren E cm (readFileSync E (cf_path f))))
    as [[html data]|] eqn:Hc.
  - rewrite (renderFile_compiled _ _ _ _ _ _ Hc).
    destruct (renderAll E config nav cm sl files) as [ws r].
    cbn [snd andb] in *. exact IH.
  - now rewrite (renderFile_thrown _ _ _ _ Hc).
Qed.

(** The pages go to the mapped output paths, in scan order. *)
Lemma renderAll_paths (nav : list NavItem)
    (cm : list (string * list ChildPageData)) (sl : list string)
    (files : list ContentFile) :
  snd (renderAll E config nav cm sl files) = None ->
  List.map fst (fst (renderAll E config nav cm sl files))
  = List.map (pagePath E config) files.
Proof.
  induction files as [|f files IH]; [reflexivity|].
  cbn [renderAll].
  destruct (renderFile E config nav cm sl f) as [w|e] eqn:Hw;
    [|discriminate].
  apply renderFile_path in Hw.
  destruct (renderAll E config nav cm sl files) as [ws r].
  cbn [fst snd List.map] in *. intros Hr. now rewrite Hw, IH.
Qed.

(** A file is written when the loop reaches it: the compiler returned on
    every text before it, and on its own. *)
Lemma renderAll_reaches (nav : list NavItem)
    (cm : list (string * list ChildPageData)) (sl : list string)
    (pre post : list ContentFile) (file : ContentFile)
    (html : string) (data : FrontmatterData) :
  (forall f, In f pre ->
             compileWithFrontmatter E
               (resolveChildren E cm (readFileSync E (cf_path f))) <> None) ->
  compileWithFrontmatter E
    (resolveChildren E cm (readFileSync E (cf_path file)))
  = Some (html, data) ->
  In (pagePath E config file,
      renderPage E
        (pageDataOf E config nav sl file
           {| pf_html := html;
              pf_data := data;
              pf_outputPath := getOutputPath (relativePath file) |}))
     (fst (renderAll E config nav cm sl (pre ++ file :: post))).
Proof.
  intros Hpre Hfile. induction pre as [|g pre IH]; cbn [List.app renderAll].
  - rewrite (renderFile_compiled _ _ _ _ _ _ Hfile).
    destruct (renderAll E config nav cm sl post). now left.
  - destruct (compileWithFrontmatter E
                (resolveChildren E cm (readFileSync E (cf_path g))))
      as [[h d]|] eqn:Hg.
    + rewrite (renderFile_compiled _ _ _ _ _ _ Hg).
      specialize (IH (fun f Hf => Hpre f (or_intror Hf))).
      destruct (renderAll E config nav cm sl (pre ++ file :: post)).
      now right.
    + exfalso. apply (Hpre g); [now left|exact Hg].
Qed.

Lemma build_writes_pages (files : list ContentFile)
    (nav : list NavItem) (w : FileWrite) :
  generateNavigation E files = Ok nav ->
  In w (fst (renderAll E config nav
               (collectChildrenMap E files) (collectSiteLabels E files)
               files)) ->
  In w (writes (build E config files)).
Proof.
  unfold build. intros ->.
  destruct (renderAll E config _ _ _ files) as [ws [e|]]; cbn [fst writes];
    [tauto|].
  intros H. apply in_or_app. now left.
Qed.

(** What [build] ends with: the error of the sort, else the error of the
    compiler, else nothing. *)
Lemma build_outcome (files : list ContentFile) :
  outcome (build E config files)
  = match generateNavigation E files with
    | Err e => Aborted e
    | Ok _ =>
        if forallb (compiles E files) files then Done
        else Aborted ErrCompile
    end.
Proof.
  unfold build. destruct (generateNavigation E files) as [nav|e];
    [|reflexivity].
  assert (H := renderAll_error nav (collectChildrenMap E files)
                 (collectSiteLabels E files) files).
  fold (pageSource E files) in H.
  destruct (renderAll E config nav _ _ files) as [ws r]. cbn [snd] in H.
  subst r. unfold compiles, pageSource.
  now destruct (forallb _ files).
Qed.

Lemma build_done_iff (files : list ContentFile) :
  outcome (build E config files) = Done
  <-> exists nav,
        generateNavigation E files = Ok nav
        /\ snd (renderAll E config nav (collectChildrenMap E files)
                  (collectSiteLabels E files) files) = None.
Proof.
  unfold build. split.
  - destruct (generateNavigation E files) as [nav|e]; [|discriminate].
    intros H. exists nav. split; [reflexivity|].
    destruct (renderAll E config nav _ _ files) as [ws [e|]];
      [discriminate H|reflexivity].
  - intros (nav & -> & Hr).
    destruct (renderAll E config nav _ _ files) as [ws r].
    cbn [snd] in Hr. now subst r.
Qed.

Lemma build_done_compiles (files : list ContentFile) :
  outcome (build E config files) = Done ->
  forall f, In f files -> compiles E files f = true.
Proof.
  rewrite build_outcome. destruct (generateNavigation E files);
    [|discriminate].
  destruct (forallb (compiles E files) files) eqn:H; [|discriminate].
  intros _. now apply forallb_forall.
Qed.

(** A document without a truthy [Short-URI] reaches [processFile] as it
    was read. *)
Lemma pageSource_no_shortUri (files : list ContentFile)
    (file : ContentFile) (data : FrontmatterData) (body : string) :
  parseFrontmatter E (readFileSync E (cf_path file)) = Some (data, body) ->
  truthy (fm_ShortURI data) = false ->
  pageSource E files file = readFileSync E (cf_path file).
Proof.
  intros Hp Hu. unfold pageSource, resolveChildren.
  destruct (Js.includes _ _); [|reflexivity]. now rewrite Hp, Hu.
Qed.

(** The aggregations of a document set do not change when a document
    whose metadata does not parse is taken out. *)
Lemma aggregations_without (pre post : list ContentFile)
    (file : ContentFile) (e : BuildError) :
  metadataOf E file = Err e ->
  generateNavigation E (pre ++ file :: post)
  = generateNavigation E (pre ++ post)
  /\ collectSiteLabels E (pre ++ file :: post)
     = collectSiteLabels E (pre ++ post)
  /\ collectChildrenMap E (pre ++ file :: post)
     = collectChildrenMap E (pre ++ post)
  /\ collectAllPageMetadata E (pre ++ file :: post)
     = collectAllPageMetadata E (pre ++ post).
Proof.
  intros Hm.
  assert (Hskip : metadataParses E file = false)
    by (unfold metadataParses; now rewrite Hm).
  unfold generateNavigation.
  rewrite (collectNav_filter (pre ++ file :: post)),
    (collectNav_filter (pre ++ post)),
    (collectSiteLabels_filter (pre ++ file :: post)),
    (collectSiteLabels_filter (pre ++ post)),
    (collectChildrenMap_filter (pre ++ file :: post)),
    (collectChildrenMap_filter (pre ++ post)),
    (collectAllPageMetadata_filter (pre ++ file :: post)),
    (collectAllPageMetadata_filter (pre ++ post)),
    (filter_without pre post file Hskip).
  repeat split; reflexivity.
Qed.

(** The page of a file in a build that completes. *)
Lemma build_done_page (files : list ContentFile) (file : ContentFile)
    (html : string) (data : FrontmatterData) :
  outcome (build E config files) = Done ->
  In file files ->
  compileWithFrontmatter E (pageSource E files file) = Some (html, data) ->
  exists nav,
    generateNavigation E files = Ok nav
    /\ In (pagePath E config file,
           renderPage E
             (pageDataOf E config nav (collectSiteLabels E files) file
                {| pf_html := html;
                   pf_data := data;
                   pf_outputPath := getOutputPath (relativePath file) |}))
          (writes (build E config files)).
Proof.
  intros Hdone Hin Hc.
  assert (Hall := build_done_compiles files Hdone).
  apply build_done_iff in Hdone as (nav & Hnav & _).
  exists nav. split; [exact Hnav|].
  apply in_split in Hin as (pre & post & ->).
  apply (build_writes_pages _ nav); [exact Hnav|].
  apply renderAll_reaches; [|exact Hc].
  intros f Hf. specialize (Hall f (in_or_app _ _ _ (or_introl Hf))).
  unfold compiles, pageSource in Hall.
  destruct (compileWithFrontmatter E _); [discriminate|discriminate Hall].
Qed.

End BuilderFacts.

(** C2, as the claim has it, fails: a build that completes has written
    the page index but neither a sitemap nor a robots file.  On the demo
    site the writes are the five pages, the index and one label page; on
    the empty site the index alone. *)
Lemma build_writes_no_sitemap :
  outcome (build Demo.env Demo.config Demo.site) = Done
  /\ List.map fst (writes (build Demo.env Demo.config Demo.site))
     = ["dist/index.html"; "dist/blog/index.html";
        "dist/blog/post/index.html"; "dist/blog/note/index.html";
        "dist/draft/index.html"; "dist/fragments/page-index.json";
        "dist/label/htmx/index.html"]
  /\ ~ In (pathJoin Demo.env ["dist"; "sitemap.xml"])
          (List.map fst (writes (build Demo.env Demo.config Demo.site)))
  /\ ~ In (pathJoin Demo.env ["dist"; "robots.txt"])
          (List.map fst (writes (build Demo.env Demo.config Demo.site)))
  /\ build Demo.env Demo.config []
     = {| writes := [("dist/fragments/page-index.json", "[]")];
          outcome := Done |}.
Proof.
  repeat split; try (vm_compute; reflexivity);
    vm_compute; intros H;
    repeat (destruct H as [H|H]; [discriminate H|]); exact H.
Qed.

(** C2, amended.  A build that completes has written one page per
    scanned document at its mapped output path, in scan order, then the
    JSON page index of the documents whose metadata parses at
    [fragments/page-index.json], then the label listing pages. *)
Theorem build_writes_page_index (E : Externals) (config : BuildConfig)
    (files : list ContentFile) :
  outcome (build E config files) = Done ->
  let pageIndex := generatePageIndex E (collectAllPageMetadata E files) in
  exists navigation pages,
    generateNavigation E files = Ok navigation
    /\ writes (build E config files)
       = (pages
          ++ [(pathJoin E [pathJoin E [outputDir config; "fragments"];
                           "page-index.json"],
               stringifyIndex E pageIndex)]
          ++ generateLabelIndexPages E config pageIndex
               navigation (collectSiteLabels E files))%list
    /\ List.map fst pages
       = List.map
           (fun f => pathJoin E [outputDir config;
                                 getOutputPath (relativePath f)]) files.
Proof.
  intros Hdone pageIndex.
  apply build_done_iff in Hdone as (nav & Hnav & Hr).
  apply renderAll_paths in Hr as Hp.
  exists nav. unfold build. rewrite Hnav.
  destruct (renderAll E config nav _ _ files) as [ws [e|]];
    [discriminate|].
  exists ws. split; [reflexivity|]. split; [reflexivity|exact Hp].
Qed.

(** The theorem at a two-page site. *)
Lemma build_writes_page_index_witness :
  outcome (build Demo.env Demo.config [Demo.home; Demo.post]) = Done
  /\ exists pages,
       writes (build Demo.env Demo.config [Demo.home; Demo.post])
       = (pages ++ [("dist/fragments/page-index.json", "[/,/blog/post]")])%list
       /\ List.map fst pages = ["dist/index.html"; "dist/blog/post/index.html"].
Proof.
  split; [reflexivity|].
  destruct (build_writes_page_index Demo.env Demo.config
              [Demo.home; Demo.post] eq_refl) as (nav & pages & _ & Hw & Hp).
  exists pages. split; [exact Hw|exact Hp].
Defined.

(** ** Active navigation items *)

Lemma prefix_append_both (b x y : string) :
  String.prefix (b ++ x) (b ++ y) = String.prefix x y.
Proof.
  induction b as [|c b IH]; cbn; [reflexivity|].
  destruct (ascii_dec c c); congruence.
Qed.

Section ActivePath.

Variable E : Externals.

(** The href of a navigation item without the base path. *)
Lemma cleanHref_strips_base (path : string) :
  path <> "" ->
  (if negb (envBasePath E =? "")%string
      && Js.startsWith (envBasePath E ++ path) (envBasePath E)
   then match Js.sliceFrom (String.length (envBasePath E))
                (envBasePath E ++ path) with
        | EmptyString => "/"
        | rest => rest
        end
   else envBasePath E ++ path) = path.
Proof.
  intros Hne. unfold Js.startsWith, Js.sliceFrom.
  rewrite prefix_append, drop_append.
  destruct (String.eqb_spec (envBasePath E) "") as [->|_]; cbn [negb andb].
  - reflexivity.
  - destruct path; [congruence|reflexivity].
Qed.

Lemma isActivePath_clean (path filePath : string) :
  path <> "" ->
  isActivePath E (envBasePath E ++ path) filePath
  = let urlPath := "/" ++ Js.slashify (mdToHtml filePath) in
    if (path =? "/")%string
    then (urlPath =? "/index.html")%string || (filePath =? "index.md")%string
    else Js.startsWith urlPath (path ++ "/")
         || (urlPath =? path ++ ".html")%string.
Proof.
  intros Hne. unfold isActivePath.
  now rewrite (cleanHref_strips_base path Hne).
Qed.

(** The pair the specification names is told apart. *)
Lemma isActivePath_about_us :
  isActivePath E (getUrlPath E "about.md") "about-us.md" = false
  /\ isActivePath E (getUrlPath E "about-us.md") "about.md" = false
  /\ isActivePath E (getUrlPath E "about.md") "about.md" = true.
Proof.
  repeat split.
  - change (getUrlPath E "about.md") with (envBasePath E ++ "/about").
    now rewrite isActivePath_clean.
  - change (getUrlPath E "about-us.md") with (envBasePath E ++ "/about-us").
    now rewrite isActivePath_clean.
  - change (getUrlPath E "about.md") with (envBasePath E ++ "/about").
    now rewrite isActivePath_clean.
Qed.

End ActivePath.

(** C10.  There is a pair of pages, the URL path of one a proper prefix
    of the other's, for which [isActivePath] marks the navigation item of
    one active on the other although that page is neither the page of
    the item nor below it: the suffix test [urlPath === href + '.html']
    takes the section index [blog/index.md] (URL [/blog]) for the page
    [blog/index/index.md] (URL [/blog/index]). *)
Theorem isActivePath_misclassifies (E : Externals) :
  exists navFile pageFile,
    let href := getUrlPath E navFile in
    let url := getUrlPath E pageFile in
    Js.startsWith href url = true
    /\ url <> href
    /\ isActivePath E href pageFile = true
    /\ ownOrBelow href url = false.
Proof.
  exists "blog/index/index.md", "blog/index.md".
  change (getUrlPath E "blog/index/index.md")
    with (envBasePath E ++ "/blog/index").
  change (getUrlPath E "blog/index.md") with (envBasePath E ++ "/blog").
  cbv zeta.
  assert (Hne : envBasePath E ++ "/blog" <> envBasePath E ++ "/blog/index").
  { intros H. apply append_inj_l in H. discriminate. }
  repeat split.
  - unfold Js.startsWith. now rewrite prefix_append_both.
  - exact Hne.
  - now rewrite isActivePath_clean.
  - unfold ownOrBelow, Js.startsWith.
    apply String.eqb_neq in Hne. rewrite Hne.
    rewrite append_assoc, prefix_append_both. reflexivity.
Qed.

(** ** The label map *)

Section LabelMap.

Context {V : Type}.

Lemma mapPush_keys (key : string) (v : V) (m : list (string * list V)) :
  forall k, In k (List.map fst (mapPush key v m))
            <-> k = key \/ In k (List.map fst m).
Proof.
  induction m as [|[k' vs] m IH]; intros k; cbn.
  - intuition congruence.
  - destruct (String.eqb_spec k' key) as [->|Hne]; cbn.
    + intuition congruence.
    + rewrite IH. intuition congruence.
Qed.

Lemma mapPush_wellKeyed (key : string) (v : V) (m : list (string * list V)) :
  wellKeyed m -> wellKeyed (mapPush key v m).
Proof.
  intros [Hnd Hne]. induction m as [|[k vs] m IH]; cbn.
  - split.
    + constructor; [intros []|constructor].
    + constructor; [discriminate|constructor].
  - inversion Hnd as [|? ? Hk Hnd']; subst.
    inversion Hne as [|? ? Hvs Hne']; subst.
    destruct (String.eqb_spec k key) as [->|Hkk].
    + split; [exact Hnd|]. constructor; [|exact Hne'].
      cbn. destruct vs; discriminate.
    + destruct (IH Hnd' Hne') as [IH1 IH2]. split.
      * cbn. constructor; [|exact IH1].
        rewrite mapPush_keys. cbn in Hk. intros [->|H]; tauto.
      * now constructor.
Qed.

Lemma getList_mapPush (key k : string) (v : V) (m : list (string * list V)) :
  getList k (mapPush key v m)
  = if (k =? key)%string then (getList k m ++ [v])%list else getList k m.
Proof.
  unfold getList. induction m as [|[k' vs] m IH]; cbn.
  - rewrite (String.eqb_sym key k). now destruct (k =? key)%string.
  - destruct (String.eqb_spec k' key) as [->|Hne]; cbn.
    + rewrite (String.eqb_sym key k).
      now destruct (k =? key)%string.
    + destruct (String.eqb_spec k' k) as [->|Hne'].
      * destruct (String.eqb_spec k key); [congruence|reflexivity].
      * exact IH.
Qed.

Lemma In_getList (k : string) (vs : list V) (m : list (string * list V)) :
  wellKeyed m -> (In (k, vs) m <-> vs <> [] /\ getList k m = vs).
Proof.
  unfold getList. intros [Hnd Hne].
  induction m as [|[k' vs'] m IH]; cbn.
  - split; [tauto|]. intros [H1 H2]. congruence.
  - inversion Hnd as [|? ? Hk Hnd']; subst.
    inversion Hne as [|? ? Hvs Hne']; subst. cbn in Hvs, Hk.
    specialize (IH Hnd' Hne').
    destruct (String.eqb_spec k' k) as [->|Hkk].
    + split.
      * intros [[= ->]|Hin]; [now split|].
        exfalso. apply Hk. now apply (in_map fst) in Hin.
      * intros [_ ->]. now left.
    + rewrite <- IH. split; [|tauto].
      intros [[= -> ->]|H]; [congruence|exact H].
Qed.

End LabelMap.

Lemma pushLabels_wellKeyed (e : PageIndexEntry) (ls : list string)
    (m : list (string * list PageIndexEntry)) :
  wellKeyed m ->
  wellKeyed (fold_left (fun m label => mapPush label e m) ls m).
Proof.
  revert m; induction ls as [|l ls IH]; intros m H; [exact H|].
  cbn [fold_left]. apply IH. now apply mapPush_wellKeyed.
Qed.

Lemma pushLabels_getList (e : PageIndexEntry) (ls : list string) (k : string)
    (m : list (string * list PageIndexEntry)) :
  getList k (fold_left (fun m label => mapPush label e m) ls m)
  = (getList k m
     ++ List.repeat e (List.length (List.filter (String.eqb k) ls)))%list.
Proof.
  revert m; induction ls as [|l ls IH]; intros m; cbn [fold_left].
  - cbn. now rewrite List.app_nil_r.
  - rewrite IH, getList_mapPush. cbn [List.filter].
    destruct (k =? l)%string; cbn [List.length List.repeat].
    + now rewrite <- List.app_assoc.
    + reflexivity.
Qed.

Lemma groupFrom_spec (pageIndex : list PageIndexEntry)
    (m : list (string * list PageIndexEntry)) :
  wellKeyed m ->
  let m' := fold_left
              (fun labelPages entry =>
                 fold_left (fun m label => mapPush label entry m)
                   (pi_labels entry) labelPages)
              pageIndex m in
  wellKeyed m'
  /\ forall k, getList k m' = (getList k m ++ pushedUnder k pageIndex)%list.
Proof.
  revert m; induction pageIndex as [|e idx IH]; intros m Hm; cbn zeta.
  - split; [exact Hm|]. intros k. cbn. now rewrite List.app_nil_r.
  - cbn [fold_left].
    destruct (IH _ (pushLabels_wellKeyed e (pi_labels e) m Hm)) as [H1 H2].
    split; [exact H1|]. intros k.
    rewrite H2, pushLabels_getList. unfold pushedUnder. cbn [List.flat_map].
    now rewrite <- List.app_assoc.
Qed.

(** The map of [generateLabelIndexPages] holds, under each label some
    entry lists, the entries that list it: each once per listing. *)
Lemma groupByLabel_spec (pageIndex : list PageIndexEntry)
    (label : string) (pages : list PageIndexEntry) :
  In (label, pages) (groupByLabel pageIndex)
  <-> pages <> [] /\ pages = pushedUnder label pageIndex.
Proof.
  destruct (groupFrom_spec pageIndex []) as [Hw Hg].
  { split; constructor. }
  unfold groupByLabel. rewrite (In_getList _ _ _ Hw), Hg. cbn.
  split; intros [H1 H2]; split; congruence.
Qed.



(** C3.  A label listed twice by its only page counts as two pages: the
    loop pushes the entry once per listing and tests the length of the
    array, so a listing page is written for a label that one page
    carries, and that page lists the page twice. *)
Theorem label_page_for_repeated_label (E : Externals)
    (config : BuildConfig) (navigation : list NavItem)
    (siteLabels : list string) :
  List.length (carriers "lonely" [Demo.solo]) = 1%nat
  /\ generateLabelIndexPages E config [Demo.solo] navigation siteLabels
     = [labelPageWrite E config navigation siteLabels "lonely"
          [Demo.solo; Demo.solo]]
  /\ fst (labelPageWrite E config navigation siteLabels "lonely"
            [Demo.solo; Demo.solo])
     = pathJoin E [outputDir config; "label"; generateLabelSlug E "lonely";
                   "index.html"]
  /\ List.map fst
       (generateLabelIndexPages Demo.env Demo.config [Demo.solo] [] [])
     = ["dist/label/lonely/index.html"].
Proof.
  split; [reflexivity|]. split; [reflexivity|]. split; [reflexivity|].
  vm_compute. reflexivity.
Qed.

(** ** The shape of a slug *)

(** ** The shape of a slug *)

Lemma generateSlug_slugSpec (text : string) :
  Slug.generateSlug text = Slug.slugSpec text.
Proof.
  unfold Slug.generateSlug, Slug.slugSpec.
  rewrite replace_edge_trim. f_equal.
  apply (proj1 (replace_nonAlnum_collapse _ true)).
Qed.

Lemma trimHyphens_dropEnd (s : string) :
  Slug.trimHyphens s = dropEndHyphens (Js.dropWhile Slug.isHyphen s).
Proof. unfold Slug.trimHyphens. apply rev_dropWhile_rev. Qed.

Lemma hyphen_not_alnum (c : ascii) :
  Slug.isHyphen c = true -> Slug.isAlnum c = false.
Proof.
  unfold Slug.isHyphen. intros H. apply Ascii.eqb_eq in H. now subst.
Qed.

Lemma collapseRuns_shape (b : bool) (t : string) :
  slugShape b (Slug.collapseRuns b t) = true.
Proof.
  revert b; induction t as [|c t IH]; intros b; [reflexivity|].
  cbn [Slug.collapseRuns]. destruct (Slug.isAlnum c) eqn:Hc.
  - cbn [slugShape]. now rewrite Hc.
  - destruct b; [apply IH|].
    cbn [slugShape]. change (Slug.isAlnum "-") with false.
    change (Slug.isHyphen "-") with true. cbn. apply IH.
Qed.

Lemma slugShape_weaken (b : bool) (s : string) :
  slugShape true s = true -> slugShape b s = true.
Proof.
  destruct s as [|c s]; [reflexivity|]. cbn [slugShape].
  destruct (Slug.isAlnum c); [auto|].
  destruct (Slug.isHyphen c); [discriminate|auto].
Qed.

Lemma dropWhile_shape (b : bool) (s : string) :
  slugShape b s = true ->
  slugShape true (Js.dropWhile Slug.isHyphen s) = true.
Proof.
  revert b; induction s as [|c s IH]; intros b H; [reflexivity|].
  cbn [Js.dropWhile]. destruct (Slug.isHyphen c) eqn:Hh.
  - cbn [slugShape] in H. rewrite (hyphen_not_alnum c Hh), Hh in H.
    apply andb_true_iff in H as [_ H]. now apply (IH true).
  - cbn [slugShape] in *. rewrite Hh in *.
    destruct (Slug.isAlnum c); [exact H|discriminate].
Qed.

Lemma dropEnd_shape (b : bool) (s : string) :
  slugShape b s = true -> slugShape b (dropEndHyphens s) = true.
Proof.
  revert b; induction s as [|c s IH]; intros b H; [reflexivity|].
  cbn [dropEndHyphens]. cbn [slugShape] in H.
  destruct (Slug.isAlnum c) eqn:Ha.
  - specialize (IH false H).
    destruct (dropEndHyphens s) as [|d r] eqn:Hd.
    + destruct (Slug.isHyphen c); [reflexivity|].
      cbn [slugShape]. now rewrite Ha.
    + cbn [slugShape] in *. now rewrite Ha.
  - destruct (Slug.isHyphen c) eqn:Hh; [|discriminate].
    apply andb_true_iff in H as [Hb H]. specialize (IH true H).
    destruct (dropEndHyphens s) as [|d r] eqn:Hd; [reflexivity|].
    cbn [slugShape] in *. rewrite Ha, Hh, Hb. exact IH.
Qed.

Lemma endsWith_cons (c : ascii) (s suf : string) :
  s <> "" -> String.length suf = 1%nat ->
  Js.endsWith (String c s) suf = Js.endsWith s suf.
Proof.
  intros Hs Hl. cbn [Js.endsWith].
  destruct (String.eqb_spec (String c s) suf) as [He|_]; [|reflexivity].
  exfalso. subst suf. destruct s; [congruence|discriminate].
Qed.

Lemma dropEnd_no_hyphen_last (s : string) :
  Js.endsWith (dropEndHyphens s) "-" = false.
Proof.
  induction s as [|c s IH]; [reflexivity|].
  cbn [dropEndHyphens].
  destruct (dropEndHyphens s) as [|d r] eqn:Hd.
  - destruct (Slug.isHyphen c) eqn:Hh; [reflexivity|].
    cbn. unfold Slug.isHyphen in Hh. rewrite Hh. reflexivity.
  - rewrite endsWith_cons by (try discriminate; reflexivity). exact IH.
Qed.

(** The result of [generateSlug] is a slug. *)
Lemma generateSlug_isSlug (text : string) : isSlug (Slug.generateSlug text).
Proof.
  rewrite generateSlug_slugSpec. unfold Slug.slugSpec.
  rewrite trimHyphens_dropEnd. split.
  - apply dropEnd_shape. eapply dropWhile_shape. apply collapseRuns_shape.
  - apply dropEnd_no_hyphen_last.
Qed.

Lemma slugShape_chars (b : bool) (s : string) :
  slugShape b s = true -> Js.allChars isSlugChar s = true.
Proof.
  revert b; induction s as [|c s IH]; intros b H; [reflexivity|].
  cbn [slugShape Js.allChars] in *. unfold isSlugChar at 1.
  destruct (Slug.isAlnum c); cbn [orb andb]; [now apply (IH false)|].
  destruct (Slug.isHyphen c); [|discriminate].
  apply andb_true_iff in H as [_ H]. now apply (IH true).
Qed.

Lemma slugShape_no_double_hyphen (b : bool) (s : string) :
  slugShape b s = true -> Js.includes s "--" = false.
Proof.
  revert b; induction s as [|c s IH]; intros b H; [reflexivity|].
  cbn [Js.includes]. cbn [slugShape] in H.
  assert (Hs : slugShape (negb (Slug.isAlnum c)) s = true).
  { destruct (Slug.isAlnum c); [exact H|].
    destruct (Slug.isHyphen c); [|discriminate].
    now apply andb_true_iff in H as [_ H]. }
  rewrite (IH _ Hs), orb_false_r.
  cbn [String.prefix]. destruct (ascii_dec "-" c) as [<-|]; [|reflexivity].
  change (Slug.isAlnum "-") with false in Hs. cbn [negb] in Hs.
  destruct s as [|d s]; [reflexivity|]. cbn [String.prefix].
  destruct (ascii_dec "-" d) as [<-|]; [|reflexivity].
  cbn in Hs. discriminate.
Qed.

Lemma slugShape_no_hyphen_first (s : string) :
  slugShape true s = true -> Js.startsWith s "-" = false.
Proof.
  destruct s as [|c s]; [reflexivity|]. unfold Js.startsWith.
  cbn [String.prefix slugShape].
  destruct (ascii_dec "-" c) as [<-|]; [|reflexivity].
  cbn. discriminate.
Qed.

(** X13.  Every slug is made of [a-z0-9] and of single hyphens between
    them: no other character, no hyphen first or last, no two hyphens in
    a row. *)
Theorem generateSlug_shape (text : string) :
  Js.allChars isSlugChar (Slug.generateSlug text) = true
  /\ Js.startsWith (Slug.generateSlug text) "-" = false
  /\ Js.endsWith (Slug.generateSlug text) "-" = false
  /\ Js.includes (Slug.generateSlug text) "--" = false.
Proof.
  destruct (generateSlug_isSlug text) as [Hs He].
  split; [now apply (slugShape_chars true)|].
  split; [now apply slugShape_no_hyphen_first|].
  split; [exact He|]. now apply (slugShape_no_double_hyphen true).
Qed.

(** ** A slug is its own slug *)

Lemma slugChar_plain (c : ascii) :
  isSlugChar c = true ->
  Js.isSpace c = false /\ Js.lowerChar c = c /\ isUriChar c = true.
Proof.
  destruct c as [[] [] [] [] [] [] [] []]; vm_compute; intros H;
    try discriminate H; repeat split.
Qed.

Lemma toLowerCase_slug (s : string) :
  Js.allChars isSlugChar s = true -> Js.toLowerCase s = s.
Proof.
  induction s as [|c s IH]; [reflexivity|]. cbn [Js.allChars].
  intros [Hc Hs]%andb_true_iff. unfold Js.toLowerCase in *.
  cbn [Js.mapChars]. rewrite (IH Hs).
  now destruct (slugChar_plain c Hc) as (_ & -> & _).
Qed.

Lemma rev_involutive (s : string) : Js.rev (Js.rev s) = s.
Proof.
  induction s as [|c s IH]; [reflexivity|].
  cbn [Js.rev]. rewrite rev_append, IH. reflexivity.
Qed.

Lemma allChars_append (p : ascii -> bool) (a b : string) :
  Js.allChars p (a ++ b) = Js.allChars p a && Js.allChars p b.
Proof.
  induction a as [|c a IH]; [reflexivity|].
  cbn [append Js.allChars]. now rewrite IH, andb_assoc.
Qed.

Lemma allChars_rev (p : ascii -> bool) (s : string) :
  Js.allChars p (Js.rev s) = Js.allChars p s.
Proof.
  induction s as [|c s IH]; [reflexivity|].
  cbn [Js.rev]. rewrite allChars_append, IH. cbn [Js.allChars].
  rewrite andb_true_r. apply andb_comm.
Qed.

Lemma dropWhile_keep (p : ascii -> bool) (s : string) :
  (forall c r, s = String c r -> p c = false) -> Js.dropWhile p s = s.
Proof.
  destruct s as [|c s]; [reflexivity|]. intros H. cbn [Js.dropWhile].
  now rewrite (H c s eq_refl).
Qed.

Lemma dropWhile_none (p q : ascii -> bool) (s : string) :
  (forall c, q c = true -> p c = false) ->
  Js.allChars q s = true -> Js.dropWhile p s = s.
Proof.
  intros Hpq H. apply dropWhile_keep. intros c r ->.
  cbn [Js.allChars] in H. apply andb_true_iff in H as [Hc _]. now apply Hpq.
Qed.

Lemma trim_slug (s : string) :
  Js.allChars isSlugChar s = true -> Js.trim s = s.
Proof.
  intros H. unfold Js.trim, Js.trimStart, Js.trimEnd.
  assert (Hq : forall c, isSlugChar c = true -> Js.isSpace c = false)
    by (intros c Hc; now destruct (slugChar_plain c Hc)).
  rewrite (dropWhile_none _ _ s Hq H).
  rewrite (dropWhile_none _ isSlugChar (Js.rev s) Hq)
    by now rewrite allChars_rev.
  apply rev_involutive.
Qed.

Lemma collapseRuns_slug (b : bool) (s : string) :
  slugShape b s = true -> Slug.collapseRuns b s = s.
Proof.
  revert b; induction s as [|c s IH]; intros b H; [reflexivity|].
  cbn [slugShape Slug.collapseRuns] in *.
  destruct (Slug.isAlnum c); [now rewrite (IH false)|].
  destruct (Slug.isHyphen c) eqn:Hh; [|discriminate].
  apply andb_true_iff in H as [Hb H]. apply negb_true_iff in Hb. subst b.
  rewrite (IH true H). unfold Slug.isHyphen in Hh.
  apply Ascii.eqb_eq in Hh. now subst.
Qed.

Lemma dropEnd_slug (s : string) :
  Js.endsWith s "-" = false -> dropEndHyphens s = s.
Proof.
  induction s as [|c s IH]; [reflexivity|]. intros H.
  cbn [dropEndHyphens]. destruct s as [|d s].
  - cbn [Js.endsWith] in H. rewrite orb_false_r in H.
    unfold Slug.isHyphen. destruct (Ascii.eqb_spec c "-") as [->|_];
      [discriminate H|reflexivity].
  - rewrite endsWith_cons in H by (try discriminate; reflexivity).
    now rewrite (IH H).
Qed.

Lemma generateSlug_of_slug (s : string) :
  isSlug s -> Slug.generateSlug s = s.
Proof.
  intros [Hs He]. rewrite generateSlug_slugSpec. unfold Slug.slugSpec.
  assert (Hc := slugShape_chars true s Hs).
  rewrite (toLowerCase_slug s Hc), (trim_slug s Hc).
  rewrite (collapseRuns_slug false s (slugShape_weaken false s Hs)).
  rewrite trimHyphens_dropEnd.
  rewrite (dropWhile_keep Slug.isHyphen s).
  - now apply dropEnd_slug.
  - intros c r ->. cbn [slugShape] in Hs.
    destruct (Slug.isHyphen c) eqn:Hh; [|reflexivity].
    rewrite (hyphen_not_alnum c Hh) in Hs. discriminate.
Qed.

(** ** Short URIs *)

(** ** Numbers in template literals *)

Lemma zToString_inj (a b : Z) : zToString a = zToString b -> a = b.
Proof.
  unfold zToString. intros H. apply DecimalZ.to_int_inj.
  assert (Hnn : forall z, Z.to_int z <> Decimal.Pos Decimal.Nil
                          /\ Z.to_int z <> Decimal.Neg Decimal.Nil).
  { intros [|p|p]; cbn; split; try discriminate;
      intros [= Hp]; now apply (DecimalPos.Unsigned.to_uint_nonnil p). }
  destruct (Hnn a) as [Ha1 Ha2]. destruct (Hnn b) as [Hb1 Hb2].
  assert (Ha := NilZero.isi _ Ha1 Ha2). assert (Hb := NilZero.isi _ Hb1 Hb2).
  rewrite H in Ha. congruence.
Qed.

Lemma natToString_inj (i j : nat) : natToString i = natToString j -> i = j.
Proof. unfold natToString. intros H%zToString_inj. lia. Qed.

Lemma uint_digits (d : Decimal.uint) :
  Js.allChars isDigit (NilEmpty.string_of_uint d) = true.
Proof. induction d; cbn [NilEmpty.string_of_uint Js.allChars]; auto. Qed.

Lemma natToString_digits (n : nat) :
  natToString n <> "" /\ Js.allChars isDigit (natToString n) = true.
Proof.
  unfold natToString, zToString.
  destruct (Z.of_nat n) as [|p|p] eqn:Hn; [split; [discriminate|reflexivity]| |lia].
  cbn [Z.to_int NilZero.string_of_int].
  assert (Hp := DecimalPos.Unsigned.to_uint_nonnil p).
  destruct (Pos.to_uint p) eqn:Hu; try congruence;
    (split; [discriminate|]); rewrite <- Hu at 1;
    unfold NilZero.string_of_uint; rewrite Hu; rewrite <- Hu; apply uint_digits.
Qed.

Lemma digit_uriChar (c : ascii) : isDigit c = true -> isUriChar c = true.
Proof.
  destruct c as [[] [] [] [] [] [] [] []]; vm_compute; intros H;
    try discriminate H; reflexivity.
Qed.

Lemma allChars_impl (p q : ascii -> bool) (s : string) :
  (forall c, p c = true -> q c = true) ->
  Js.allChars p s = true -> Js.allChars q s = true.
Proof.
  intros Hpq. induction s as [|c s IH]; [reflexivity|]. cbn [Js.allChars].
  intros [Hc Hs]%andb_true_iff. now rewrite (Hpq c Hc), IH.
Qed.

(** ** The loop of [generateShortUri] *)

Lemma candidateUri_inj (baseSlug : string) (i j : nat) :
  candidateUri baseSlug i = candidateUri baseSlug j -> i = j.
Proof.
  unfold candidateUri. intros H. apply append_inj_l in H.
  cbn in H. injection H as H. now apply natToString_inj.
Qed.

Lemma setHas_In (s : list string) (x : string) :
  setHas s x = true <-> In x s.
Proof.
  unfold setHas. rewrite existsb_exists. split.
  - intros (y & Hy & He). apply String.eqb_eq in He. now subst.
  - intros H. exists x. split; [exact H|apply String.eqb_refl].
Qed.

(** The loop stops at the first counter whose candidate is free. *)
Lemma nextCandidate_some (fuel : nat) (baseSlug : string)
    (uris : list string) (counter : nat) (u : string) :
  nextCandidate fuel baseSlug uris counter = Some u ->
  exists k, (counter <= k <= counter + fuel)%nat
            /\ u = candidateUri baseSlug k
            /\ setHas uris u = false
            /\ forall j, (counter <= j < k)%nat ->
                         setHas uris (candidateUri baseSlug j) = true.
Proof.
  revert counter; induction fuel as [|fuel IH]; intros counter H;
    cbn [nextCandidate] in H;
    destruct (setHas uris (candidateUri baseSlug counter)) eqn:Hc;
    try discriminate.
  - injection H as <-. exists counter. repeat split; try lia. exact Hc.
  - apply IH in H as (k & Hk & -> & Hf & Hb). exists k.
    repeat split; try lia; [exact Hf|]. intros j Hj.
    destruct (Nat.eq_dec j counter) as [->|Hne]; [exact Hc|].
    apply Hb. lia.
  - injection H as <-. exists counter. repeat split; try lia. exact Hc.
Qed.

(** The loop runs out of fuel only when every candidate it tried is
    taken. *)
Lemma nextCandidate_none (fuel : nat) (baseSlug : string)
    (uris : list string) (counter : nat) :
  nextCandidate fuel baseSlug uris counter = None ->
  forall j, (counter <= j <= counter + fuel)%nat ->
            In (candidateUri baseSlug j) uris.
Proof.
  revert counter; induction fuel as [|fuel IH]; intros counter H j Hj;
    cbn [nextCandidate] in H;
    destruct (setHas uris (candidateUri baseSlug counter)) eqn:Hc;
    try discriminate.
  - replace j with counter by lia. now apply setHas_In.
  - destruct (Nat.eq_dec j counter) as [->|Hne]; [now apply setHas_In|].
    apply (IH (S counter) H). lia.
Qed.

(** More candidates than the set has members cannot all be taken. *)
Lemma candidates_not_all_taken (baseSlug : string) (uris : list string)
    (counter : nat) :
  ~ (forall j, (counter <= j <= counter + List.length uris)%nat ->
               In (candidateUri baseSlug j) uris).
Proof.
  intros H.
  assert (Hnd : NoDup (List.map (candidateUri baseSlug)
                         (List.seq counter (S (List.length uris))))).
  { apply NoDup_map_NoDup_ForallPairs; [|apply seq_NoDup].
    intros i j _ _. apply candidateUri_inj. }
  apply NoDup_incl_length with (l' := uris) in Hnd.
  - rewrite List.length_map, List.length_seq in Hnd. lia.
  - intros u Hu. apply in_map_iff in Hu as (j & <- & Hj).
    apply in_seq in Hj. apply H. lia.
Qed.

Lemma nextCandidate_fuel (fuel : nat) (baseSlug : string)
    (uris : list string) (counter : nat) :
  (List.length uris <= fuel)%nat ->
  nextCandidate fuel baseSlug uris counter <> None.
Proof.
  intros Hf Hn. apply (candidates_not_all_taken baseSlug uris counter).
  intros j Hj. apply (nextCandidate_none fuel baseSlug uris counter Hn). lia.
Qed.

(** X15.  [generateShortUri] returns a Short-URI that is not in the
    given set: the slug of the title when it is free, and else
    [<slug>-<k>] for the least [k >= 2] whose candidate is free.  The
    loop ends within as many increments as the set has members. *)
Theorem generateShortUri_fresh (fuel : nat) (title : string)
    (uris : list string) :
  (List.length uris <= fuel)%nat ->
  exists u,
    generateShortUri fuel title (Some uris) = Some u
    /\ setHas uris u = false
    /\ (setHas uris (Slug.generateSlug title) = false ->
        u = Slug.generateSlug title)
    /\ (setHas uris (Slug.generateSlug title) = true ->
        exists k, (2 <= k <= 2 + List.length uris)%nat
                  /\ u = candidateUri (Slug.generateSlug title) k
                  /\ forall j, (2 <= j < k)%nat ->
                       setHas uris
                         (candidateUri (Slug.generateSlug title) j) = true).
Proof.
  intros Hf. unfold generateShortUri.
  destruct (setHas uris (Slug.generateSlug title)) eqn:Hb; cbn [negb].
  - destruct (nextCandidate fuel (Slug.generateSlug title) uris 2)
      as [u|] eqn:Hn; [|now apply nextCandidate_fuel in Hn].
    exists u. apply nextCandidate_some in Hn as Hs.
    destruct Hs as (k & Hk & -> & Hfree & Hbelow).
    split; [reflexivity|]. split; [exact Hfree|].
    split; [discriminate|]. intros _. exists k.
    split; [|split; [reflexivity|exact Hbelow]].
    split; [lia|].
    destruct (Nat.le_gt_cases k (2 + List.length uris)) as [Hle|Hgt];
      [exact Hle|].
    exfalso. apply (candidates_not_all_taken (Slug.generateSlug title) uris 2).
    intros j Hj. apply setHas_In, Hbelow. lia.
  - exists (Slug.generateSlug title).
    split; [reflexivity|]. split; [exact Hb|].
    split; [reflexivity|discriminate].
Qed.

(** The theorem at the title [Test] with [test] and [test-2] taken. *)
Lemma generateShortUri_fresh_witness :
  (List.length ["test"; "test-2"] <= 2)%nat
  /\ generateShortUri 2 "Test" (Some ["test"; "test-2"]) = Some "test-3"
  /\ exists u,
       generateShortUri 2 "Test" (Some ["test"; "test-2"]) = Some u
       /\ setHas ["test"; "test-2"] u = false.
Proof.
  split; [cbn; lia|]. split; [vm_compute; reflexivity|].
  destruct (generateShortUri_fresh 2 "Test" ["test"; "test-2"])
    as (u & Hu & Hfree & _); [cbn; lia|].
  exists u. split; [exact Hu|exact Hfree].
Defined.

(** ** Generated Short-URIs and the metadata check *)

Lemma slug_uriChars (s : string) :
  Js.allChars isSlugChar s = true -> Js.allChars isUriChar s = true.
Proof.
  apply allChars_impl. intros c Hc. now destruct (slugChar_plain c Hc).
Qed.

Lemma candidate_uriChars (baseSlug : string) (k : nat) :
  Js.allChars isUriChar baseSlug = true ->
  Js.allChars isUriChar (candidateUri baseSlug k) = true.
Proof.
  intros H. unfold candidateUri. rewrite !allChars_append, H.
  cbn [Js.allChars andb]. change (isUriChar "-") with true. cbn [andb].
  apply (allChars_impl isDigit); [apply digit_uriChar|].
  apply natToString_digits.
Qed.

Lemma reShortUri_chars (s : string) :
  s <> "" -> Js.allChars isUriChar s = true -> reShortUri s = true.
Proof. destruct s; [congruence|]. intros _ H. exact H. Qed.

Lemma generateShortUri_chars (fuel : nat) (title : string)
    (existingUris : option (list string)) (u : string) :
  generateShortUri fuel title existingUris = Some u ->
  Js.allChars isUriChar u = true
  /\ (u = "" -> Slug.generateSlug title = "").
Proof.
  assert (Hslug : Js.allChars isUriChar (Slug.generateSlug title) = true).
  { apply slug_uriChars. apply (slugShape_chars true).
    apply generateSlug_isSlug. }
  unfold generateShortUri. destruct existingUris as [uris|].
  - destruct (negb (setHas uris (Slug.generateSlug title))).
    + intros [= <-]. split; [exact Hslug|auto].
    + intros (k & _ & -> & _)%nextCandidate_some.
      split; [now apply candidate_uriChars|].
      unfold candidateUri. intros H.
      destruct (Slug.generateSlug title); discriminate H.
  - intros [= <-]. split; [exact Hslug|auto].
Qed.

(** X16.  What [generateShortUri] returns for a title with a non-empty
    slug passes [validatePageMetadata] as the Short-URI of a root page;
    an empty result, as a title without letters and digits gives, is
    refused as 'Short-URI cannot be empty'. *)
Theorem generated_uri_passes_validation (fuel : nat) (title : string)
    (existingUris known : option (list string)) (u : string)
    (metadata : PageMetadata) :
  generateShortUri fuel title existingUris = Some u ->
  shortUri metadata = u ->
  parent metadata = "root" ->
  (Slug.generateSlug title <> "" ->
   validatePageMetadata metadata known = None)
  /\ (u = "" ->
      validatePageMetadata metadata known = Some ErrEmptyShortUri).
Proof.
  intros Hg Hu Hp. destruct (generateShortUri_chars _ _ _ _ Hg) as [Hc He].
  unfold validatePageMetadata. rewrite Hu, Hp. split.
  - intros Hne.
    destruct (String.eqb_spec u "") as [Hz|Hn]; [now apply He in Hz|].
    rewrite (reShortUri_chars u Hn Hc). cbn [negb].
    destruct known; reflexivity.
  - intros ->. reflexivity.
Qed.

(** The theorem at the title [Test] and at a title of punctuation. *)
Lemma generated_uri_passes_validation_witness :
  generateShortUri 2 "Test" (Some ["test"; "test-2"]) = Some "test-3"
  /\ validatePageMetadata (metadataWith "test-3" "root") (Some ["test"])
     = None
  /\ generateShortUri 0 "?!" None = Some ""
  /\ validatePageMetadata (metadataWith "" "root") None
     = Some ErrEmptyShortUri.
Proof.
  assert (H1 : generateShortUri 2 "Test" (Some ["test"; "test-2"])
               = Some "test-3") by (vm_compute; reflexivity).
  assert (H2 : generateShortUri 0 "?!" None = Some "")
    by (vm_compute; reflexivity).
  split; [exact H1|]. split.
  - apply (proj1 (generated_uri_passes_validation 2 "Test"
                    (Some ["test"; "test-2"]) (Some ["test"]) "test-3"
                    (metadataWith "test-3" "root") H1 eq_refl eq_refl)).
    vm_compute. discriminate.
  - split; [exact H2|].
    exact (proj2 (generated_uri_passes_validation 0 "?!" None None ""
                    (metadataWith "" "root") H2 eq_refl eq_refl) eq_refl).
Defined.

(** ** robots.txt and the sitemap *)

(** ** Text inside text *)

Lemma includes_prefix (x b : string) : Js.includes (x ++ b) x = true.
Proof.
  destruct x as [|c x]; [destruct b; reflexivity|].
  cbn [append Js.includes].
  change (String c (x ++ b)) with (String c x ++ b).
  now rewrite prefix_append.
Qed.

Lemma includes_append_r (a b x : string) :
  Js.includes b x = true -> Js.includes (a ++ b) x = true.
Proof.
  intros H. induction a as [|c a IH]; [exact H|].
  cbn [append Js.includes]. rewrite IH. apply orb_true_r.
Qed.

Lemma prefix_append_l (x a b : string) :
  String.prefix x a = true -> String.prefix x (a ++ b) = true.
Proof.
  revert a; induction x as [|c x IH]; intros a H.
  - destruct (a ++ b); reflexivity.
  - destruct a as [|d a]; [discriminate H|]. cbn [append String.prefix] in *.
    destruct (ascii_dec c d); [now apply IH|discriminate H].
Qed.

Lemma includes_append_l (a b x : string) :
  Js.includes a x = true -> Js.includes (a ++ b) x = true.
Proof.
  induction a as [|c a IH]; intros H.
  - cbn in H. rewrite orb_false_r in H. destruct x; [|discriminate H].
    destruct b; reflexivity.
  - cbn [Js.includes] in H. apply orb_true_iff in H as [H|H].
    + change (String c a ++ b) with (String c (a ++ b)).
      cbn [Js.includes].
      change (String c (a ++ b)) with (String c a ++ b).
      now rewrite (prefix_append_l x (String c a) b H).
    + change (String c a ++ b) with (String c (a ++ b)).
      cbn [Js.includes]. rewrite (IH H). apply orb_true_r.
Qed.

Lemma includes_middle (a x b : string) : Js.includes (a ++ x ++ b) x = true.
Proof. apply includes_append_r, includes_prefix. Qed.

(** What one element of a joined list holds, the joined text holds. *)
Lemma includes_join (sep : string) (l : list string) (y x : string) :
  In y l -> Js.includes y x = true -> Js.includes (Js.join sep l) x = true.
Proof.
  unfold Js.join. intros Hin Hy. induction l as [|z l IH]; [destruct Hin|].
  destruct l as [|z' l].
  - destruct Hin as [->|[]]. exact Hy.
  - change (String.concat sep (z :: z' :: l))
      with (z ++ sep ++ String.concat sep (z' :: l)).
    destruct Hin as [->|Hin].
    + now apply includes_append_l.
    + now apply includes_append_r, includes_append_r, IH.
Qed.

(** ** [siteUrl.replace(/\/+$/, '')] *)

Lemma takeWhile_all (p : ascii -> bool) (s : string) :
  Js.allChars p s = true ->
  Js.takeWhile p s = s /\ Js.dropWhile p s = "".
Proof.
  induction s as [|c s IH]; [split; reflexivity|]. cbn [Js.allChars].
  intros [Hc Hs]%andb_true_iff. cbn [Js.takeWhile Js.dropWhile].
  rewrite Hc. destruct (IH Hs) as [-> ->]. split; reflexivity.
Qed.

Lemma dropWhile_nil_all (p : ascii -> bool) (s : string) :
  Js.dropWhile p s = "" -> Js.allChars p s = true.
Proof.
  induction s as [|c s IH]; [reflexivity|]. cbn [Js.dropWhile Js.allChars].
  destruct (p c); [exact IH|discriminate].
Qed.

Lemma drop_all (s : string) : Js.drop (String.length s) s = "".
Proof. induction s; [reflexivity|assumption]. Qed.

Lemma slashes_end (s : string) :
  s <> "" -> Js.allChars Seo.isSlash s = true -> Js.endsWith s "/" = true.
Proof.
  induction s as [|c s IH]; [congruence|]. intros _. cbn [Js.allChars].
  intros [Hc Hs]%andb_true_iff. unfold Seo.isSlash in Hc.
  apply Ascii.eqb_eq in Hc. subst c. destruct s as [|d s]; [reflexivity|].
  rewrite endsWith_cons by (try discriminate; reflexivity).
  apply IH; [discriminate|exact Hs].
Qed.

(** The expression matches where nothing but slashes is left. *)
Lemma reTrailingSlashes_match (a : bool) (s : string) :
  Seo.reTrailingSlashes a s
  = if negb (s =? "")%string && Js.allChars Seo.isSlash s
    then Some ("", String.length s) else None.
Proof.
  unfold Seo.reTrailingSlashes. destruct s as [|c s]; [reflexivity|].
  cbn [String.eqb negb andb].
  destruct (Js.allChars Seo.isSlash (String c s)) eqn:Hall.
  - destruct (takeWhile_all _ _ Hall) as [-> ->]. reflexivity.
  - destruct (Js.takeWhile Seo.isSlash (String c s)) eqn:Ht; [reflexivity|].
    destruct (Js.dropWhile Seo.isSlash (String c s)) eqn:Hd; [|reflexivity].
    apply dropWhile_nil_all in Hd. congruence.
Qed.

(** The site URL is its clean form followed by slashes, and the clean
    form does not end with a slash. *)
Lemma cleanUrl_splits (a : bool) (s : string) :
  exists slashes,
    s = Seo.replaceFirst Seo.reTrailingSlashes a s ++ slashes
    /\ Js.allChars Seo.isSlash slashes = true
    /\ Js.endsWith (Seo.replaceFirst Seo.reTrailingSlashes a s) "/" = false.
Proof.
  revert a; induction s as [|c s IH]; intros a.
  - exists "". repeat split.
  - cbn [Seo.replaceFirst]. rewrite reTrailingSlashes_match.
    cbn [String.eqb negb andb].
    destruct (Js.allChars Seo.isSlash (String c s)) eqn:Hall.
    + exists (String c s). rewrite drop_all. repeat split. exact Hall.
    + destruct (IH false) as (t & Hs & Ht & He). exists t.
      split; [cbn [append]; now rewrite <- Hs|]. split; [exact Ht|].
      destruct (Seo.replaceFirst Seo.reTrailingSlashes false s) as [|d r] eqn:Hr.
      * cbn [append] in Hs. subst t. cbn [Js.allChars] in Hall.
        rewrite Ht, andb_true_r in Hall. unfold Seo.isSlash in Hall.
        cbn. now rewrite Hall.
      * rewrite endsWith_cons by (try discriminate; reflexivity). exact He.
Qed.

(** Slashes behind a text that does not end with one are all taken
    off. *)
Lemma cleanUrl_unique (a : bool) (clean slashes : string) :
  Js.endsWith clean "/" = false ->
  Js.allChars Seo.isSlash slashes = true ->
  Seo.replaceFirst Seo.reTrailingSlashes a (clean ++ slashes) = clean.
Proof.
  intros He Hs. revert a; induction clean as [|c clean IH]; intros a.
  - cbn [append]. destruct slashes as [|d t]; [reflexivity|].
    cbn [Seo.replaceFirst]. rewrite reTrailingSlashes_match, Hs.
    cbn [String.eqb negb andb append]. apply drop_all.
  - change (String c clean ++ slashes) with (String c (clean ++ slashes)).
    cbn [Seo.replaceFirst]. rewrite reTrailingSlashes_match.
    cbn [String.eqb negb andb].
    destruct (Js.allChars Seo.isSlash (String c (clean ++ slashes))) eqn:Hall.
    + exfalso.
      change (String c (clean ++ slashes)) with (String c clean ++ slashes)
        in Hall.
      rewrite allChars_append in Hall. apply andb_true_iff in Hall as [Hc _].
      apply slashes_end in Hc; [congruence|discriminate].
    + f_equal. apply IH. destruct clean as [|d r]; [reflexivity|].
      rewrite endsWith_cons in He by (try discriminate; reflexivity).
      exact He.
Qed.

Lemma cleanUrl_trailing_slash (siteUrl : string) :
  Seo.cleanUrl (siteUrl ++ "/") = Seo.cleanUrl siteUrl.
Proof.
  unfold Seo.cleanUrl.
  destruct (cleanUrl_splits true siteUrl) as (t & Hs & Ht & He).
  rewrite Hs at 1. rewrite append_assoc. apply cleanUrl_unique; [exact He|].
  rewrite allChars_append, Ht. reflexivity.
Qed.

(** X18.  [generateRobotsTxt] allows all crawlers and names the sitemap
    at the site URL without its trailing slashes, followed by the base
    path; trailing slashes of the site URL do not change the file. *)
Theorem robots_names_the_sitemap (siteUrl basePath : string) :
  (exists slashes,
      siteUrl = Seo.cleanUrl siteUrl ++ slashes
      /\ Js.allChars Seo.isSlash slashes = true
      /\ Js.endsWith (Seo.cleanUrl siteUrl) "/" = false)
  /\ Seo.generateRobotsTxt siteUrl basePath
     = "User-agent: *" ++ Js.nl ++ "Allow: /" ++ Js.nl ++ Js.nl
       ++ "Sitemap: " ++ Seo.cleanUrl siteUrl ++ basePath ++ "/sitemap.xml"
       ++ Js.nl
  /\ Seo.generateRobotsTxt (siteUrl ++ "/") basePath
     = Seo.generateRobotsTxt siteUrl basePath.
Proof.
  split; [apply cleanUrl_splits|]. split.
  - unfold Seo.generateRobotsTxt, Js.join. cbn [String.concat].
    cbn [append]. now rewrite !append_assoc.
  - unfold Seo.generateRobotsTxt. now rewrite cleanUrl_trailing_slash.
Qed.

(** X19.  [generateSitemap] lists every page whose URL is not below
    [<base>/label/] with its absolute location; a page index of label
    listing pages alone gives the empty sitemap, and trailing slashes
    of the site URL do not change the file. *)
Theorem sitemap_lists_content_pages (pages : list PageIndexEntry)
    (siteUrl basePath : string) :
  (forall page,
      In page pages ->
      Js.startsWith (pi_url page) (basePath ++ "/label/") = false ->
      Js.includes (Seo.generateSitemap pages siteUrl basePath)
        ("<loc>" ++ Seo.cleanUrl siteUrl ++ pi_url page ++ "</loc>") = true)
  /\ ((forall page, In page pages ->
                    Js.startsWith (pi_url page) (basePath ++ "/label/") = true)
      -> Seo.generateSitemap pages siteUrl basePath
         = Seo.generateSitemap [] siteUrl basePath)
  /\ Seo.generateSitemap pages (siteUrl ++ "/") basePath
     = Seo.generateSitemap pages siteUrl basePath.
Proof.
  split; [|split].
  - intros page Hin Hurl. unfold Seo.generateSitemap.
    apply includes_join
      with (y := Js.join Js.nl
                   (List.map (Seo.urlElement (Seo.cleanUrl siteUrl))
                      (List.filter (Seo.isContentPage basePath) pages))).
    + right. right. left. reflexivity.
    + apply includes_join with (y := Seo.urlElement (Seo.cleanUrl siteUrl) page).
      * apply in_map, filter_In. split; [exact Hin|].
        unfold Seo.isContentPage. now rewrite Hurl.
      * unfold Seo.urlElement.
        replace ("  <url>" ++ Js.nl ++ "    <loc>" ++ Seo.cleanUrl siteUrl
                 ++ pi_url page ++ "</loc>" ++ _ ++ Js.nl ++ "  </url>")
          with (("  <url>" ++ Js.nl ++ "    ")
                ++ ("<loc>" ++ Seo.cleanUrl siteUrl ++ pi_url page ++ "</loc>")
                ++ (match pi_date page with
                    | Some (String c d) =>
                        Js.nl ++ "    <lastmod>" ++ String c d ++ "</lastmod>"
                    | _ => ""
                    end ++ Js.nl ++ "  </url>"))
          by (cbn [append]; now rewrite !append_assoc).
        apply includes_middle.
  - intros Hall. unfold Seo.generateSitemap.
    replace (List.filter (Seo.isContentPage basePath) pages)
      with (@nil PageIndexEntry); [reflexivity|].
    symmetry. induction pages as [|p pages IH]; [reflexivity|].
    cbn [List.filter]. unfold Seo.isContentPage at 1.
    rewrite (Hall p (or_introl eq_refl)). cbn [negb].
    apply IH. intros q Hq. apply Hall. now right.
  - unfold Seo.generateSitemap. now rewrite cleanUrl_trailing_slash.
Qed.

(** The theorem at two pages and one label listing page. *)
Lemma sitemap_lists_content_pages_witness :
  In aboutEntry [aboutEntry; labelEntry; blogEntry]
  /\ Js.startsWith (pi_url aboutEntry) ("" ++ "/label/") = false
  /\ Js.includes
       (Seo.generateSitemap [aboutEntry; labelEntry; blogEntry]
          "https://example.com/" "")
       "<loc>https://example.com/about</loc>" = true
  /\ Seo.generateSitemap [labelEntry] "https://example.com" ""
     = Seo.generateSitemap [] "https://example.com" "".
Proof.
  split; [left; reflexivity|]. split; [reflexivity|]. split.
  - exact (proj1 (sitemap_lists_content_pages
                    [aboutEntry; labelEntry; blogEntry]
                    "https://example.com/" "")
             aboutEntry (or_introl eq_refl) eq_refl).
  - apply (proj1 (proj2 (sitemap_lists_content_pages [labelEntry]
                           "https://example.com" ""))).
    intros page [<-|[]]. reflexivity.
Defined.

(** ** Output paths and URLs *)

(** ** Suffixes and slashes *)

Lemma endsWith_append (a suf : string) : Js.endsWith (a ++ suf) suf = true.
Proof.
  induction a as [|c a IH]; cbn [append].
  - destruct suf; cbn [Js.endsWith]; now rewrite String.eqb_refl.
  - cbn [Js.endsWith]. rewrite IH. apply orb_true_r.
Qed.

Lemma endsWith_split (s suf : string) :
  Js.endsWith s suf = true -> exists pre, s = pre ++ suf.
Proof.
  induction s as [|c s IH]; cbn [Js.endsWith].
  - rewrite orb_false_r. intros H%String.eqb_eq. exists "". now subst.
  - intros [H|H]%orb_true_iff.
    + apply String.eqb_eq in H. exists "". now subst.
    + destruct (IH H) as (pre & ->). now exists (String c pre).
Qed.

Lemma take_before_suffix (pre suf : string) :
  Js.take (String.length (pre ++ suf) - String.length suf) (pre ++ suf) = pre.
Proof. rewrite length_sub_append. apply take_append. Qed.


Lemma take_before_index (dir : string) :
  Js.take (String.length (dir ++ "/index") - 6) (dir ++ "/index") = dir.
Proof. exact (take_before_suffix dir "/index"). Qed.

Lemma stripMd_md (base : string) : Js.stripMd (base ++ ".md") = base.
Proof.
  unfold Js.stripMd. rewrite endsWith_append.
  apply (take_before_suffix base ".md").
Qed.

Lemma mdToHtml_md (base : string) :
  mdToHtml (base ++ ".md") = base ++ ".html".
Proof.
  unfold mdToHtml. rewrite endsWith_append. f_equal.
  apply (take_before_suffix base ".md").
Qed.

Lemma slashify_mapChars (a : bool) (s : string) :
  Js.scanFrom Js.reBackslash a 0 s = Js.mapChars slashChar s.
Proof.
  revert a; induction s as [|c s IH]; intros a; [reflexivity|].
  cbn [Js.scanFrom Js.mapChars]. unfold Js.reBackslash at 1, slashChar at 1.
  destruct (c =? Js.backslash)%char; cbn [Nat.pred append]; now rewrite IH.
Qed.

Lemma slashify_append (a b : string) :
  Js.slashify (a ++ b) = Js.slashify a ++ Js.slashify b.
Proof.
  unfold Js.slashify, Js.replaceAll. rewrite !slashify_mapChars.
  induction a as [|c a IH]; [reflexivity|].
  cbn [append Js.mapChars]. now rewrite IH.
Qed.

Lemma slashify_nil_iff (s : string) : Js.slashify s = "" <-> s = "".
Proof.
  unfold Js.slashify, Js.replaceAll. rewrite slashify_mapChars.
  destruct s; cbn; split; intros H; congruence.
Qed.

Lemma slashify_no_slash_first (s : string) :
  Js.startsWith s "/" = false ->
  Js.startsWith s (String Js.backslash "") = false ->
  Js.startsWith (Js.slashify s) "/" = false.
Proof.
  unfold Js.slashify, Js.replaceAll, Js.startsWith.
  rewrite slashify_mapChars. destruct s as [|c s]; [reflexivity|].
  cbn [Js.mapChars String.prefix]. unfold slashChar.
  destruct (Ascii.eqb_spec c Js.backslash) as [->|Hb].
  - intros _ H. exfalso. revert H.
    destruct (ascii_dec Js.backslash Js.backslash); [|congruence].
    destruct s; discriminate.
  - intros H _. destruct (ascii_dec "/" c); [|reflexivity].
    destruct s; exact H.
Qed.

Lemma startsWith_append_nonempty (a b p : string) :
  a <> "" -> String.length p = 1%nat ->
  Js.startsWith (a ++ b) p = Js.startsWith a p.
Proof.
  unfold Js.startsWith. intros Ha Hp.
  destruct a as [|c a]; [congruence|].
  destruct p as [|d [|e p]]; try discriminate Hp.
  cbn [append String.prefix]. destruct (ascii_dec d c); [|reflexivity].
  destruct (a ++ b); destruct a; reflexivity.
Qed.



(** ** Output paths and URL paths *)




(** The URL path of a page with a relative stem. *)
Lemma getUrlPath_base (E : Externals) (base : string) :
  relativeStem base ->
  getUrlPath E (base ++ ".md")
  = if (Js.slashify base =? "index")%string then envBasePath E ++ "/"
    else if Js.endsWith (Js.slashify base) "/index"
    then envBasePath E ++ "/"
         ++ Js.take (String.length (Js.slashify base) - 6) (Js.slashify base)
    else envBasePath E ++ "/" ++ Js.slashify base.
Proof.
  intros (Hne & Hs & Hb). unfold getUrlPath. rewrite stripMd_md.
  destruct (Js.slashify base =? "index")%string; [reflexivity|].
  assert (Hf := slashify_no_slash_first base Hs Hb).
  destruct (Js.endsWith (Js.slashify base) "/index") eqn:Hi.
  - apply endsWith_split in Hi as (dir & Hd). rewrite Hd in *.
    cbn [String.length Js.slice0neg].
    rewrite (take_before_index dir).
    destruct dir as [|c dir]; [discriminate Hf|].
    rewrite startsWith_append_nonempty in Hf
      by (try discriminate; reflexivity).
    now rewrite Hf.
  - now rewrite Hf.
Qed.



(** X4.  For a relative path [<base>.md] whose stem [<base>] is not
    empty and begins with neither a slash nor a backslash,
    [isActivePath] marks the navigation item of the page active on that
    page: with the href [getUrlPath] gives the file, the test holds for
    the file itself. *)
Theorem own_navigation_item_is_active (E : Externals) (base : string) :
  relativeStem base ->
  isActivePath E (getUrlPath E (base ++ ".md")) (base ++ ".md") = true.
Proof.
  intros Hrel. rewrite (getUrlPath_base E base Hrel).
  destruct Hrel as (Hne & Hs & Hb).
  assert (Hurl : "/" ++ Js.slashify (mdToHtml (base ++ ".md"))
                 = "/" ++ Js.slashify base ++ ".html").
  { rewrite mdToHtml_md, slashify_append. reflexivity. }
  destruct (String.eqb_spec (Js.slashify base) "index") as [Hi|Hi].
  - rewrite isActivePath_clean by discriminate. cbv zeta.
    rewrite Hurl, Hi. reflexivity.
  - destruct (Js.endsWith (Js.slashify base) "/index") eqn:Hd.
    + apply endsWith_split in Hd as (dir & Hdir). rewrite Hdir in *.
      rewrite (take_before_index dir).
      rewrite isActivePath_clean by discriminate. cbv zeta. rewrite Hurl.
      assert (Hdne : dir <> "").
      { intros ->. cbn [append] in Hdir.
        assert (Hf := slashify_no_slash_first base Hs Hb).
        rewrite Hdir in Hf. discriminate Hf. }
      replace ("/" ++ dir =? "/")%string with false
        by (destruct dir; [congruence|reflexivity]).
      replace ("/" ++ (dir ++ "/index") ++ ".html")
        with (("/" ++ dir) ++ "/" ++ "index.html")
        by (cbn [append]; now rewrite !append_assoc).
      unfold Js.startsWith. rewrite prefix_append_both.
      change (String.prefix "/" ("/" ++ "index.html")) with true.
      reflexivity.
    + rewrite isActivePath_clean by discriminate. cbv zeta. rewrite Hurl.
      assert (Hbne : Js.slashify base <> "")
        by (intros H; apply Hne; exact (proj1 (slashify_nil_iff base) H)).
      replace ("/" ++ Js.slashify base =? "/")%string with false
        by (destruct (Js.slashify base); [congruence|reflexivity]).
      replace ("/" ++ Js.slashify base ++ ".html")
        with (("/" ++ Js.slashify base) ++ ".html") by reflexivity.
      rewrite String.eqb_refl. apply orb_true_r.
Qed.

(** The theorem at the index of the blog folder. *)
Lemma own_navigation_item_is_active_witness :
  relativeStem "blog/index"
  /\ isActivePath Demo.env (getUrlPath Demo.env ("blog/index" ++ ".md"))
       ("blog/index" ++ ".md") = true.
Proof.
  assert (H : relativeStem "blog/index")
    by (split; [discriminate|split; reflexivity]).
  split; [exact H|].
  exact (own_navigation_item_is_active Demo.env "blog/index" H).
Defined.

(** ** Labels, children and the scanner *)

(** ** The site-wide label set *)

Lemma setAdd_In (x y : string) (s : list string) :
  In x (setAdd y s) <-> x = y \/ In x s.
Proof.
  unfold setAdd. destruct (existsb (String.eqb y) s) eqn:Hy.
  - apply existsb_exists in Hy as (z & Hz & He). apply String.eqb_eq in He.
    subst z. split; [now right|]. intros [->|H]; assumption.
  - rewrite in_app_iff. cbn. intuition congruence.
Qed.

Lemma setAdd_NoDup (y : string) (s : list string) :
  NoDup s -> NoDup (setAdd y s).
Proof.
  intros Hs. unfold setAdd. destruct (existsb (String.eqb y) s) eqn:Hy;
    [exact Hs|].
  apply NoDup_app; [exact Hs|repeat constructor; intros []|].
  intros x Hx [->|[]].
  assert (H : existsb (String.eqb x) s = true).
  { apply existsb_exists. exists x. split; [exact Hx|apply String.eqb_refl]. }
  congruence.
Qed.

Lemma addAll_In (x : string) (ls s : list string) :
  In x (fold_left (fun s l => setAdd l s) ls s) <-> In x ls \/ In x s.
Proof.
  revert s; induction ls as [|l ls IH]; intros s; cbn [fold_left].
  - cbn. tauto.
  - rewrite IH, setAdd_In. cbn. intuition congruence.
Qed.

Lemma addAll_NoDup (ls s : list string) :
  NoDup s -> NoDup (fold_left (fun s l => setAdd l s) ls s).
Proof.
  revert s; induction ls as [|l ls IH]; intros s H; [exact H|].
  cbn [fold_left]. apply IH. now apply setAdd_NoDup.
Qed.

Lemma collectLabels_from (E : Externals) (files : list ContentFile)
    (s : list string) :
  NoDup s ->
  let result :=
    fold_left
      (fun labelSet file =>
         match metadataOf E file with
         | Err _ => labelSet
         | Ok metadata =>
             fold_left (fun s l => setAdd l s) (labels metadata) labelSet
         end) files s in
  NoDup result
  /\ forall label,
       In label result
       <-> In label s
           \/ exists file metadata,
                In file files /\ metadataOf E file = Ok metadata
                /\ In label (labels metadata).
Proof.
  revert s; induction files as [|f files IH]; intros s Hs; cbn zeta.
  - split; [exact Hs|]. intros label. cbn. split; [tauto|].
    intros [H|(f & m & [] & _)]. exact H.
  - cbn [fold_left]. destruct (metadataOf E f) as [m|e] eqn:Hm.
    + destruct (IH _ (addAll_NoDup (labels m) s Hs)) as [Hnd Hin].
      split; [exact Hnd|]. intros label. rewrite Hin, addAll_In. split.
      * intros [[H|H]|(g & mg & Hg & Hmg & Hl)].
        -- right. exists f, m. split; [now left|]. now split.
        -- now left.
        -- right. exists g, mg. split; [now right|]. now split.
      * intros [H|(g & mg & [<-|Hg] & Hmg & Hl)].
        -- left. now right.
        -- left. left. congruence.
        -- right. exists g, mg. now repeat split.
    + destruct (IH s Hs) as [Hnd Hin]. split; [exact Hnd|].
      intros label. rewrite Hin. split.
      * intros [H|(g & mg & Hg & Hmg & Hl)]; [now left|].
        right. exists g, mg. split; [now right|]. now split.
      * intros [H|(g & mg & [<-|Hg] & Hmg & Hl)]; [now left|congruence|].
        right. exists g, mg. now repeat split.
Qed.

(** X5.  [collectSiteLabels] returns every label once: the result has
    no repetition and holds exactly the labels of the files whose
    metadata parses. *)
Theorem site_labels_are_distinct (E : Externals)
    (files : list ContentFile) :
  NoDup (collectSiteLabels E files)
  /\ forall label,
       In label (collectSiteLabels E files)
       <-> exists file metadata,
             In file files /\ metadataOf E file = Ok metadata
             /\ In label (labels metadata).
Proof.
  destruct (collectLabels_from E files [] (NoDup_nil _)) as [Hnd Hin].
  split; [exact Hnd|]. intros label. unfold collectSiteLabels.
  rewrite Hin. cbn. tauto.
Qed.

(** ** The children map *)

Lemma collectChildren_from (E : Externals) (files : list ContentFile)
    (m : list (string * list ChildPageData)) :
  wellKeyed m ->
  let result :=
    fold_left
      (fun childrenMap file =>
         match metadataOf E file with
         | Err _ => childrenMap
         | Ok metadata =>
             let parent :=
               match parent metadata with
               | EmptyString => "root"
               | p => p
               end in
             mapPush parent (childOf E file metadata) childrenMap
         end) files m in
  wellKeyed result
  /\ forall key,
       getList key result = (getList key m ++ childrenOf E key files)%list.
Proof.
  revert m; induction files as [|f files IH]; intros m Hm; cbn zeta.
  - split; [exact Hm|]. intros key. cbn. now rewrite List.app_nil_r.
  - cbn [fold_left]. unfold childrenOf. cbn [List.flat_map].
    destruct (metadataOf E f) as [md|e] eqn:Hmd.
    + fold (parentKey md).
      destruct (IH _ (mapPush_wellKeyed (parentKey md) (childOf E f md) m Hm))
        as [Hw Hg].
      split; [exact Hw|]. intros key. rewrite Hg, getList_mapPush.
      unfold childrenOf.
      destruct (key =? parentKey md)%string; cbn [List.app].
      * now rewrite <- List.app_assoc.
      * reflexivity.
    + destruct (IH m Hm) as [Hw Hg]. split; [exact Hw|]. exact Hg.
Qed.

Lemma collectChildrenMap_getList (E : Externals) (files : list ContentFile)
    (key : string) :
  getList key (collectChildrenMap E files) = childrenOf E key files.
Proof.
  destruct (collectChildren_from E files []) as [_ Hg];
    [split; constructor|].
  unfold collectChildrenMap. now rewrite Hg.
Qed.

(** X6.  [collectChildrenMap] files every page whose metadata parses
    under its parent ([root] for an empty one), in scan order and under
    distinct keys; the [:::children] step of [build] hands
    [processChildrenDirectives] the pages whose parent is the Short-URI
    of the document. *)
Theorem children_are_grouped_by_parent (E : Externals)
    (files : list ContentFile) :
  NoDup (List.map fst (collectChildrenMap E files))
  /\ (forall key,
         getList key (collectChildrenMap E files) = childrenOf E key files)
  /\ (forall content data body uri,
         Js.includes content ":::children" = true ->
         parseFrontmatter E content = Some (data, body) ->
         fm_ShortURI data = JStr uri -> uri <> "" ->
         resolveChildren E (collectChildrenMap E files) content
         = match processChildrenDirectives E content
                   (childrenOf E uri files) with
           | Some expanded => expanded
           | None => content
           end).
Proof.
  destruct (collectChildren_from E files []) as [[Hnd _] Hg];
    [split; constructor|].
  split; [exact Hnd|]. split; [apply collectChildrenMap_getList|].
  intros content data body uri Hi Hp Hu Hne.
  unfold resolveChildren. rewrite Hi, Hp, Hu. cbn [truthy].
  apply String.eqb_neq in Hne. rewrite Hne. cbn [negb].
  fold (getList uri (collectChildrenMap E files)).
  now rewrite collectChildrenMap_getList.
Qed.

(** The theorem at a section page with two posts below it. *)
Lemma children_are_grouped_by_parent_witness :
  Js.includes sectionDoc ":::children" = true
  /\ parseFrontmatter sectionEnv sectionDoc
     = Some (Demo.header "blog" (JStr "root") JUndefined JUndefined
               JUndefined, ":::children")
  /\ List.map ch_shortUri
       (childrenOf sectionEnv "blog" [Demo.post; sectionFile; Demo.note])
     = ["post"; "note"]
  /\ resolveChildren sectionEnv
       (collectChildrenMap sectionEnv [Demo.post; sectionFile; Demo.note])
       sectionDoc
     = "post,note".
Proof.
  split; [vm_compute; reflexivity|]. split; [vm_compute; reflexivity|].
  split; [vm_compute; reflexivity|].
  rewrite (proj2 (proj2 (children_are_grouped_by_parent sectionEnv
                           [Demo.post; sectionFile; Demo.note]))
             sectionDoc
             (Demo.header "blog" (JStr "root") JUndefined JUndefined
                JUndefined)
             ":::children" "blog");
    try (vm_compute; reflexivity).
  discriminate.
Defined.

(** ** A build that is rejected *)

Lemma renderAll_stops (E : Externals) (config : BuildConfig)
    (nav : list NavItem) (cm : list (string * list ChildPageData))
    (sl : list string) (files : list ContentFile) (e : BuildError) :
  snd (renderAll E config nav cm sl files) = Some e ->
  exists pre file post,
    files = (pre ++ file :: post)%list
    /\ e = ErrCompile
    /\ compileWithFrontmatter E
         (resolveChildren E cm (readFileSync E (cf_path file))) = None
    /\ (forall f, In f pre ->
                  compileWithFrontmatter E
                    (resolveChildren E cm (readFileSync E (cf_path f)))
                  <> None)
    /\ List.map fst (fst (renderAll E config nav cm sl files))
       = List.map (pagePath E config) pre.
Proof.
  induction files as [|f files IH]; [discriminate|].
  cbn [renderAll].
  destruct (compileWithFrontmatter E
              (resolveChildren E cm (readFileSync E (cf_path f))))
    as [[html data]|] eqn:Hp.
  - rewrite (renderFile_compiled E config _ _ _ _ _ _ Hp).
    destruct (renderAll E config nav cm sl files) as [ws r].
    cbn [fst snd] in *. intros Hr.
    destruct (IH Hr) as (pre & file & post & -> & He & Hf & Hpre & Hw).
    exists (f :: pre), file, post. split; [reflexivity|].
    split; [exact He|]. split; [exact Hf|]. split.
    + intros g [<-|Hg]; [congruence|now apply Hpre].
    + cbn [List.map fst]. now rewrite Hw.
  - rewrite (renderFile_thrown E config _ _ _ _ Hp). cbn [fst snd].
    intros [= <-]. exists [], f, files. repeat split; try assumption.
    intros g [].
Qed.

(** X7.  Where the file reads and writes succeed and the page
    components, [generatePageIndex] and [JSON.stringify] return, [build]
    is rejected in one of two places.  Either the sort of
    [generateNavigation] throws: then nothing has been written.  Or the
    markdown compiler throws at one document: then the pages of the
    documents before it have been written and nothing else, no later
    page, no page index and no label page. *)
Theorem rejected_build_stops_writing (E : Externals) (config : BuildConfig)
    (files : list ContentFile) (e : BuildError) :
  outcome (build E config files) = Aborted e ->
  (generateNavigation E files = Err e
   /\ writes (build E config files) = [])
  \/ (exists navigation pre file post,
         generateNavigation E files = Ok navigation
         /\ files = (pre ++ file :: post)%list
         /\ e = ErrCompile
         /\ compileWithFrontmatter E (pageSource E files file) = None
         /\ (forall f, In f pre ->
                       compileWithFrontmatter E (pageSource E files f)
                       <> None)
         /\ List.map fst (writes (build E config files))
            = List.map
                (fun f => pathJoin E [outputDir config;
                                      getOutputPath (relativePath f)]) pre).
Proof.
  unfold build, pageSource.
  destruct (generateNavigation E files) as [nav|err];
    [|cbn [outcome writes]; intros [= ->]; left; split; reflexivity].
  destruct (renderAll E config nav
              (collectChildrenMap E files) (collectSiteLabels E files) files)
    as [ws [err|]] eqn:Hr; cbn [outcome writes]; [|discriminate].
  intros [= ->]. right.
  assert (Hs : snd (renderAll E config nav (collectChildrenMap E files)
                      (collectSiteLabels E files) files) = Some e)
    by now rewrite Hr.
  destruct (renderAll_stops _ _ _ _ _ _ _ Hs)
    as (pre & file & post & Hfiles & He & Hf & Hpre & Hw).
  rewrite Hr in Hw. cbn [fst] in Hw.
  exists nav, pre, file, post. now repeat split.
Qed.

(** The theorem at a site with a document the compiler throws on, and
    at a site whose navigation cannot be sorted. *)
Lemma rejected_build_stops_writing_witness :
  outcome (build Demo.env Demo.config Demo.crashSite) = Aborted ErrCompile
  /\ List.map fst (writes (build Demo.env Demo.config Demo.crashSite))
     = ["dist/index.html"]
  /\ outcome (build Demo.env Demo.config [Demo.year1; Demo.year2])
     = Aborted ErrTypeError
  /\ (generateNavigation Demo.env Demo.crashSite = Err ErrCompile
      /\ writes (build Demo.env Demo.config Demo.crashSite) = []
      \/ exists navigation pre file post,
           generateNavigation Demo.env Demo.crashSite = Ok navigation
           /\ Demo.crashSite = (pre ++ file :: post)%list
           /\ compileWithFrontmatter Demo.env
                (pageSource Demo.env Demo.crashSite file) = None
           /\ List.map fst
                (writes (build Demo.env Demo.config Demo.crashSite))
              = List.map
                  (fun f => pathJoin Demo.env
                              [outputDir Demo.config;
                               getOutputPath (relativePath f)]) pre).
Proof.
  assert (H : outcome (build Demo.env Demo.config Demo.crashSite)
              = Aborted ErrCompile) by (vm_compute; reflexivity).
  split; [exact H|]. split; [vm_compute; reflexivity|].
  split; [vm_compute; reflexivity|].
  destruct (rejected_build_stops_writing Demo.env Demo.config
              Demo.crashSite ErrCompile H)
    as [[Hn Hw]|(nav & pre & file & post & Hn & Hfiles & _ & Hf & _ & Hw)].
  - left. split; [exact Hn|exact Hw].
  - right. exists nav, pre, file, post.
    split; [exact Hn|]. split; [exact Hfiles|]. split; [exact Hf|exact Hw].
Defined.

(** ** Scanning the content directory *)

(** Induction over a directory tree. *)
Lemma Dirent_tree_ind (P : Dirent -> Prop) :
  (forall name, P (DFile name)) ->
  (forall name entries, Forall P entries -> P (DDir name entries)) ->
  (forall name, P (DOther name)) ->
  forall entry, P entry.
Proof.
  intros Hfile Hdir Hother. fix IH 1. intros [name|name entries|name].
  - apply Hfile.
  - apply Hdir. induction entries as [|e entries IHe]; constructor.
    + apply IH.
    + exact IHe.
  - apply Hother.
Qed.

Lemma map_flat_map {A B C} (f : B -> C) (g : A -> list B) (l : list A) :
  List.map f (List.flat_map g l) = List.flat_map (fun a => List.map f (g a)) l.
Proof.
  induction l as [|a l IH]; [reflexivity|].
  cbn [List.flat_map]. now rewrite List.map_app, IH.
Qed.

Lemma flat_map_ext_Forall {A B} (f g : A -> list B) (l : list A) :
  Forall (fun a => f a = g a) l -> List.flat_map f l = List.flat_map g l.
Proof.
  induction 1 as [|a l Ha Hl IH]; [reflexivity|].
  cbn [List.flat_map]. now rewrite Ha, IH.
Qed.

Lemma Forall_flat_map {A B} (P : B -> Prop) (f : A -> list B) (l : list A) :
  Forall (fun a => Forall P (f a)) l -> Forall P (List.flat_map f l).
Proof.
  induction 1 as [|a l Ha Hl IH]; [constructor|].
  cbn [List.flat_map]. apply Forall_app. now split.
Qed.

Section ScanFacts.

Variable E : Externals.
Variable pathRelative : string -> string -> string.

Lemma scanEntry_names (baseDir : string) (entry : Dirent) :
  forall dir,
    List.map cf_name (scanEntry E pathRelative dir baseDir entry)
    = markdownNames entry.
Proof.
  induction entry as [name|name entries IH|name] using Dirent_tree_ind;
    intros dir; cbn [scanEntry markdownNames].
  - destruct (Js.endsWith name ".md"); reflexivity.
  - rewrite map_flat_map. apply flat_map_ext_Forall.
    eapply Forall_impl; [|exact IH]. intros e He. apply He.
  - reflexivity.
Qed.

Lemma scanEntry_files (baseDir : string) (entry : Dirent) :
  forall dir,
    Forall (fun file =>
              Js.endsWith (cf_name file) ".md" = true
              /\ relativePath file = pathRelative baseDir (cf_path file))
      (scanEntry E pathRelative dir baseDir entry).
Proof.
  induction entry as [name|name entries IH|name] using Dirent_tree_ind;
    intros dir; cbn [scanEntry].
  - destruct (Js.endsWith name ".md") eqn:Hn; repeat constructor.
    exact Hn.
  - apply Forall_flat_map. eapply Forall_impl; [|exact IH].
    intros e He. apply He.
  - constructor.
Qed.

End ScanFacts.

(** X9.  [scanContent] returns nothing for a directory that does not
    exist.  Otherwise it returns the regular files whose names end with
    [.md], at any depth, depth first in directory order, each with its
    path relative to the base directory; other files, and entries that
    are neither files nor directories, are left out. *)
Theorem scanContent_finds_markdown (E : Externals)
    (pathRelative : string -> string -> string)
    (dir baseDir : string) :
  scanContent E pathRelative None dir baseDir = []
  /\ forall entries,
       List.map cf_name (scanContent E pathRelative (Some entries) dir baseDir)
       = List.flat_map markdownNames entries
       /\ Forall (fun file =>
                    Js.endsWith (cf_name file) ".md" = true
                    /\ relativePath file
                       = pathRelative baseDir (cf_path file))
            (scanContent E pathRelative (Some entries) dir baseDir).
Proof.
  split; [reflexivity|]. intros entries. cbn [scanContent]. split.
  - rewrite map_flat_map. apply flat_map_ext_Forall.
    apply Forall_forall. intros e _. apply scanEntry_names.
  - apply Forall_flat_map. apply Forall_forall. intros e _.
    apply scanEntry_files.
Qed.

(** ** Placeholders and conditionals on unknown tags *)

(** ** Placeholders *)

Lemma stripPrefix_some (p s : string) :
  String.prefix p s = true -> exists r, s = p ++ r.
Proof.
  intros H. destruct (stripPrefix p s) as [r|] eqn:Hs.
  - exists r. now apply stripPrefix_sound.
  - apply stripPrefix_prefix in Hs. congruence.
Qed.

Lemma nameChar_not_space (c : ascii) :
  isNameChar c = true -> Js.isSpace c = false /\ (c =? "}")%char = false.
Proof.
  unfold isNameChar. intros [H1 H2]%andb_true_iff.
  split; now apply negb_true_iff.
Qed.

(** Behind [{{#if] and a run of name characters up to [}}] there is no
    white space: the conditional expression does not match inside a
    placeholder. *)
Lemma matchConditional_in_tag (t post : string) :
  Js.allChars isNameChar t = true ->
  matchConditional (t ++ "}}" ++ post) = None.
Proof.
  intros Ht. unfold matchConditional.
  destruct (stripPrefix "{{#if" (t ++ "}}" ++ post)) as [r|] eqn:Hs;
    [|reflexivity].
  apply stripPrefix_straddle in Hs as Hc.
  destruct Hc as [Hp|(k & Hk & _ & Hx)].
  - apply stripPrefix_some in Hp as (t' & ->).
    rewrite append_assoc, stripPrefix_append in Hs. injection Hs as <-.
    rewrite allChars_append in Ht. apply andb_true_iff in Ht as [_ Ht].
    destruct t' as [|c t']; [reflexivity|].
    apply allChars_head in Ht. apply nameChar_not_space in Ht as [Hc _].
    cbn [append Js.takeWhile]. now rewrite Hc.
  - exfalso. cbn [String.length] in Hk.
    do 5 (destruct k as [|k]; [discriminate Hx|]). lia.
Qed.

Section PlaceholderFacts.

Variable E : Externals.
Variable ctx : TemplateContext.

Lemma rePlaceholder_flagFree : flagFree (rePlaceholder E ctx).
Proof. intros a s. reflexivity. Qed.

(** Step 1 copies a placeholder and goes on behind it. *)
Lemma resolveConditionals_tag (t post : string) :
  Js.allChars isNameChar t = true ->
  resolveConditionals E (t ++ "}}" ++ post) ctx
  = t ++ "}}" ++ resolveConditionals E post ctx.
Proof.
  unfold resolveConditionals, Js.replaceAll. intros Ht.
  rewrite (scanFrom_flagFree _ true (t ++ "}}" ++ post)
             (reConditional_flagFree E ctx)),
    (scanFrom_flagFree _ true post (reConditional_flagFree E ctx)).
  induction t as [|c t IH].
  - cbn [append]. rewrite scanFrom_miss by reflexivity.
    rewrite scanFrom_miss by reflexivity. reflexivity.
  - change (String c t ++ "}}" ++ post) with (String c (t ++ "}}" ++ post)).
    rewrite scanFrom_miss.
    + cbn [append]. f_equal. apply IH.
      cbn [Js.allChars] in Ht. now apply andb_true_iff in Ht as [_ Ht].
    + unfold reConditional.
      change (String c (t ++ "}}" ++ post))
        with (String c t ++ "}}" ++ post).
      now rewrite matchConditional_in_tag.
Qed.

(** Step 2 copies text without braces and goes on behind it. *)
Lemma resolvePlaceholders_text (pre rest : string) :
  Js.allChars isTextChar pre = true ->
  resolvePlaceholders E (pre ++ rest) ctx
  = pre ++ resolvePlaceholders E rest ctx.
Proof.
  unfold resolvePlaceholders, Js.replaceAll. intros H.
  rewrite (scanFrom_flagFree _ true (pre ++ rest) rePlaceholder_flagFree),
    (scanFrom_flagFree _ true rest rePlaceholder_flagFree).
  induction pre as [|c pre IH]; [reflexivity|].
  cbn [Js.allChars] in H. apply andb_true_iff in H as [Hc H].
  unfold isTextChar in Hc. apply negb_true_iff in Hc.
  change (String c pre ++ rest) with (String c (pre ++ rest)).
  rewrite scanFrom_miss.
  - cbn [append]. f_equal. now apply IH.
  - unfold rePlaceholder, matchPlaceholder. cbn [stripPrefix].
    now rewrite Ascii.eqb_sym, Hc.
Qed.

Lemma tagTail_name (name acc rest : string) :
  name <> "" ->
  Js.allChars isNameChar name = true ->
  tagTail acc (name ++ "}}" ++ rest) = Some (acc ++ name, rest).
Proof.
  revert acc; induction name as [|c name IH]; intros acc Hne Hall;
    [congruence|].
  cbn [Js.allChars] in Hall. apply andb_true_iff in Hall as [Hc Hall].
  apply nameChar_not_space in Hc as [Hsp _].
  change (String c name ++ "}}" ++ rest) with (String c (name ++ "}}" ++ rest)).
  cbn [tagTail]. rewrite Hsp.
  destruct name as [|d name].
  - change ("" ++ "}}" ++ rest) with ("}}" ++ rest).
    rewrite (stripPrefix_append "}}" rest). reflexivity.
  - assert (Hd : (d =? "}")%char = false).
    { apply allChars_head in Hall. now apply nameChar_not_space in Hall. }
    change (String d name ++ "}}" ++ rest)
      with (String d (name ++ "}}" ++ rest)).
    cbn [stripPrefix]. rewrite Ascii.eqb_sym, Hd.
    change (String d (name ++ "}}" ++ rest))
      with (String d name ++ "}}" ++ rest).
    rewrite IH by (try discriminate; assumption).
    now rewrite append_assoc.
Qed.

(** Step 2 on a template that opens with a placeholder: the value of
    the tag, and the scan goes on behind the closing braces. *)
Lemma resolvePlaceholders_tag (name rest : string) :
  name <> "" ->
  Js.allChars isNameChar name = true ->
  resolvePlaceholders E ("{{" ++ name ++ "}}" ++ rest) ctx
  = resolveTag E name ctx ++ resolvePlaceholders E rest ctx.
Proof.
  intros Hne Hall. unfold resolvePlaceholders, Js.replaceAll.
  rewrite (scanFrom_flagFree _ true rest rePlaceholder_flagFree).
  apply scanFrom_match with (consumed := "{{" ++ name ++ "}}").
  - discriminate.
  - str_assoc.
  - unfold rePlaceholder, matchPlaceholder.
    change ("{{" ++ name ++ "}}" ++ rest)
      with ("{{" ++ (name ++ "}}" ++ rest)).
    rewrite stripPrefix_append, (tagTail_name name "" rest Hne Hall).
    change ("" ++ name) with name. do 2 f_equal.
    replace ("{{" ++ name ++ "}}" ++ rest)
      with (("{{" ++ name ++ "}}") ++ rest) by str_assoc.
    apply length_sub_append.
Qed.

Lemma resolveTag_unknown (name : string) :
  isBuiltin name = false -> resolveTag E name ctx = "{{" ++ name ++ "}}".
Proof.
  intros H. unfold isBuiltin, builtinTags in H. cbn [existsb] in H.
  repeat (apply orb_false_iff in H as [?H H]).
  unfold resolveTag.
  repeat match goal with
         | Hx : (name =? _)%string = false |- _ => rewrite Hx; clear Hx
         end.
  reflexivity.
Qed.

End PlaceholderFacts.

(** X23.  [processTemplate] puts the value of a placeholder in as it is
    and goes on behind the closing braces: braces, placeholders and
    conditionals inside the value are not expanded again. *)
Theorem placeholder_value_is_inserted_verbatim (E : Externals)
    (ctx : TemplateContext) (pre name post : string) :
  Js.allChars isTextChar pre = true ->
  name <> "" ->
  Js.allChars isNameChar name = true ->
  processTemplate E (pre ++ "{{" ++ name ++ "}}" ++ post) ctx
  = pre ++ resolveTag E name ctx ++ processTemplate E post ctx.
Proof.
  intros Hpre Hne Hall. unfold processTemplate.
  rewrite resolveConditionals_text by assumption.
  replace ("{{" ++ name ++ "}}" ++ post)
    with (("{{" ++ name) ++ "}}" ++ post) by str_assoc.
  rewrite resolveConditionals_tag by exact Hall.
  rewrite resolvePlaceholders_text by assumption.
  replace (("{{" ++ name) ++ "}}" ++ resolveConditionals E post ctx)
    with ("{{" ++ name ++ "}}" ++ resolveConditionals E post ctx)
    by str_assoc.
  now rewrite resolvePlaceholders_tag.
Qed.

(** The theorem at a content that holds tags of its own. *)
Lemma placeholder_value_is_inserted_verbatim_witness :
  Js.allChars isTextChar "<main>" = true
  /\ "content" <> ""
  /\ Js.allChars isNameChar "content" = true
  /\ processTemplate Demo.env ("<main>" ++ "{{" ++ "content" ++ "}}" ++ "</main>")
       echoContext
     = "<main><p>{{title}}{{#if title}}!{{/if}}</p></main>".
Proof.
  assert (Hne : "content" <> "") by discriminate.
  split; [reflexivity|]. split; [exact Hne|]. split; [reflexivity|].
  rewrite (placeholder_value_is_inserted_verbatim Demo.env echoContext
             "<main>" "content" "</main>" eq_refl Hne eq_refl).
  vm_compute. reflexivity.
Defined.

(** X24.  A tag name outside the built-in set is truthy, since it
    resolves to its own non-empty text: the block of a conditional on
    such a name is always kept. *)
Theorem conditional_on_unknown_tag_is_taken (E : Externals)
    (ctx : TemplateContext) (name : string) :
  isBuiltin name = false ->
  isTagTruthy E name ctx = true
  /\ forall block post,
       name <> "" ->
       Js.allChars isNameChar name = true ->
       Js.includes block "{{/if}}" = false ->
       processTemplate E
         ("{{#if " ++ name ++ "}}" ++ block ++ "{{/if}}" ++ post) ctx
       = resolvePlaceholders E (block ++ resolveConditionals E post ctx) ctx.
Proof.
  intros Hb.
  assert (Ht : isTagTruthy E name ctx = true).
  { unfold isTagTruthy. now rewrite (resolveTag_unknown E ctx name Hb). }
  split; [exact Ht|]. intros block post Hne Hall Hblock.
  unfold processTemplate.
  now rewrite resolveConditionals_block, Ht by assumption.
Qed.

(** The theorem at the tag [sidebar]. *)
Lemma conditional_on_unknown_tag_is_taken_witness :
  isBuiltin "sidebar" = false
  /\ isTagTruthy Demo.env "sidebar" Demo.context = true
  /\ processTemplate Demo.env
       ("{{#if " ++ "sidebar" ++ "}}" ++ "<aside>{{title}}</aside>"
        ++ "{{/if}}" ++ "") Demo.context
     = "<aside>Test Page</aside>".
Proof.
  assert (Hne : "sidebar" <> "") by discriminate.
  split; [reflexivity|].
  destruct (conditional_on_unknown_tag_is_taken Demo.env Demo.context
              "sidebar" eq_refl) as [Ht Hp].
  split; [exact Ht|].
  rewrite (Hp "<aside>{{title}}</aside>" "" Hne eq_refl eq_refl).
  vm_compute. reflexivity.
Defined.

(** ** Every conditional block of a template *)

Lemma takeWhile_append (p : ascii -> bool) (a b : string) :
  Js.allChars p a = true ->
  Js.takeWhile p b = "" ->
  Js.takeWhile p (a ++ b) = a /\ Js.dropWhile p (a ++ b) = b.
Proof.
  intros Ha Hb. induction a as [|c a IH].
  - split; [exact Hb|]. destruct b as [|d b]; [reflexivity|].
    cbn [append Js.takeWhile Js.dropWhile] in *.
    destruct (p d); [discriminate Hb|reflexivity].
  - cbn [Js.allChars] in Ha. apply andb_true_iff in Ha as [Hc Ha].
    cbn [append Js.takeWhile Js.dropWhile]. rewrite Hc.
    destruct (IH Ha) as [-> ->]. split; reflexivity.
Qed.

Lemma allChars_takeWhile (p : ascii -> bool) (s : string) :
  Js.allChars p (Js.takeWhile p s) = true.
Proof.
  induction s as [|c s IH]; [reflexivity|]. cbn [Js.takeWhile].
  destruct (p c) eqn:Hc; [|reflexivity]. cbn [Js.allChars].
  now rewrite Hc, IH.
Qed.

(** The closing tag is found wherever the text holds one. *)
Lemma findClose_some (x y : string) :
  findClose (x ++ "{{/if}}" ++ y) <> None.
Proof.
  induction x as [|c x IH].
  - cbn [append]. change ("{{/if}}" ++ y) with ("{{/if}}" ++ y).
    destruct y; cbn; discriminate.
  - change (String c x ++ "{{/if}}" ++ y)
      with (String c (x ++ "{{/if}}" ++ y)).
    cbn [findClose].
    destruct (stripPrefix "{{/if}}" (String c (x ++ "{{/if}}" ++ y)));
      [discriminate|].
    destruct (findClose (x ++ "{{/if}}" ++ y)) as [[b r]|];
      [discriminate|contradiction].
Qed.

(** The block found is the shortest: it holds no closing tag. *)
Lemma findClose_min (s block rest : string) :
  findClose s = Some (block, rest) -> Js.includes block "{{/if}}" = false.
Proof.
  revert block; induction s as [|c s IH]; intros block H.
  - cbn in H. discriminate.
  - cbn [findClose] in H.
    destruct (stripPrefix "{{/if}}" (String c s)) as [r|] eqn:Hs.
    + injection H as <- <-. reflexivity.
    + destruct (findClose s) as [[b r]|] eqn:Hf; [|discriminate].
      injection H as <- <-. cbn [Js.includes]. rewrite (IH b eq_refl).
      rewrite orb_false_r.
      destruct (String.prefix "{{/if}}" (String c b)) eqn:Hp; [|reflexivity].
      apply findClose_sound in Hf. subst s.
      apply stripPrefix_prefix in Hs.
      change (String c (b ++ "{{/if}}" ++ r))
        with (String c b ++ "{{/if}}" ++ r) in Hs.
      now rewrite (prefix_append_l _ _ _ Hp) in Hs.
Qed.

Lemma includes_cons (c : ascii) (s t x : string) :
  Js.includes (String c s ++ t) x
  = String.prefix x (String c s ++ t) || Js.includes (s ++ t) x.
Proof. reflexivity. Qed.

(** Whether [}}] opens a text behind one or more characters does not
    depend on what follows a closing brace at the end. *)
Lemma prefix_braces_name (d : ascii) (name t : string) :
  String.prefix "}}" (String d name ++ "}}" ++ t)
  = String.prefix "}}" (String d name ++ "}").
Proof.
  cbn [append String.prefix].
  destruct (ascii_dec "}" d) as [Heq|Hneq]; [|reflexivity].
  destruct name as [|e name]; cbn [append String.prefix]; [reflexivity|].
  destruct (ascii_dec "}" e) as [Heq'|Hneq]; [|reflexivity].
  now destruct (name ++ "}"), (name ++ String "}" (String "}" t)).
Qed.

Lemma condTail_lazy (name acc t block post : string) :
  conditionName name ->
  findClose t = Some (block, post) ->
  condTail acc (name ++ "}}" ++ t) = Some (acc ++ name, block, post).
Proof.
  intros (Hne & Hall & Hmin) Hf. revert acc Hne Hall Hmin.
  induction name as [|c name IH]; intros acc Hne Hall Hmin; [congruence|].
  cbn [Js.allChars] in Hall. apply andb_true_iff in Hall as [Hc Hall].
  unfold isNonSpace in Hc. apply negb_true_iff in Hc.
  change (String c name ++ "}}" ++ t) with (String c (name ++ "}}" ++ t)).
  cbn [condTail]. rewrite Hc.
  destruct name as [|d name].
  - cbn [append stripPrefix]. cbn. rewrite Hf. reflexivity.
  - change (Js.drop 1 (String c (String d name) ++ "}"))
      with (String d name ++ "}") in Hmin.
    rewrite includes_cons in Hmin. apply orb_false_iff in Hmin as [Hp Hi].
    rewrite <- (prefix_braces_name d name t) in Hp.
    apply stripPrefix_prefix in Hp. rewrite Hp.
    rewrite IH; [now rewrite append_assoc|discriminate|exact Hall|exact Hi].
Qed.

Lemma condTail_spec (s acc name block rest : string) :
  condTail acc s = Some (name, block, rest) ->
  exists n, name = acc ++ n
            /\ s = n ++ "}}" ++ block ++ "{{/if}}" ++ rest
            /\ conditionName n
            /\ Js.includes block "{{/if}}" = false.
Proof.
  revert acc; induction s as [|c s IH]; intros acc H; [discriminate|].
  cbn [condTail] in H. destruct (Js.isSpace c) eqn:Hc; [discriminate|].
  assert (Hext : forall n,
             s = n ++ "}}" ++ block ++ "{{/if}}" ++ rest ->
             conditionName n ->
             String.prefix "}}" s = false ->
             conditionName (String c n)).
  { intros n Hs (Hne & Hall & Hmin) Hp. split; [discriminate|]. split.
    - cbn [Js.allChars]. unfold isNonSpace at 1. now rewrite Hc, Hall.
    - cbn [append Js.drop]. destruct n as [|d n]; [congruence|].
      change (String d n ++ "}") with (String d (n ++ "}")).
      cbn [Js.includes].
      change (String d (n ++ "}")) with (String d n ++ "}").
      rewrite <- (prefix_braces_name d n (block ++ "{{/if}}" ++ rest)).
      rewrite <- Hs, Hp. exact Hmin. }
  destruct (stripPrefix "}}" s) as [t|] eqn:Hs.
  - destruct (findClose t) as [[b r]|] eqn:Hf.
    + injection H as <- <- <-. exists (String c "").
      split; [reflexivity|]. apply stripPrefix_sound in Hs.
      apply findClose_min in Hf as Hmin. apply findClose_sound in Hf.
      subst. split; [reflexivity|]. split; [|exact Hmin].
      split; [discriminate|]. split; [|reflexivity].
      cbn [Js.allChars]. unfold isNonSpace. now rewrite Hc.
    + exfalso. apply IH in H as (n & _ & Hn & (Hne & _) & _).
      apply stripPrefix_sound in Hs. rewrite Hs in Hn.
      destruct n as [|d n]; [congruence|].
      assert (Ht : t = Js.drop 2 (String d n ++ "}}" ++ block)
                       ++ "{{/if}}" ++ rest).
      { assert (Hd : Js.drop 2 ("}}" ++ t) = t) by reflexivity.
        rewrite Hn in Hd. rewrite <- Hd.
        destruct n as [|e n]; cbn [append Js.drop]; [reflexivity|].
        now rewrite !append_assoc. }
      rewrite Ht in Hf. now apply findClose_some in Hf.
  - apply stripPrefix_prefix in Hs.
    apply IH in H as (n & -> & Hn & Hcn & Hb). exists (String c n).
    split; [now rewrite append_assoc|]. split; [now rewrite Hn|].
    split; [now apply Hext|exact Hb].
Qed.

(** The conditional expression matches at the head of a text exactly
    where a conditional block stands, and takes its name, its inner
    block and the text behind it. *)
Lemma matchConditional_blockAt (s name inner rest : string) :
  matchConditional s = Some (name, inner, rest)
  <-> exists space, blockAt s space name inner rest.
Proof.
  unfold matchConditional. split.
  - intros H.
    destruct (stripPrefix "{{#if" s) as [r|] eqn:Hs; [|discriminate].
    apply stripPrefix_sound in Hs.
    destruct (Js.takeWhile Js.isSpace r) eqn:Hw; [discriminate|].
    apply condTail_spec in H as (n & Hn & Hd & Hcn & Hb).
    cbn [append] in Hn. subst n.
    exists (Js.takeWhile Js.isSpace r). split; [|split; [|split; [|split]]].
    + rewrite Hs at 1. rewrite <- (take_drop_while Js.isSpace r) at 1.
      now rewrite Hd.
    + rewrite Hw. discriminate.
    + apply allChars_takeWhile.
    + exact Hcn.
    + exact Hb.
  - intros (space & -> & Hne & Hsp & Hcn & Hb).
    rewrite stripPrefix_append.
    assert (Hname : Js.takeWhile Js.isSpace
                      (name ++ "}}" ++ inner ++ "{{/if}}" ++ rest) = "").
    { destruct Hcn as (Hn & Hall & _). destruct name as [|c name];
        [congruence|].
      cbn [Js.allChars] in Hall. apply andb_true_iff in Hall as [Hc _].
      unfold isNonSpace in Hc. apply negb_true_iff in Hc.
      cbn [append Js.takeWhile]. now rewrite Hc. }
    destruct (takeWhile_append Js.isSpace space _ Hsp Hname) as [-> ->].
    destruct space as [|c space]; [congruence|].
    exact (condTail_lazy name "" (inner ++ "{{/if}}" ++ rest) inner rest
             Hcn (findClose_append inner rest Hb)).
Qed.

Lemma matchConditional_none (s : string) :
  matchConditional s = None <-> ~ blockStarts s.
Proof.
  split.
  - intros H (space & name & inner & rest & Hb).
    assert (Hm := proj2 (matchConditional_blockAt s name inner rest)
                    (ex_intro _ space Hb)).
    congruence.
  - intros H. destruct (matchConditional s) as [[[name inner] rest]|] eqn:Hm;
      [|reflexivity].
    apply matchConditional_blockAt in Hm as (space & Hb).
    exfalso. apply H. now exists space, name, inner, rest.
Qed.

Section EveryBlock.

Variable E : Externals.
Variable ctx : TemplateContext.

(** Step 1 on a text in which no conditional block begins. *)
Lemma resolveConditionals_none (text : string) :
  (forall before s, text = before ++ s -> ~ blockStarts s) ->
  resolveConditionals E text ctx = text.
Proof.
  unfold resolveConditionals, Js.replaceAll.
  rewrite (scanFrom_flagFree _ true text (reConditional_flagFree E ctx)).
  induction text as [|c text IH]; intros H; [reflexivity|].
  rewrite scanFrom_miss.
  - f_equal. apply IH. intros before s ->.
    apply (H (String c before) s). reflexivity.
  - unfold reConditional.
    now rewrite (proj2 (matchConditional_none (String c text))
                   (H "" (String c text) eq_refl)).
Qed.

(** Step 1 up to the first conditional block and across it. *)
Lemma resolveConditionals_first (before s space name inner rest : string) :
  blockAt s space name inner rest ->
  (forall b1 b2, before = b1 ++ b2 -> b2 <> "" -> ~ blockStarts (b2 ++ s)) ->
  resolveConditionals E (before ++ s) ctx
  = before
    ++ (if (resolveTag E name ctx =? "")%string then "" else inner)
    ++ resolveConditionals E rest ctx.
Proof.
  intros Hb Hfirst. unfold resolveConditionals, Js.replaceAll.
  rewrite (scanFrom_flagFree _ true (before ++ s)
             (reConditional_flagFree E ctx)),
    (scanFrom_flagFree _ true rest (reConditional_flagFree E ctx)).
  induction before as [|c before IH].
  - cbn [append].
    assert (Hm := proj2 (matchConditional_blockAt s name inner rest)
                    (ex_intro _ space Hb)).
    destruct Hb as (Hs & _).
    rewrite (scanFrom_match (reConditional E ctx) false s
               ("{{#if" ++ space ++ name ++ "}}" ++ inner ++ "{{/if}}")
               rest
               (if isTagTruthy E name ctx then inner else "")).
    + rewrite isTagTruthy_nonempty.
      now destruct (resolveTag E name ctx =? "")%string.
    + discriminate.
    + rewrite Hs. now rewrite !append_assoc.
    + unfold reConditional. rewrite Hm. do 2 f_equal.
      rewrite Hs at 1.
      replace ("{{#if" ++ space ++ name ++ "}}" ++ inner ++ "{{/if}}" ++ rest)
        with (("{{#if" ++ space ++ name ++ "}}" ++ inner ++ "{{/if}}")
              ++ rest) by now rewrite !append_assoc.
      apply length_sub_append.
  - change (String c before ++ s) with (String c (before ++ s)).
    rewrite scanFrom_miss.
    + cbn [append]. f_equal. apply IH. intros b1 b2 -> Hne.
      apply (Hfirst (String c b1) b2); [reflexivity|exact Hne].
    + unfold reConditional.
      change (String c (before ++ s)) with (String c before ++ s).
      now rewrite (proj2 (matchConditional_none (String c before ++ s))
                     (Hfirst "" (String c before) eq_refl
                        ltac:(discriminate))).
Qed.

(** Every text has no conditional block at all or a first one. *)
Lemma first_block (text : string) :
  (forall before s, text = before ++ s -> ~ blockStarts s)
  \/ exists before s space name inner rest,
       text = before ++ s
       /\ blockAt s space name inner rest
       /\ (forall b1 b2, before = b1 ++ b2 -> b2 <> "" ->
                         ~ blockStarts (b2 ++ s)).
Proof.
  induction text as [|c text IH].
  - left. intros before s H.
    destruct before; [|discriminate H]. cbn [append] in H. subst s.
    now apply matchConditional_none.
  - destruct (matchConditional (String c text))
      as [[[name inner] rest]|] eqn:Hm.
    + right. apply matchConditional_blockAt in Hm as (space & Hb).
      exists "", (String c text), space, name, inner, rest.
      split; [reflexivity|]. split; [exact Hb|].
      intros b1 b2 H Hne. destruct b1; destruct b2; try discriminate H.
      congruence.
    + apply matchConditional_none in Hm.
      destruct IH as [IH|(before & s & space & name & inner & rest
                          & -> & Hb & Hfirst)].
      * left. intros before s H. destruct before as [|d before].
        -- cbn [append] in H. now subst s.
        -- injection H as _ H. now apply (IH before s).
      * right. exists (String c before), s, space, name, inner, rest.
        split; [reflexivity|]. split; [exact Hb|].
        intros b1 b2 H Hne. destruct b1 as [|d b1].
        -- cbn [append] in H. now subst b2.
        -- injection H as _ H. now apply (Hfirst b1 b2).
Qed.

Lemma blockAt_shorter (s space name inner rest : string) :
  blockAt s space name inner rest ->
  (String.length rest < String.length s)%nat.
Proof.
  intros (-> & _). rewrite !length_append. cbn [String.length]. lia.
Qed.

(** Step 1 is what the specification describes, on every template. *)
Lemma resolveConditionals_resolved (text : string) :
  ConditionalsResolved E ctx text (resolveConditionals E text ctx).
Proof.
  remember (String.length text) as n eqn:Hn. revert text Hn.
  induction n as [n IH] using lt_wf_ind. intros text ->.
  destruct (first_block text)
    as [Hnone|(before & s & space & name & inner & rest & -> & Hb & Hfirst)].
  - rewrite (resolveConditionals_none text Hnone). now constructor.
  - rewrite (resolveConditionals_first before s space name inner rest Hb
               Hfirst).
    apply (FirstBlock E ctx before s space name inner rest); try assumption.
    apply (IH (String.length rest)); [|reflexivity].
    apply blockAt_shorter in Hb. rewrite length_append. lia.
Qed.

Lemma resolved_is_resolveConditionals (text result : string) :
  ConditionalsResolved E ctx text result ->
  result = resolveConditionals E text ctx.
Proof.
  induction 1 as [text Hnone|before s space name inner rest result Hb Hfirst
                  Hrest IH].
  - symmetry. now apply resolveConditionals_none.
  - rewrite (resolveConditionals_first before s space name inner rest Hb
               Hfirst). now rewrite IH.
Qed.

End EveryBlock.

(** C5.  [processTemplate] resolves the conditional blocks first and the
    placeholders afterwards.  Step 1 is what the specification
    describes, on every template: every conditional block
    [{{#if name}}...{{/if}}], taken from left to right, gives its inner
    text when [resolveTag name ctx] is a non-empty string and nothing
    otherwise, and the text outside the blocks stays; the placeholders
    of what is left are resolved in step 2.  With a label footer that
    renders to a non-empty string, [{{#if label-footer}}X{{/if}}]
    renders [X] exactly for a non-empty [siteLabels] and the empty
    string for an empty one, for every context. *)
Theorem conditionals_before_placeholders
    (E : Externals) (ctx : TemplateContext)
    (Hfooter : forall ls, ls <> [] -> renderLabelFooter E ls <> "") :
  (forall template result,
      ConditionalsResolved E ctx template result
      <-> result = resolveConditionals E template ctx)
  /\ (forall template result,
         ConditionalsResolved E ctx template result ->
         processTemplate E template ctx = resolvePlaceholders E result ctx)
  /\ (forall pre name block post,
         Js.allChars isTextChar pre = true ->
         name <> "" ->
         Js.allChars isNameChar name = true ->
         Js.includes block "{{/if}}" = false ->
         processTemplate E
           (pre ++ "{{#if " ++ name ++ "}}" ++ block ++ "{{/if}}" ++ post) ctx
         = resolvePlaceholders E
             (pre
              ++ (if (resolveTag E name ctx =? "")%string then "" else block)
              ++ resolveConditionals E post ctx) ctx)
  /\ (forall X,
         Js.includes X "{{/if}}" = false ->
         processTemplate E ("{{#if label-footer}}" ++ X ++ "{{/if}}") ctx
         = match ctx_siteLabels ctx with
           | [] => ""
           | _ :: _ => resolvePlaceholders E X ctx
           end)
  /\ (forall X,
         Js.includes X "{{" = false ->
         processTemplate E ("{{#if label-footer}}" ++ X ++ "{{/if}}") ctx
         = match ctx_siteLabels ctx with
           | [] => ""
           | _ :: _ => X
           end).
Proof.
  assert (Hgen : forall pre name block post,
      Js.allChars isTextChar pre = true ->
      name <> "" ->
      Js.allChars isNameChar name = true ->
      Js.includes block "{{/if}}" = false ->
      processTemplate E
        (pre ++ "{{#if " ++ name ++ "}}" ++ block ++ "{{/if}}" ++ post) ctx
      = resolvePlaceholders E
          (pre
           ++ (if (resolveTag E name ctx =? "")%string then "" else block)
           ++ resolveConditionals E post ctx) ctx).
  { intros pre name block post Hpre Hne Hall Hb. unfold processTemplate.
    rewrite resolveConditionals_text by assumption.
    rewrite resolveConditionals_block by assumption.
    rewrite isTagTruthy_nonempty.
    now destruct (resolveTag E name ctx =? "")%string. }
  assert (Hfoot : forall X,
      Js.includes X "{{/if}}" = false ->
      processTemplate E ("{{#if label-footer}}" ++ X ++ "{{/if}}") ctx
      = match ctx_siteLabels ctx with
        | [] => ""
        | _ :: _ => resolvePlaceholders E X ctx
        end).
  { intros X HX.
    change ("{{#if label-footer}}" ++ X ++ "{{/if}}")
      with ("" ++ "{{#if " ++ "label-footer" ++ "}}" ++ X ++ "{{/if}}" ++ "").
    rewrite Hgen by (try discriminate; try reflexivity; assumption).
    change (resolveConditionals E "" ctx) with "".
    change (resolveTag E "label-footer" ctx)
      with (match ctx_siteLabels ctx with
            | [] => ""
            | _ :: _ => renderLabelFooter E (ctx_siteLabels ctx)
            end).
    destruct (ctx_siteLabels ctx) as [|l ls]; [reflexivity|].
    destruct (String.eqb_spec (renderLabelFooter E (l :: ls)) "") as [He|_].
    - exfalso. apply (Hfooter (l :: ls)); [discriminate|exact He].
    - cbn [append]. now rewrite append_nil_r. }
  split; [|split; [|split; [exact Hgen|split; [exact Hfoot|]]]].
  - intros template result. split.
    + apply resolved_is_resolveConditionals.
    + intros ->. apply resolveConditionals_resolved.
  - intros template result H.
    apply resolved_is_resolveConditionals in H. subst result. reflexivity.
  - intros X HX. rewrite Hfoot by now apply includes_close_open.
    destruct (ctx_siteLabels ctx); [reflexivity|].
    now apply resolvePlaceholders_plain.
Qed.

(** The theorem at the demo context, on a template with a placeholder
    in front of two conditional blocks: the block on the empty
    navigation goes, the footer block shows for the two labels. *)
Lemma conditionals_before_placeholders_witness :
  (forall ls, ls <> [] -> renderLabelFooter Demo.env ls <> "")
  /\ ConditionalsResolved Demo.env Demo.context
       "<b>{{title}}</b>{{#if navigation}}NAV{{/if}}{{#if label-footer}}X{{/if}}!"
       "<b>{{title}}</b>X!"
  /\ processTemplate Demo.env
       "<b>{{title}}</b>{{#if navigation}}NAV{{/if}}{{#if label-footer}}X{{/if}}!"
       Demo.context
     = "<b>Test Page</b>X!"
  /\ processTemplate Demo.env "{{#if label-footer}}X{{/if}}" Demo.context
     = "X".
Proof.
  assert (H : forall ls, ls <> [] -> renderLabelFooter Demo.env ls <> "")
    by (intros ls _; discriminate).
  destruct (conditionals_before_placeholders Demo.env Demo.context H)
    as (Hiff & Hproc & _ & _ & Hfoot).
  assert (Hr : ConditionalsResolved Demo.env Demo.context
       "<b>{{title}}</b>{{#if navigation}}NAV{{/if}}{{#if label-footer}}X{{/if}}!"
       "<b>{{title}}</b>X!")
    by (apply Hiff; vm_compute; reflexivity).
  split; [exact H|]. split; [exact Hr|]. split.
  - rewrite (Hproc _ _ Hr). vm_compute. reflexivity.
  - exact (Hfoot "X" eq_refl).
Defined.

(** ** The label router, the template registry and components *)

(** ** The label router and the listing pages *)

Lemma existsb_filter_length {A} (f : A -> bool) (l : list A) :
  existsb f l = true -> (1 <= List.length (List.filter f l))%nat.
Proof.
  induction l as [|a l IH]; [discriminate|]. cbn [existsb List.filter].
  destruct (f a); cbn [orb List.length]; [lia|exact IH].
Qed.

Lemma filter_nonempty_existsb {A} (f : A -> bool) (l : list A) :
  List.filter f l <> [] -> existsb f l = true.
Proof.
  induction l as [|a l IH]; [cbn; congruence|]. cbn [existsb List.filter].
  destruct (f a); [reflexivity|exact IH].
Qed.

Lemma carriers_le_pushed (label : string) (pageIndex : list PageIndexEntry) :
  (List.length (carriers label pageIndex)
   <= List.length (pushedUnder label pageIndex))%nat.
Proof.
  unfold carriers, pushedUnder.
  induction pageIndex as [|e idx IH]; [reflexivity|].
  cbn [List.filter List.flat_map]. rewrite List.length_app, List.repeat_length.
  destruct (existsb (String.eqb label) (pi_labels e)) eqn:He.
  - apply existsb_filter_length in He. unfold labelCount in *.
    cbn [List.length]. lia.
  - lia.
Qed.

Lemma pushedUnder_members (label : string) (pageIndex : list PageIndexEntry)
    (p : PageIndexEntry) :
  In p (pushedUnder label pageIndex) <-> In p (carriers label pageIndex).
Proof.
  unfold carriers, pushedUnder.
  induction pageIndex as [|e idx IH]; [reflexivity|].
  cbn [List.filter List.flat_map]. rewrite in_app_iff, IH.
  destruct (existsb (String.eqb label) (pi_labels e)) eqn:He.
  - cbn [In]. split.
    + intros [H|H]; [left; now apply repeat_spec in H|now right].
    + intros [<-|H]; [left|now right].
      apply existsb_filter_length in He. unfold labelCount.
      destruct (List.length (List.filter (String.eqb label) (pi_labels e)));
        [lia|now left].
  - split; [|tauto]. intros [H|H]; [|exact H]. exfalso.
    unfold labelCount in H.
    destruct (List.filter (String.eqb label) (pi_labels e)) eqn:Hf;
      [destruct H|].
    assert (Hne : List.filter (String.eqb label) (pi_labels e) <> [])
      by (rewrite Hf; discriminate).
    apply filter_nonempty_existsb in Hne. congruence.
Qed.

(** X11.  The label router of the browser and the listing pages of the
    build fit: a click on a label no page carries does nothing, a click
    on a label of one page goes to that page, and a click on a label of
    two or more pages goes to [<base>/label/<slug>], for which
    [generateLabelIndexPages] has written a listing page of the pages
    that carry the label. *)
Theorem label_router_reaches_written_pages (E : Externals)
    (config : BuildConfig) (pageIndex : list PageIndexEntry)
    (navigation : list NavItem) (siteLabels : list string)
    (basePath : string) (cache : option (list PageIndexEntry))
    (response : FetchResult) (label : string) :
  fst (getPageIndex cache response) = Some pageIndex ->
  (carriers label pageIndex = [] ->
   fst (handleLabelClick basePath cache response label) = None)
  /\ (forall page,
         carriers label pageIndex = [page] ->
         fst (handleLabelClick basePath cache response label)
         = Some (pi_url page))
  /\ ((2 <= List.length (carriers label pageIndex))%nat ->
      fst (handleLabelClick basePath cache response label)
      = Some (basePath ++ "/label/" ++ Slug.labelSlug label)
      /\ exists pages,
           In (labelPageWrite E config navigation siteLabels label pages)
              (generateLabelIndexPages E config pageIndex navigation
                 siteLabels)
           /\ (forall page,
                  In page pages <-> In page (carriers label pageIndex))
           /\ fst (labelPageWrite E config navigation siteLabels label pages)
              = pathJoin E [outputDir config; "label";
                            generateLabelSlug E label; "index.html"]).
Proof.
  intros Hidx. unfold handleLabelClick.
  destruct (getPageIndex cache response) as [[index|] kept];
    cbn [fst] in Hidx; [|discriminate Hidx].
  injection Hidx as ->. cbn [fst]. fold (carriers label pageIndex).
  split; [intros ->; reflexivity|]. split; [intros page ->; reflexivity|].
  intros Hlen. split.
  - destruct (carriers label pageIndex) as [|p [|q r]];
      cbn [List.length] in Hlen; try lia. reflexivity.
  - exists (pushedUnder label pageIndex). split; [|split].
    + unfold generateLabelIndexPages. apply in_map_iff.
      exists (label, pushedUnder label pageIndex). split; [reflexivity|].
      apply filter_In. cbn [fst snd].
      assert (Hp := carriers_le_pushed label pageIndex). split.
      * apply groupByLabel_spec. split; [|reflexivity].
        destruct (pushedUnder label pageIndex); [cbn in Hp; lia|discriminate].
      * apply negb_true_iff, Nat.ltb_ge. lia.
    + intros page. apply pushedUnder_members.
    + reflexivity.
Qed.

(** The theorem at two posts that share the label [htmx], on the first
    click and on a later one. *)
Lemma label_router_reaches_written_pages_witness :
  fst (getPageIndex None (FetchOk [postEntry; noteEntry]))
  = Some [postEntry; noteEntry]
  /\ (2 <= List.length (carriers "htmx" [postEntry; noteEntry]))%nat
  /\ carriers "css" [postEntry; noteEntry] = [postEntry]
  /\ fst (handleLabelClick "" None (FetchOk [postEntry; noteEntry]) "htmx")
     = Some "/label/htmx"
  /\ fst (handleLabelClick "" (Some [postEntry; noteEntry]) FetchRejected
            "css") = Some "/blog/post"
  /\ List.map fst
       (generateLabelIndexPages Demo.env Demo.config [postEntry; noteEntry]
          [] [])
     = ["dist/label/htmx/index.html"].
Proof.
  assert (H2 : (2 <= List.length (carriers "htmx" [postEntry; noteEntry]))%nat)
    by (cbn; lia).
  destruct (label_router_reaches_written_pages Demo.env Demo.config
              [postEntry; noteEntry] [] [] "" None
              (FetchOk [postEntry; noteEntry]) "htmx" eq_refl)
    as (_ & _ & Hmany).
  destruct (label_router_reaches_written_pages Demo.env Demo.config
              [postEntry; noteEntry] [] [] ""
              (Some [postEntry; noteEntry]) FetchRejected "css" eq_refl)
    as (_ & Hone & _).
  split; [reflexivity|]. split; [exact H2|]. split; [reflexivity|].
  split; [exact (proj1 (Hmany H2))|].
  split; [exact (Hone postEntry eq_refl)|].
  vm_compute. reflexivity.
Defined.

(** X12.  The page index is fetched until it arrives and kept from then
    on: with a filled cache the responses no longer matter and the cache
    stays as it is; a response that is not ok, or a fetch that rejects,
    navigates nowhere and leaves the cache empty. *)
Theorem page_index_is_fetched_once (basePath : string)
    (index : list PageIndexEntry) :
  (forall clicks clicks',
      List.map snd clicks = List.map snd clicks' ->
      clickAll basePath (Some index) clicks
      = clickAll basePath (Some index) clicks')
  /\ (forall response label,
         snd (handleLabelClick basePath (Some index) response label)
         = Some index)
  /\ (forall label,
         snd (handleLabelClick basePath None (FetchOk index) label)
         = Some index)
  /\ (forall label,
         handleLabelClick basePath None FetchNotOk label = (None, None)
         /\ handleLabelClick basePath None FetchRejected label
            = (None, None)).
Proof.
  split; [|split; [|split]].
  - induction clicks as [|[response label] clicks IH];
      intros [|[response' label'] clicks'] H; try discriminate H;
      [reflexivity|].
    cbn [List.map snd] in H. injection H as -> H.
    cbn [clickAll]. unfold handleLabelClick. cbn [getPageIndex].
    now rewrite (IH clicks' H).
  - intros response label. reflexivity.
  - intros label. reflexivity.
  - intros label. split; reflexivity.
Qed.

(** The theorem at three clicks, the first with a failed fetch. *)
Lemma page_index_is_fetched_once_witness :
  List.map snd [(FetchNotOk, "htmx"); (FetchOk [], "css")]
  = List.map snd [(FetchRejected, "htmx"); (FetchRejected, "css")]
  /\ clickAll "" (Some [postEntry; noteEntry])
       [(FetchNotOk, "htmx"); (FetchOk [], "css")]
     = [Some "/label/htmx"; Some "/blog/post"]
  /\ clickAll "" None
       [(FetchNotOk, "htmx"); (FetchOk [postEntry; noteEntry], "htmx");
        (FetchOk [], "css")]
     = [None; Some "/label/htmx"; Some "/blog/post"].
Proof.
  split; [reflexivity|]. split.
  - rewrite (proj1 (page_index_is_fetched_once "" [postEntry; noteEntry])
               [(FetchNotOk, "htmx"); (FetchOk [], "css")]
               [(FetchRejected, "htmx"); (FetchRejected, "css")] eq_refl).
    vm_compute. reflexivity.
  - vm_compute. reflexivity.
Defined.

(** ** Maps *)

Section MapFacts.

Context {V : Type}.

Lemma mapLookup_mapSet (key k : string) (v : V) (m : list (string * V)) :
  mapLookup k (mapSet key v m)
  = if (k =? key)%string then Some v else mapLookup k m.
Proof.
  induction m as [|[k' w] m IH]; cbn [mapSet mapLookup].
  - rewrite (String.eqb_sym key k). now destruct (k =? key)%string.
  - destruct (String.eqb_spec k' key) as [->|Hne]; cbn [mapLookup].
    + rewrite (String.eqb_sym key k). now destruct (k =? key)%string.
    + destruct (String.eqb_spec k' k) as [->|Hne'].
      * destruct (String.eqb_spec k key); [congruence|reflexivity].
      * exact IH.
Qed.

Lemma mapLookup_keys (k : string) (m : list (string * V)) :
  mapLookup k m <> None <-> In k (List.map fst m).
Proof.
  induction m as [|[k' w] m IH]; cbn [mapLookup List.map fst In].
  - tauto.
  - destruct (String.eqb_spec k' k) as [->|Hne].
    + split; [now left|discriminate].
    + rewrite IH. split; [now right|]. intros [H|H]; [congruence|exact H].
Qed.

Lemma mapSet_keys (key : string) (v : V) (m : list (string * V)) :
  List.map fst (mapSet key v m)
  = match mapLookup key m with
    | Some _ => List.map fst m
    | None => (List.map fst m ++ [key])%list
    end.
Proof.
  induction m as [|[k' w] m IH]; [reflexivity|].
  cbn [mapSet mapLookup]. destruct (k' =? key)%string; [reflexivity|].
  cbn [List.map fst]. rewrite IH.
  now destruct (mapLookup key m).
Qed.

Lemma mapSet_NoDup (key : string) (v : V) (m : list (string * V)) :
  NoDup (List.map fst m) -> NoDup (List.map fst (mapSet key v m)).
Proof.
  intros H. rewrite mapSet_keys.
  destruct (mapLookup key m) eqn:Hl; [exact H|].
  apply NoDup_app; [exact H|repeat constructor; intros []|].
  intros k Hk [->|[]]. apply mapLookup_keys in Hk. congruence.
Qed.

End MapFacts.

(** X20.  [TemplateRegistry]: [register] followed by [get] gives the
    template back and leaves the other names untouched; a new name goes
    to the end of [names()], a known one keeps its place.  [render] is
    [processTemplate] on a registered non-empty template; it throws for
    an unregistered name, and for a template registered with the empty
    text although [has] is true for it. *)
Theorem registry_renders_registered_templates (E : Externals)
    (registry : TemplateRegistry.t) (name templateHtml : string)
    (context : TemplateContext) :
  TemplateRegistry.get name
    (TemplateRegistry.register name templateHtml registry)
  = Some templateHtml
  /\ (forall other,
         other <> name ->
         TemplateRegistry.get other
           (TemplateRegistry.register name templateHtml registry)
         = TemplateRegistry.get other registry)
  /\ TemplateRegistry.names
       (TemplateRegistry.register name templateHtml registry)
     = (if TemplateRegistry.has name registry
        then TemplateRegistry.names registry
        else TemplateRegistry.names registry ++ [name])%list
  /\ (templateHtml <> "" ->
      TemplateRegistry.render E name context
        (TemplateRegistry.register name templateHtml registry)
      = Returned (processTemplate E templateHtml context))
  /\ (TemplateRegistry.has name (TemplateRegistry.register name "" registry)
      = true
      /\ exists message,
           TemplateRegistry.render E name context
             (TemplateRegistry.register name "" registry)
           = Thrown message)
  /\ (TemplateRegistry.has name registry = false ->
      exists message,
        TemplateRegistry.render E name context registry = Thrown message).
Proof.
  unfold TemplateRegistry.get, TemplateRegistry.register,
    TemplateRegistry.has, TemplateRegistry.names, TemplateRegistry.render,
    TemplateRegistry.get.
  rewrite !mapLookup_mapSet, String.eqb_refl.
  split; [reflexivity|]. split; [|split; [|split; [|split]]].
  - intros other Hne. rewrite mapLookup_mapSet.
    apply String.eqb_neq in Hne. now rewrite Hne.
  - rewrite mapSet_keys. now destruct (mapLookup name registry).
  - intros Hne. destruct templateHtml; [congruence|reflexivity].
  - split; [reflexivity|]. eexists. reflexivity.
  - intros Hhas. destruct (mapLookup name registry); [discriminate|].
    eexists. reflexivity.
Qed.

(** The theorem at a registry with one template. *)
Lemma registry_renders_registered_templates_witness :
  "<h1>{{title}}</h1>" <> ""
  /\ TemplateRegistry.render Demo.env "stub" Demo.context
       (TemplateRegistry.register "stub" "<h1>{{title}}</h1>"
          TemplateRegistry.empty)
     = Returned "<h1>Test Page</h1>"
  /\ TemplateRegistry.has "missing" TemplateRegistry.empty = false
  /\ TemplateRegistry.render Demo.env "missing" Demo.context
       (TemplateRegistry.register "stub" "<p>hi</p>" TemplateRegistry.empty)
     = Thrown ("Template " ++ quoted "missing"
               ++ " is not registered. Available: stub").
Proof.
  assert (Hne : "<h1>{{title}}</h1>" <> "") by discriminate.
  split; [exact Hne|]. split.
  - rewrite (proj1 (proj2 (proj2 (proj2
               (registry_renders_registered_templates Demo.env
                  TemplateRegistry.empty "stub" "<h1>{{title}}</h1>"
                  Demo.context)))) Hne).
    vm_compute. reflexivity.
  - split; [reflexivity|]. vm_compute. reflexivity.
Defined.

(** ** Loading templates from a directory *)

Section LoadFacts.

Variable E : Externals.
Variable basename : string -> string -> string.

Lemma loadTemplates_from (dir : string) (files : list string)
    (registry : TemplateRegistry.t) :
  NoDup (TemplateRegistry.names registry) ->
  let result :=
    fold_left
      (fun registry file =>
         if Js.endsWith file ".html"
         then TemplateRegistry.register (basename file ".html")
                (readFileSync E (pathJoin E [dir; file])) registry
         else registry)
      files registry in
  NoDup (TemplateRegistry.names result)
  /\ forall name,
       TemplateRegistry.has name result = true
       <-> TemplateRegistry.has name registry = true
           \/ exists file,
                In file files /\ Js.endsWith file ".html" = true
                /\ basename file ".html" = name.
Proof.
  revert registry; induction files as [|f files IH]; intros registry Hnd;
    cbn zeta.
  - split; [exact Hnd|]. intros name. cbn [fold_left]. split; [tauto|].
    intros [H|(file & [] & _)]. exact H.
  - cbn [fold_left]. destruct (Js.endsWith f ".html") eqn:Hf.
    + destruct (IH (TemplateRegistry.register (basename f ".html")
                      (readFileSync E (pathJoin E [dir; f])) registry))
        as [Hn Hh].
      { unfold TemplateRegistry.names, TemplateRegistry.register.
        now apply mapSet_NoDup. }
      split; [exact Hn|]. intros name. rewrite Hh.
      unfold TemplateRegistry.has at 1, TemplateRegistry.register.
      rewrite mapLookup_mapSet. fold (TemplateRegistry.has name registry).
      destruct (String.eqb_spec name (basename f ".html")) as [->|Hne].
      * split; [|tauto]. intros _. right. exists f.
        split; [now left|]. now split.
      * unfold TemplateRegistry.has at 1. split.
        -- intros [H|(file & Hin & He & Hb)]; [now left|].
           right. exists file. split; [now right|]. now split.
        -- intros [H|(file & [<-|Hin] & He & Hb)]; [now left|congruence|].
           right. exists file. now repeat split.
    + destruct (IH registry Hnd) as [Hn Hh]. split; [exact Hn|].
      intros name. rewrite Hh. split.
      * intros [H|(file & Hin & He & Hb)]; [now left|].
        right. exists file. split; [now right|]. now split.
      * intros [H|(file & [<-|Hin] & He & Hb)]; [now left|congruence|].
        right. exists file. now repeat split.
Qed.

End LoadFacts.

(** X21.  [loadTemplatesFromDir] gives the empty registry for a
    directory that does not exist; otherwise the registered names are,
    without repetition, the base names of the files of the directory
    that end with [.html]. *)
Theorem loadTemplatesFromDir_registers_html_files (E : Externals)
    (existsSync : string -> bool) (readdirSync : string -> list string)
    (basename : string -> string -> string) (dir : string) :
  (existsSync dir = false ->
   TemplateRegistry.names
     (loadTemplatesFromDir E existsSync readdirSync basename dir) = [])
  /\ (existsSync dir = true ->
      NoDup (TemplateRegistry.names
               (loadTemplatesFromDir E existsSync readdirSync basename dir))
      /\ forall name,
           TemplateRegistry.has name
             (loadTemplatesFromDir E existsSync readdirSync basename dir)
           = true
           <-> exists file,
                 In file (readdirSync dir)
                 /\ Js.endsWith file ".html" = true
                 /\ basename file ".html" = name).
Proof.
  unfold loadTemplatesFromDir. split; intros ->; cbn [negb]; [reflexivity|].
  destruct (loadTemplates_from E basename dir (readdirSync dir)
              TemplateRegistry.empty (NoDup_nil _)) as [Hn Hh].
  split; [exact Hn|]. intros name. rewrite Hh. split; [|tauto].
  intros [H|H]; [discriminate H|exact H].
Qed.

(** The theorem at a directory with two templates and a read-me. *)
Lemma loadTemplatesFromDir_registers_html_files_witness :
  (fun dir => (dir =? "templates")%string) "templates" = true
  /\ TemplateRegistry.names
       (loadTemplatesFromDir Demo.env
          (fun dir => (dir =? "templates")%string)
          (fun _ => templateFiles) templateName "templates")
     = ["default"; "blank"]
  /\ (TemplateRegistry.has "blank"
        (loadTemplatesFromDir Demo.env
           (fun dir => (dir =? "templates")%string)
           (fun _ => templateFiles) templateName "templates") = true
      <-> exists file,
            In file templateFiles /\ Js.endsWith file ".html" = true
            /\ templateName file ".html" = "blank")
  /\ TemplateRegistry.names
       (loadTemplatesFromDir Demo.env
          (fun dir => (dir =? "templates")%string)
          (fun _ => templateFiles) templateName "/tmp/does-not-exist-xyz")
     = [].
Proof.
  split; [reflexivity|]. split; [vm_compute; reflexivity|]. split.
  - exact (proj2 (proj2 (loadTemplatesFromDir_registers_html_files Demo.env
                           (fun dir => (dir =? "templates")%string)
                           (fun _ => templateFiles) templateName "templates")
                    eq_refl) "blank").
  - exact (proj1 (loadTemplatesFromDir_registers_html_files Demo.env
                    (fun dir => (dir =? "templates")%string)
                    (fun _ => templateFiles) templateName
                    "/tmp/does-not-exist-xyz") eq_refl).
Defined.

(** X22.  The component map of [TemplateEngine]: a registered component
    is rendered with the props it is given, registering one leaves the
    others as they were, and [renderComponent] throws for a name that
    was never registered. *)
Theorem components_render_when_registered (Props : Type)
    (components : ComponentMap Props) (name : string)
    (component : Props -> string) (props : Props) :
  renderComponent Props name props
    (registerComponent Props name component components)
  = Returned (component props)
  /\ hasComponent Props name
       (registerComponent Props name component components) = true
  /\ (forall other,
         other <> name ->
         renderComponent Props other props
           (registerComponent Props name component components)
         = renderComponent Props other props components)
  /\ (hasComponent Props name components = false ->
      renderComponent Props name props components
      = Thrown ("Component " ++ quoted name ++ " is not registered")).
Proof.
  unfold renderComponent, registerComponent, hasComponent.
  rewrite !mapLookup_mapSet, String.eqb_refl.
  split; [reflexivity|]. split; [reflexivity|]. split.
  - intros other Hne. rewrite mapLookup_mapSet.
    apply String.eqb_neq in Hne. now rewrite Hne.
  - intros H. destruct (mapLookup name components); [discriminate|reflexivity].
Qed.

(** The theorem at a map with one component. *)
Lemma components_render_when_registered_witness :
  "card" <> "badge"
  /\ hasComponent string "card" [] = false
  /\ renderComponent string "card" "x" [] =
     Thrown ("Component " ++ quoted "card" ++ " is not registered")
  /\ renderComponent string "card" "x"
       (registerComponent string "badge" (fun p => "[" ++ p ++ "]") [])
     = renderComponent string "card" "x" [].
Proof.
  assert (Hne : "card" <> "badge") by discriminate.
  destruct (components_render_when_registered string [] "card"
              (fun p => p) "x") as (_ & _ & _ & Hmissing).
  destruct (components_render_when_registered string [] "badge"
              (fun p => "[" ++ p ++ "]") "x") as (_ & _ & Hother & _).
  split; [exact Hne|]. split; [reflexivity|].
  split; [exact (Hmissing eq_refl)|]. exact (Hother "card" Hne).
Defined.

(** ** Metadata defaults and the written page *)

(** ** [String.prototype.trim] *)

Lemma dropWhile_head (p : ascii -> bool) (s : string) (c : ascii)
    (r : string) :
  Js.dropWhile p s = String c r -> p c = false.
Proof.
  induction s as [|d s IH]; [discriminate|]. cbn [Js.dropWhile].
  destruct (p d) eqn:Hd; [exact IH|]. now intros [= <- _].
Qed.

Lemma trim_trim (s : string) : Js.trim (Js.trim s) = Js.trim s.
Proof.
  unfold Js.trim, Js.trimStart, Js.trimEnd.
  set (t := Js.dropWhile Js.isSpace s).
  set (u := Js.dropWhile Js.isSpace (Js.rev t)).
  assert (Hu : Js.dropWhile Js.isSpace u = u).
  { apply dropWhile_keep. intros c r Hc. unfold u in Hc.
    now apply dropWhile_head in Hc. }
  assert (Hr : Js.dropWhile Js.isSpace (Js.rev u) = Js.rev u).
  { apply dropWhile_keep. intros c r Hc.
    assert (Ht : t = Js.rev u ++ Js.rev (Js.takeWhile Js.isSpace (Js.rev t))).
    { rewrite <- rev_append. fold u.
      unfold u. rewrite take_drop_while. now rewrite rev_involutive. }
    rewrite Hc in Ht. cbn [append] in Ht. unfold t in Ht.
    now apply dropWhile_head in Ht. }
  now rewrite Hr, rev_involutive, Hu.
Qed.

(** X17.  On a header that parses, [parsePageMetadata] throws
    'Short-URI is required' for a falsy [Short-URI] whatever the [Type],
    and 'Invalid Type' for a type that is not page, post or section.
    What it returns has the trimmed [Short-URI], a title that is falsy
    only if the Short-URI is empty, order 999 for a missing [Order] and the
    parent [root] for a missing [Parent]. *)
Theorem parsePageMetadata_errors_and_defaults
    (parseFm : string -> option (FrontmatterData * string))
    (numberText : Q -> string) (textNumber : string -> JsNumber)
    (content : string) (data : FrontmatterData) (body : string) :
  parseFm content = Some (data, body) ->
  (truthy (fm_ShortURI data) = false ->
   parsePageMetadata parseFm numberText textNumber content
   = Err ErrShortUriRequired)
  /\ (truthy (fm_ShortURI data) = true ->
      pageTypeOf (orVal (fm_Type data) (JStr "page")) = None ->
      parsePageMetadata parseFm numberText textNumber content
      = Err (ErrInvalidType
               (toStr numberText (orVal (fm_Type data) (JStr "page")))))
  /\ (forall metadata,
         parsePageMetadata parseFm numberText textNumber content
         = Ok metadata ->
         truthy (fm_ShortURI data) = true
         /\ pageTypeOf (orVal (fm_Type data) (JStr "page"))
            = Some (type metadata)
         /\ shortUri metadata
            = Js.trim (toStr numberText (fm_ShortURI data))
         /\ Js.trim (shortUri metadata) = shortUri metadata
         /\ (truthy (title metadata) = false -> shortUri metadata = "")
         /\ (fm_Order data = JUndefined -> order metadata = numOfZ 999)
         /\ (fm_Parent data = JUndefined -> parent metadata = "root")).
Proof.
  intros Hp. unfold parsePageMetadata. rewrite Hp.
  split; [intros ->; reflexivity|]. split; [intros -> ->; reflexivity|].
  intros metadata.
  destruct (truthy (fm_ShortURI data)); cbn [negb]; [|discriminate].
  destruct (pageTypeOf (orVal (fm_Type data) (JStr "page"))) as [ty|];
    [|discriminate].
  intros [= <-]. cbn [type shortUri title order parent].
  split; [reflexivity|]. split; [reflexivity|]. split; [reflexivity|].
  split; [apply trim_trim|]. split; [|split].
  - unfold orVal.
    destruct (truthy (fm_title data)) eqn:H1; [congruence|].
    destruct (truthy (fm_Title data)) eqn:H2; [congruence|].
    cbn [truthy]. intros H. apply negb_false_iff in H.
    now apply String.eqb_eq in H.
  - intros ->. reflexivity.
  - intros ->. reflexivity.
Qed.

(** The theorem at a header with a padded [Short-URI] and at a header
    without one. *)
Lemma parsePageMetadata_errors_and_defaults_witness :
  (fun _ : string => Some (paddedHeader, "# About")) "about.md"
  = Some (paddedHeader, "# About")
  /\ (exists metadata,
         parsePageMetadata (fun _ => Some (paddedHeader, "# About"))
           Demo.wholeToString Demo.parseNumber "about.md"
         = Ok metadata
         /\ shortUri metadata = "about"
         /\ Js.trim (shortUri metadata) = shortUri metadata
         /\ order metadata = numOfZ 999
         /\ parent metadata = "root")
  /\ parsePageMetadata (fun _ => Some (Demo.draftHeader, "# Draft"))
       Demo.wholeToString Demo.parseNumber "draft.md"
     = Err ErrShortUriRequired.
Proof.
  split; [reflexivity|]. split.
  - destruct (parsePageMetadata (fun _ => Some (paddedHeader, "# About"))
                Demo.wholeToString Demo.parseNumber "about.md")
      as [metadata|e] eqn:Hm;
      [|vm_compute in Hm; discriminate Hm].
    exists metadata.
    destruct (proj2 (proj2 (parsePageMetadata_errors_and_defaults
                              (fun _ => Some (paddedHeader, "# About"))
                              Demo.wholeToString Demo.parseNumber
                              "about.md" paddedHeader "# About" eq_refl))
                metadata Hm)
      as (_ & _ & Hs & Ht & _ & Ho & Hpar).
    split; [reflexivity|]. split; [rewrite Hs; vm_compute; reflexivity|].
    split; [exact Ht|]. split; [exact (Ho eq_refl)|exact (Hpar eq_refl)].
  - exact (proj1 (parsePageMetadata_errors_and_defaults
                    (fun _ => Some (Demo.draftHeader, "# Draft"))
                    Demo.wholeToString Demo.parseNumber
                    "draft.md" Demo.draftHeader "# Draft" eq_refl) eq_refl).
Defined.

(** ** What a written page holds *)

Lemma includes_refl (x : string) : Js.includes x x = true.
Proof.
  assert (H := includes_prefix x ""). now rewrite append_nil_r in H.
Qed.

Lemma includes_split (s x : string) :
  Js.includes s x = true -> exists a b, s = a ++ x ++ b.
Proof.
  induction s as [|c s IH]; cbn [Js.includes].
  - rewrite orb_false_r. intros (r & Hr)%stripPrefix_some. now exists "", r.
  - intros [H|H]%orb_true_iff.
    + apply stripPrefix_some in H as (r & Hr). now exists "", r.
    + destruct (IH H) as (a & b & ->). now exists (String c a), b.
Qed.

Lemma includes_trans (s y x : string) :
  Js.includes s y = true -> Js.includes y x = true ->
  Js.includes s x = true.
Proof.
  intros (a & b & ->)%includes_split (a' & b' & ->)%includes_split.
  rewrite !append_assoc. apply includes_append_r, includes_append_r.
  apply includes_prefix.
Qed.

Lemma renderLayout_holds (E : Externals) (title description keywords : JsVal)
    (children : string)
    (cssFiles jsFiles siteLabels : list string) (basePath : string) :
  Js.includes
    (renderLayout E title description keywords children cssFiles jsFiles
       siteLabels basePath) children = true
  /\ Js.includes
       (renderLayout E title description keywords children cssFiles jsFiles
          siteLabels basePath) ("<title>" ++ str E title ++ "</title>")
     = true.
Proof.
  unfold renderLayout. cbv zeta. split.
  - apply includes_join with (y := "        " ++ children).
    + do 15 right. left. reflexivity.
    + apply includes_append_r, includes_refl.
  - apply includes_join
      with (y := "    <title>" ++ str E title ++ "</title>").
    + do 8 right. left. reflexivity.
    + apply (includes_append_r "    "), includes_refl.
Qed.

Lemma orVal_twice (x y : JsVal) : orVal x (orVal x y) = orVal x y.
Proof. unfold orVal. now destruct (truthy x). Qed.

Lemma renderPage_holds (E : Externals) (config : BuildConfig)
    (navigation : list NavItem) (siteLabels : list string)
    (file : ContentFile) (processed : ProcessedFile) :
  Js.includes
    (renderPage E (pageDataOf E config navigation siteLabels file processed))
    (mainOpen ++ pf_html processed ++ "</main>") = true
  /\ Js.includes
       (renderPage E
          (pageDataOf E config navigation siteLabels file processed))
       ("<title>" ++ str E (pageTitleOf config (pf_data processed))
        ++ "</title>")
     = true.
Proof.
  unfold renderPage, pageDataOf.
  cbn [pd_frontmatter pd_title pd_content pd_navigation pd_description
       pd_keywords pd_cssFiles pd_jsFiles pd_siteLabels pd_basePath].
  rewrite orVal_twice. fold (pageTitleOf config (pf_data processed)).
  match goal with
  | |- Js.includes (renderLayout E ?t ?d ?k ?c ?css ?js ?sl ?bp) _ = _ /\ _ =>
      destruct (renderLayout_holds E t d k c css js sl bp) as [Hc Ht]
  end.
  split; [|exact Ht]. eapply includes_trans; [exact Hc|].
  destruct (List.map (withActive E (relativePath file)) navigation);
    [apply includes_refl|].
  apply includes_append_r, includes_append_r, includes_refl.
Qed.

(** X8.  In a build that completes, the page of every scanned document
    is written at its output path; it holds the compiled body inside the
    [main] element, and in the [title] element the [title] of the
    header, else the configured default title, else [Untitled]. *)
Theorem written_page_holds_compiled_body (E : Externals)
    (config : BuildConfig) (files : list ContentFile) (file : ContentFile)
    (html : string) (data : FrontmatterData) :
  outcome (build E config files) = Done ->
  In file files ->
  compileWithFrontmatter E (pageSource E files file) = Some (html, data) ->
  exists page,
    In (pathJoin E [outputDir config; getOutputPath (relativePath file)],
        page)
       (writes (build E config files))
    /\ Js.includes page (mainOpen ++ html ++ "</main>") = true
    /\ Js.includes page
         ("<title>" ++ str E (pageTitleOf config data) ++ "</title>")
       = true.
Proof.
  intros Hdone Hin Hfile.
  destruct (build_done_page E config files file html data Hdone Hin Hfile)
    as (nav & _ & Hw).
  eexists. split; [exact Hw|].
  exact (renderPage_holds E config _ _ file
           {| pf_html := html;
              pf_data := data;
              pf_outputPath := getOutputPath (relativePath file) |}).
Qed.

(** The theorem at the post of the demo site. *)
Lemma written_page_holds_compiled_body_witness :
  outcome (build Demo.env Demo.config Demo.site) = Done
  /\ In Demo.post Demo.site
  /\ compileWithFrontmatter Demo.env
       (pageSource Demo.env Demo.site Demo.post)
     = Some ("<p># Post</p>",
             Demo.header "post" (JStr "blog") JUndefined
               (JArr [JStr "htmx"; JStr "css"]) (JStr "Post"))
  /\ exists page,
       In ("dist/blog/post/index.html", page)
          (writes (build Demo.env Demo.config Demo.site))
       /\ Js.includes page (mainOpen ++ "<p># Post</p>" ++ "</main>") = true
       /\ Js.includes page "<title>Post</title>" = true.
Proof.
  assert (Hd : outcome (build Demo.env Demo.config Demo.site) = Done)
    by (vm_compute; reflexivity).
  assert (Hi : In Demo.post Demo.site) by (right; right; left; reflexivity).
  assert (Hp : compileWithFrontmatter Demo.env
                 (pageSource Demo.env Demo.site Demo.post)
               = Some ("<p># Post</p>",
                       Demo.header "post" (JStr "blog") JUndefined
                         (JArr [JStr "htmx"; JStr "css"]) (JStr "Post")))
    by (vm_compute; reflexivity).
  split; [exact Hd|]. split; [exact Hi|]. split; [exact Hp|].
  destruct (written_page_holds_compiled_body Demo.env Demo.config Demo.site
              Demo.post _ _ Hd Hi Hp) as (page & Hw & Hb & Ht).
  exists page. split; [exact Hw|]. split; [exact Hb|exact Ht].
Defined.

(** ** Documents whose metadata does not parse *)

Section SkippedDocuments.

Variable E : Externals.
Variable config : BuildConfig.

(** Taking out a document whose metadata does not parse leaves the text
    of every file as the render loop hands it to the compiler. *)
Lemma pageSource_without (pre post : list ContentFile) (file f : ContentFile)
    (e : BuildError) :
  metadataOf E file = Err e ->
  pageSource E (pre ++ file :: post) f = pageSource E (pre ++ post) f.
Proof.
  intros Hm. unfold pageSource.
  now rewrite (proj1 (proj2 (proj2 (aggregations_without E pre post file e
                                      Hm)))).
Qed.

Lemma compiles_without (pre post : list ContentFile) (file : ContentFile)
    (e : BuildError) (l : list ContentFile) :
  metadataOf E file = Err e ->
  forallb (compiles E (pre ++ file :: post)) l
  = forallb (compiles E (pre ++ post)) l.
Proof.
  intros Hm. induction l as [|f l IH]; [reflexivity|]. cbn [forallb].
  unfold compiles at 1 3. now rewrite (pageSource_without pre post file f e Hm), IH.
Qed.

(** The outcome of [build] with such a document: the one of the build
    without it where the compiler returns on the document, a rejection
    where it throws on it and the build without it completes. *)
Lemma build_outcome_without (pre post : list ContentFile)
    (file : ContentFile) (e : BuildError) :
  metadataOf E file = Err e ->
  outcome (build E config (pre ++ file :: post))
  = match generateNavigation E (pre ++ post) with
    | Err err => Aborted err
    | Ok _ =>
        if forallb (compiles E (pre ++ post)) pre
           && compiles E (pre ++ file :: post) file
           && forallb (compiles E (pre ++ post)) post
        then Done else Aborted ErrCompile
    end.
Proof.
  intros Hm. rewrite build_outcome.
  rewrite (proj1 (aggregations_without E pre post file e Hm)).
  destruct (generateNavigation E (pre ++ post)); [|reflexivity].
  rewrite forallb_app. cbn [forallb].
  rewrite !(compiles_without pre post file e _ Hm).
  now rewrite andb_assoc.
Qed.

End SkippedDocuments.



(** C9.  A scanned file on whose text the compiler returns while its
    page metadata is invalid is compiled and written like any other:
    the build ends as the build without the file does; a build that
    completes, and already one whose loop reaches the file, has written
    its page at the mapped output path, with the compiled body in the
    [main] element and the title in the [title] element.  The file is
    left out of the navigation, the site label set, the children map and
    the page-index input only.  A file without [Short-URI] reaches the
    compiler as it was read. *)
Theorem invalid_metadata_page_is_rendered (E : Externals)
    (config : BuildConfig) (pre post : list ContentFile)
    (file : ContentFile) (e : BuildError)
    (html : string) (data : FrontmatterData) :
  let files := (pre ++ file :: post)%list in
  let written page :=
    In (pathJoin E [outputDir config; getOutputPath (relativePath file)],
        page)
       (writes (build E config files))
    /\ Js.includes page (mainOpen ++ html ++ "</main>") = true
    /\ Js.includes page
         ("<title>" ++ str E (pageTitleOf config data) ++ "</title>")
       = true in
  metadataOf E file = Err e ->
  compileWithFrontmatter E (pageSource E files file) = Some (html, data) ->
  outcome (build E config files) = outcome (build E config (pre ++ post))
  /\ (outcome (build E config files) = Done -> exists page, written page)
  /\ (forall navigation,
         generateNavigation E files = Ok navigation ->
         (forall f, In f pre ->
                    compileWithFrontmatter E (pageSource E files f) <> None) ->
         exists page, written page)
  /\ generateNavigation E files = generateNavigation E (pre ++ post)
  /\ collectSiteLabels E files = collectSiteLabels E (pre ++ post)
  /\ collectChildrenMap E files = collectChildrenMap E (pre ++ post)
  /\ collectAllPageMetadata E files = collectAllPageMetadata E (pre ++ post)
  /\ (e = ErrShortUriRequired ->
      pageSource E files file = readFileSync E (cf_path file)).
Proof.
  intros files written Hm Hfile.
  destruct (aggregations_without E pre post file e Hm)
    as (Hnav & Hsl & Hcm & Hpm).
  assert (Hreach : forall navigation,
             generateNavigation E files = Ok navigation ->
             (forall f, In f pre ->
                        compileWithFrontmatter E (pageSource E files f)
                        <> None) ->
             exists page, written page).
  { intros nav Hn Hpre. eexists. split.
    - apply (build_writes_pages E config files nav); [exact Hn|].
      apply renderAll_reaches; [exact Hpre|exact Hfile].
    - exact (renderPage_holds E config _ _ file
               {| pf_html := html;
                  pf_data := data;
                  pf_outputPath := getOutputPath (relativePath file) |}). }
  split; [|split; [|split; [exact Hreach|]]].
  - unfold files.
    rewrite (build_outcome_without E config pre post file e Hm),
      (build_outcome E config (pre ++ post)), forallb_app.
    unfold compiles at 2. fold files. rewrite Hfile.
    now rewrite andb_true_r.
  - intros Hdone.
    assert (Hall := build_done_compiles E config files Hdone).
    apply build_done_iff in Hdone as (nav & Hn & _).
    apply (Hreach nav Hn). intros f Hf.
    specialize (Hall f (in_or_app _ _ _ (or_introl Hf))).
    unfold compiles in Hall.
    destruct (compileWithFrontmatter E (pageSource E files f));
      [discriminate|discriminate Hall].
  - repeat split; try assumption.
    intros ->. unfold metadataOf, parsePageMetadata in Hm.
    destruct (parseFrontmatter E (readFileSync E (cf_path file)))
      as [[d b]|] eqn:Hp; [|discriminate].
    destruct (truthy (fm_ShortURI d)) eqn:Hu.
    + cbn [negb] in Hm. destruct (pageTypeOf _); discriminate.
    + now apply (pageSource_no_shortUri E _ _ d b).
Qed.

(** The theorem at the draft of the demo site: it is written to
    [dist/draft/index.html] and the navigation does not list it. *)
Lemma invalid_metadata_page_is_rendered_witness :
  metadataOf Demo.env Demo.draft = Err ErrShortUriRequired
  /\ compileWithFrontmatter Demo.env
       (pageSource Demo.env Demo.draftSite Demo.draft)
     = Some ("<p># Draft</p>", Demo.draftHeader)
  /\ outcome (build Demo.env Demo.config Demo.draftSite) = Done
  /\ (exists page,
         In ("dist/draft/index.html", page)
            (writes (build Demo.env Demo.config Demo.draftSite))
         /\ Js.includes page (mainOpen ++ "<p># Draft</p>" ++ "</main>")
            = true
         /\ Js.includes page "<title>Draft</title>" = true)
  /\ generateNavigation Demo.env Demo.draftSite
     = generateNavigation Demo.env [Demo.home; Demo.blog].
Proof.
  assert (Hd : outcome (build Demo.env Demo.config Demo.draftSite) = Done)
    by (vm_compute; reflexivity).
  split; [reflexivity|]. split; [vm_compute; reflexivity|].
  split; [exact Hd|].
  destruct (invalid_metadata_page_is_rendered Demo.env Demo.config
              [Demo.home] [Demo.blog] Demo.draft ErrShortUriRequired
              "<p># Draft</p>" Demo.draftHeader eq_refl eq_refl)
    as (_ & Hpage & _ & Hnav & _).
  split; [exact (Hpage Hd)|exact Hnav].
Defined.


(** ** Folder indexes and idempotent slugs *)





(** X14.  A slug is its own slug: [generateSlug] and [labelSlug] leave
    the result of [generateSlug] as it is. *)
Theorem slug_is_idempotent (text : string) :
  Slug.generateSlug (Slug.generateSlug text) = Slug.generateSlug text
  /\ Slug.labelSlug (Slug.generateSlug text) = Slug.generateSlug text
  /\ Slug.labelSlug (Slug.labelSlug text) = Slug.labelSlug text.
Proof.
  assert (H := generateSlug_of_slug _ (generateSlug_isSlug text)).
  split; [exact H|]. split; exact H.
Qed.

(** ** Tests of the repository, replayed on the embedding *)

(** page-metadata.test.ts, [generateShortUri] on fresh titles. *)
Example generateSlug_tests :
  Slug.generateSlug "Getting Started Guide" = "getting-started-guide"
  /\ Slug.generateSlug "C++ & C# Programming!" = "c-c-programming"
  /\ Slug.generateSlug "Test" = "test".
Proof. repeat split; vm_compute; reflexivity. Qed.

(** page-metadata.test.ts: a missing or [null] parent is [root], a
    missing or non-numeric order is 999, a single label is an array, a
    header without [Short-URI] or with an unknown [Type] throws. *)
Example parsePageMetadata_tests :
  let parseOf data :=
    parsePageMetadata (fun _ => Some (data, "")) Demo.wholeToString
      Demo.parseNumber "" in
  let header parent order labels type :=
    mkFrontmatter JUndefined JUndefined (JStr "test") type parent labels
                  JUndefined JUndefined order JUndefined JUndefined
                  JUndefined JUndefined JUndefined JUndefined in
  option_map parent
    (match parseOf (header JNull JUndefined JUndefined (JStr "page")) with
     | Ok m => Some m | Err _ => None end) = Some "root"
  /\ option_map order
       (match parseOf (header JUndefined (JNum (numOfZ 10)) JUndefined
                         JUndefined)
        with Ok m => Some m | Err _ => None end) = Some (numOfZ 10)
  /\ option_map order
       (match parseOf (header JUndefined (JStr "abc") JUndefined JUndefined)
        with Ok m => Some m | Err _ => None end) = Some (numOfZ 999)
  /\ option_map order
       (match parseOf (header JUndefined JUndefined JUndefined JUndefined)
        with Ok m => Some m | Err _ => None end) = Some (numOfZ 999)
  /\ option_map labels
       (match parseOf (header JUndefined JUndefined (JStr "tutorial")
                         JUndefined)
        with Ok m => Some m | Err _ => None end) = Some ["tutorial"]
  /\ parseOf (header JUndefined JUndefined JUndefined (JStr "invalid-type"))
     = Err (ErrInvalidType "invalid-type")
  /\ parseOf emptyFrontmatter = Err ErrShortUriRequired.
Proof. repeat split; vm_compute; reflexivity. Qed.

(** tag-engine.test.ts, [estimateReadingTime]. *)
Example estimateReadingTime_tests :
  estimateReadingTime "<p>Hello</p>" = 1%nat
  /\ estimateReadingTime
       "<h1>Title</h1><p>one two three</p><strong>four</strong>" = 1%nat.
Proof. repeat split; vm_compute; reflexivity. Qed.

(** tag-engine.test.ts, [processTemplate] and [isTagTruthy] on a context
    without navigation. *)
Example processTemplate_tests :
  processTemplate Demo.env "<h1>{{title}}</h1>" Demo.context
  = "<h1>Test Page</h1>"
  /\ processTemplate Demo.env
       "<title>{{title}}</title><p>{{description}}</p>" Demo.context
     = "<title>Test Page</title><p>A test page</p>"
  /\ processTemplate Demo.env
       "BEFORE{{#if navigation}}<nav>NAV</nav>{{/if}}AFTER" Demo.context
     = "BEFOREAFTER"
  /\ isTagTruthy Demo.env "title" Demo.context = true
  /\ isTagTruthy Demo.env "navigation" Demo.context = false
  /\ isTagTruthy Demo.env "label-footer" Demo.context = true
  /\ resolveTag Demo.env "reading-time" Demo.context = "1 min read".
Proof. repeat split; vm_compute; reflexivity. Qed.

(** helpers.test.ts: the head holds the title, the base path of the
    style sheet and the description when there is one; builder.test.ts:
    the URL of a section index. *)
Example renderHead_getUrlPath_tests :
  Js.includes (renderHead "Test" "" "" "" [] []) "<title>Test</title>" = true
  /\ Js.includes (renderHead "T" "/Flint" "" "" [] [])
       ("href=" ++ quoted "/Flint/assets/main.css") = true
  /\ Js.includes (renderHead "T" "" "" "" [] [])
       ("name=" ++ quoted "description") = false
  /\ Js.includes (renderHead "T" "" "A page" "" [] [])
       ("<meta name=" ++ quoted "description" ++ " content="
        ++ quoted "A page" ++ ">") = true
  /\ getUrlPath Demo.env "blog/index.md" = "/blog"
  /\ getUrlPath Demo.env "index.md" = "/".
Proof. repeat split; vm_compute; reflexivity. Qed.

(** page-metadata.test.ts, [validatePageMetadata]: valid metadata
    passes; an empty Short-URI, one with a blank and a parent that is not
    among the known Short-URIs throw. *)
Example validatePageMetadata_tests :
  validatePageMetadata (metadataWith "test" "root") None = None
  /\ validatePageMetadata (metadataWith "" "root") None
     = Some ErrEmptyShortUri
  /\ validatePageMetadata (metadataWith "test page!" "root") None
     = Some ErrInvalidCharacters
  /\ validatePageMetadata (metadataWith "test" "non-existent")
       (Some ["root"; "other"])
     = Some (ErrParentMissing "non-existent").
Proof. repeat split; vm_compute; reflexivity. Qed.

(** page-metadata.test.ts, [generateShortUri]: duplicates are
    enumerated. *)
Example generateShortUri_tests :
  generateShortUri 0 "Getting Started Guide" None
  = Some "getting-started-guide"
  /\ generateShortUri 0 "C++ & C# Programming!" None = Some "c-c-programming"
  /\ generateShortUri 2 "Test" (Some ["test"; "test-2"]) = Some "test-3"
  /\ generateShortUri 1 "Test" (Some ["other"]) = Some "test".
Proof. repeat split; vm_compute; reflexivity. Qed.

(** seo.test.ts: the sitemap line of robots.txt with and without a base
    path; the locations of the sitemap, the optional [lastmod], the
    trailing slash of the site URL and the label listing page that is
    left out. *)
Example seo_tests :
  Js.includes (Seo.generateRobotsTxt "https://example.com" "")
    "Sitemap: https://example.com/sitemap.xml" = true
  /\ Js.includes (Seo.generateRobotsTxt "https://example.com" "/Flint")
       "Sitemap: https://example.com/Flint/sitemap.xml" = true
  /\ Js.includes (Seo.generateRobotsTxt "https://example.com" "")
       "//sitemap" = false
  /\ Seo.generateSitemap [aboutEntry; blogEntry; labelEntry]
       "https://example.com/" ""
     = Js.join Js.nl
         [ "<?xml version=" ++ quoted "1.0" ++ " encoding=" ++ quoted "UTF-8"
           ++ "?>";
           "<urlset xmlns="
           ++ quoted "http://www.sitemaps.org/schemas/sitemap/0.9" ++ ">";
           "  <url>";
           "    <loc>https://example.com/about</loc>";
           "    <lastmod>2024-01-20</lastmod>";
           "  </url>";
           "  <url>";
           "    <loc>https://example.com/blog</loc>";
           "  </url>";
           "</urlset>";
           "" ]
  /\ Js.includes (Seo.generateSitemap [] "https://example.com" "") "<url>"
     = false.
Proof. repeat split; vm_compute; reflexivity. Qed.

(** template-registry.test.ts: names in insertion order, a template
    registered twice, rendering through the tag engine and the message
    for a name that is not registered. *)
Example TemplateRegistry_tests :
  let registry :=
    TemplateRegistry.register "stub" "<p>replaced</p>"
      (TemplateRegistry.register "beta" "<h1>{{title}}</h1>"
         (TemplateRegistry.register "stub" "<p>original</p>"
            TemplateRegistry.empty)) in
  TemplateRegistry.names registry = ["stub"; "beta"]
  /\ TemplateRegistry.get "stub" registry = Some "<p>replaced</p>"
  /\ TemplateRegistry.get "nonexistent" registry = None
  /\ TemplateRegistry.has "missing" registry = false
  /\ TemplateRegistry.render Demo.env "beta" Demo.context registry
     = Returned "<h1>Test Page</h1>"
  /\ TemplateRegistry.render Demo.env "missing" Demo.context registry
     = Thrown ("Template " ++ quoted "missing"
               ++ " is not registered. Available: stub, beta").
Proof. repeat split; vm_compute; reflexivity. Qed.

(** template-registry.test.ts, [loadTemplatesFromDir]: files that do
    not end with [.html] are ignored, a directory that does not exist
    gives the empty registry. *)
Example loadTemplatesFromDir_tests :
  TemplateRegistry.names
    (loadTemplatesFromDir Demo.env (fun _ => true) (fun _ => templateFiles)
       templateName "templates")
  = ["default"; "blank"]
  /\ TemplateRegistry.names
       (loadTemplatesFromDir Demo.env (fun _ => false)
          (fun _ => templateFiles) templateName "/tmp/does-not-exist-xyz")
     = [].
Proof. repeat split; vm_compute; reflexivity. Qed.

(** A scan of a content directory with a folder: the markdown files in
    directory order, the folder where it stands, the picture, the text
    file and the link left out. *)
Example scanContent_example :
  List.map relativePath
    (scanContent Demo.env
       (fun from to => Js.drop (S (String.length from)) to)
       (Some contentTree) "content" "content")
  = ["index.md"; "blog/post.md"; "about.md"].
Proof. vm_compute. reflexivity. Qed.
